(** * sarvatra-ai: credential cipher, session tokens and account lifecycle

    A shallow embedding of the server side of the repository
    ([server/routes.ts], [server/storage.ts], [server/auth/*.ts],
    [shared/schema.ts]) and of the token store of its client
    ([client/src/lib/queryClient.ts]), together with the properties its
    specification states about it and further properties of the code.

    Conventions.
    - A JavaScript string is the list of its UTF-16 code units.
    - A [Buffer] is a list of bytes.
    - A plain JavaScript object is a finite map from property names to
      values; object spread is map union and rest-destructuring is deletion.
    - The insertion-ordered [Map] of the in-memory store is an association
      list in insertion order.
    - Node's [crypto], [bcrypt], [jsonwebtoken], the OpenAI client and the
      command schema of [drizzle-zod] are interfaces (type classes); the
      part of their documented contract that a property relies on is a
      hypothesis of that property. Random draws, fresh UUIDs and the clock
      are explicit arguments. *)

From Stdlib Require Import ZArith NArith Lia List Ascii String.
From Stdlib.Strings Require Import Byte.
From stdpp Require Import base option list gmap strings fin_maps.
From stdpp Require Import pretty.
Import ListNotations.

Local Open Scope N_scope.

(** ** JavaScript strings *)

Module JS.

(** A string value: its UTF-16 code units, each below [0x10000]. *)
Abbreviation jsstring := (list N).

(** The string written by an ASCII literal of the source. *)
Definition js (s : string) : jsstring :=
  map N_of_ascii (list_ascii_of_string s).

(** [String.prototype.split] with a one-character separator. *)
Fixpoint split (sep : N) (s : jsstring) : list jsstring :=
  match s with
  | [] => [[]]
  | c :: r =>
      if N.eqb c sep then [] :: split sep r
      else match split sep r with
           | p :: ps => (c :: p) :: ps
           | [] => [[c]]
           end
  end.

(** [Array.prototype.join] with a one-character separator. *)
Fixpoint join (sep : N) (parts : list jsstring) : jsstring :=
  match parts with
  | [] => []
  | [p] => p
  | p :: ps => p ++ sep :: join sep ps
  end.

Definition colon : N := 58.

End JS.
Export JS.

(** ** Buffers and their string encodings *)

Module Buffer.

Abbreviation buffer := (list byte).

#[global] Instance byte_eq_dec : EqDecision byte := Byte.byte_eq_dec.

Definition byte_of_N (n : N) : byte :=
  match Byte.of_N n with Some b => b | None => x00 end.

(** *** ['hex'] *)

Definition hex_digit (n : N) : N := if n <? 10 then 48 + n else 87 + n.

(** The value of a hexadecimal digit (either case), if the unit is one. *)
Definition hex_value (c : N) : option N :=
  if (48 <=? c) && (c <=? 57) then Some (c - 48)
  else if (97 <=? c) && (c <=? 102) then Some (c - 87)
  else if (65 <=? c) && (c <=? 70) then Some (c - 55)
  else None.

(** [buf.toString('hex')]: two lower-case digits per byte. *)
Definition toString_hex (b : buffer) : jsstring :=
  flat_map (fun x => [hex_digit (Byte.to_N x / 16); hex_digit (Byte.to_N x mod 16)]) b.

(** [Buffer.from(s, 'hex')]: decodes pairs of digits and stops at the first
    pair that is not hexadecimal; a trailing single character is dropped. *)
Fixpoint from_hex (s : jsstring) : buffer :=
  match s with
  | h :: l :: r =>
      match hex_value h, hex_value l with
      | Some a, Some b => byte_of_N (16 * a + b) :: from_hex r
      | _, _ => []
      end
  | _ => []
  end.

(** *** ['utf8'] *)

Definition is_high_surrogate (c : N) : bool := (0xD800 <=? c) && (c <? 0xDC00).
Definition is_low_surrogate (c : N) : bool := (0xDC00 <=? c) && (c <? 0xE000).

(** U+FFFD, which stands for every unpaired surrogate. *)
Definition replacement : buffer := [xef; xbf; xbd].

Definition utf8_2 (c : N) : buffer :=
  [byte_of_N (0xC0 + c / 64); byte_of_N (0x80 + c mod 64)].
Definition utf8_3 (c : N) : buffer :=
  [byte_of_N (0xE0 + c / 4096); byte_of_N (0x80 + (c / 64) mod 64);
   byte_of_N (0x80 + c mod 64)].
Definition utf8_4 (p : N) : buffer :=
  [byte_of_N (0xF0 + p / 262144); byte_of_N (0x80 + (p / 4096) mod 64);
   byte_of_N (0x80 + (p / 64) mod 64); byte_of_N (0x80 + p mod 64)].

(** The code point of a surrogate pair. *)
Definition code_point (hi lo : N) : N :=
  0x10000 + (hi - 0xD800) * 1024 + (lo - 0xDC00).

(** [Buffer.from(s, 'utf8')], which is also how [cipher.update(s, 'utf8')]
    reads its input: a surrogate pair becomes four bytes, an unpaired
    surrogate becomes U+FFFD. *)
Fixpoint from_utf8 (s : jsstring) : buffer :=
  match s with
  | [] => []
  | c :: r =>
      if c <? 0x80 then byte_of_N c :: from_utf8 r
      else if c <? 0x800 then utf8_2 c ++ from_utf8 r
      else if is_high_surrogate c then
        match r with
        | d :: r' =>
            if is_low_surrogate d then utf8_4 (code_point c d) ++ from_utf8 r'
            else replacement ++ from_utf8 r
        | [] => replacement
        end
      else if is_low_surrogate c then replacement ++ from_utf8 r
      else utf8_3 c ++ from_utf8 r
  end.

(** A string without unpaired surrogates (and whose units are code units). *)
Fixpoint well_formed (s : jsstring) : bool :=
  match s with
  | [] => true
  | c :: r =>
      if is_high_surrogate c then
        match r with
        | d :: r' => is_low_surrogate d && well_formed r'
        | [] => false
        end
      else (c <? 0x10000) && negb (is_low_surrogate c) && well_formed r
  end.

End Buffer.
Export Buffer.

(** ** Exceptions and results *)

(** What a [throw] carries: an [Error] built by the source with its message,
    or an error raised inside a library. *)
Inductive exn : Type :=
  | Error (message : jsstring)
  | CryptoError
  | ZodError
  | TypeError
  | BcryptError
  | JsonWebTokenError (message : jsstring)
  | TokenExpiredError.

Inductive result (A : Type) : Type :=
  | Ok (a : A)
  | Throw (e : exn).
Arguments Ok {A} a.
Arguments Throw {A} e.

(** ** Node's [crypto] module *)

(** [scryptSync(password, salt, keylen)]; AES-256-GCM as one sealing and one
    opening operation ([createCipheriv]/[update]/[final]/[getAuthTag], and
    [createDecipheriv]/[setAuthTag]/[update]/[final], where every exception
    of the second group is [None]); and the decoder behind
    [decipher.update(_, 'hex', 'utf8')] and [decipher.final('utf8')]. *)
Class Crypto : Type := {
  scryptSync : jsstring -> buffer -> nat -> buffer;
  gcm_seal : buffer -> buffer -> buffer -> buffer * buffer;
  gcm_open : buffer -> buffer -> buffer -> buffer -> option buffer;
  to_utf8_string : buffer -> jsstring
}.

(** The contract of those operations: the derived key has the requested
    length; with a 32-byte key and a 12-byte nonce, opening what was sealed
    gives the plaintext back; decoding the encoding of a well-formed string
    gives the string back. *)
Record CryptoContract (C : Crypto) : Prop := {
  scrypt_length : forall pw salt n, length (scryptSync pw salt n) = n;
  gcm_open_seal : forall key iv pt,
    length key = 32%nat -> length iv = 12%nat ->
    gcm_open key iv (gcm_seal key iv pt).1 (gcm_seal key iv pt).2 = Some pt;
  utf8_decode_encode : forall s,
    well_formed s = true -> to_utf8_string (from_utf8 s) = s
}.

(** ** Process environment and start-up ([routes.ts] 17-23, [jwt-utils.ts] 5-6) *)

Module Config.

(** [process.env]. *)
Abbreviation environment := (gmap string jsstring).




(** [process.env.X || fallback]. *)
Definition or_default (v : option jsstring) (fallback : jsstring) : jsstring :=
  match v with
  | Some (c :: s) => c :: s
  | _ => fallback
  end.

Definition JWT_SECRET (env : environment) : jsstring :=
  or_default (env !! "JWT_SECRET"%string)
             (js "your-super-secret-jwt-key-change-in-production").

Definition JWT_EXPIRES_IN (env : environment) : jsstring :=
  or_default (env !! "JWT_EXPIRES_IN"%string) (js "24h").

(** What the server runs with once its modules are loaded. *)
Record config : Type := {
  session_secret : jsstring;
  jwt_secret : jsstring;
  jwt_expires_in : jsstring
}.


End Config.
Export Config.

(** ** The credential cipher ([routes.ts] 26-93) *)

Module Cipher.
Section cipher.
Context {C : Crypto}.
(** [process.env.SESSION_SECRET]. *)
Variable SESSION_SECRET : jsstring.

(** [salt] and [iv] are the draws of [randomBytes(32)] and [randomBytes(12)].
    With a derived key and a fresh nonce no statement of the [try] block
    throws. *)
Definition encryptApiKey (salt iv : buffer) (apiKey : jsstring) : jsstring :=
  let key := scryptSync SESSION_SECRET salt 32 in
  let encrypted := toString_hex (gcm_seal key iv (from_utf8 apiKey)).1 in
  let authTag := (gcm_seal key iv (from_utf8 apiKey)).2 in
  join colon [toString_hex salt; toString_hex iv; encrypted; toString_hex authTag].

(** The body of the [try] block of [decryptApiKey]. *)
Definition decryptApiKey_try (encryptedData : jsstring) : result jsstring :=
  match split colon encryptedData with
  | [saltHex; ivHex; encryptedHex; authTagHex] =>
      let salt := from_hex saltHex in
      let iv := from_hex ivHex in
      let authTag := from_hex authTagHex in
      let key := scryptSync SESSION_SECRET salt 32 in
      match gcm_open key iv (from_hex encryptedHex) authTag with
      | Some decrypted => Ok (to_utf8_string decrypted)
      | None => Throw CryptoError
      end
  | _ => Throw (Error (js "Invalid encrypted data format"))
  end.

Definition decrypt_failure : exn :=
  Error (js "Failed to decrypt API key - data may be corrupted or tampered with").

(** [decryptApiKey]: whatever the [try] block throws is logged and replaced
    by one error. *)
Definition decryptApiKey (encryptedData : jsstring) : result jsstring :=
  match decryptApiKey_try encryptedData with
  | Ok decrypted => Ok decrypted
  | Throw _ => Throw decrypt_failure
  end.

End cipher.
End Cipher.
Export Cipher.

(** ** Values and objects *)

Module Obj.

(** The values held by the properties of the objects of this program. A
    property that is absent reads as [undefined]: [o !! k = None]. *)
Inductive jsval : Type :=
  | JNull
  | JBool (b : bool)
  | JNum (n : Z)
  | JStr (s : jsstring)
  | JDate (t : Z).

#[global] Instance jsval_eq_dec : EqDecision jsval.
Proof. solve_decision. Defined.

(** A plain object. *)
Abbreviation jsobj := (gmap string jsval).

(** [ToBoolean] of a property read. *)
Definition truthy (v : option jsval) : bool :=
  match v with
  | None | Some JNull => false
  | Some (JBool b) => b
  | Some (JNum n) => negb (Z.eqb n 0)
  | Some (JStr s) => negb (bool_decide (s = []))
  | Some (JDate _) => true
  end.

(** [v || d]. *)
Definition or_else (v : option jsval) (d : jsval) : jsval :=
  match v with
  | Some x => if truthy v then x else d
  | None => d
  end.

(** [v === 'literal']. *)
Definition is_str (v : option jsval) (s : string) : bool :=
  bool_decide (v = Some (JStr (js s))).

(** What [res.json] is given: an object whose properties are values,
    account objects, or arrays of account objects. A property whose value
    is [undefined] is not serialised, hence not present. *)
Inductive json : Type :=
  | Val (v : jsval)
  | Object (o : jsobj)
  | Array (os : list jsobj).

Record response : Type := {
  status : Z;
  body : gmap string json
}.

(** [{ ..., k: v }] where [v] may be [undefined]. *)
Definition with_prop (k : string) (v : option jsval) (o : gmap string json)
  : gmap string json :=
  match v with
  | Some x => <[k := Val x]> o
  | None => o
  end.

Definition error_body (msg : string) : gmap string json :=
  {[ "error"%string := Val (JStr (js msg)) ]}.

(** The objects a response carries. *)
Definition objects_of (j : json) : list jsobj :=
  match j with
  | Val _ => []
  | Object o => [o]
  | Array os => os
  end.

Definition carried (r : response) : list jsobj :=
  flat_map (fun kv => objects_of kv.2) (map_to_list (body r)).

End Obj.
Export Obj.

(** ** Request schemas ([shared/schema.ts], [routes.ts] 96-106) *)

Module Schema.

(** [z.string().min(n)]. *)
Definition z_string_min (n : nat) (v : option jsval) : option jsstring :=
  match v with
  | Some (JStr s) => if (n <=? length s)%nat then Some s else None
  | _ => None
  end.

Definition upper (c : N) : bool := (65 <=? c) && (c <=? 90).
Definition digit (c : N) : bool := (48 <=? c) && (c <=? 57).
(** The punctuation class of the third refinement, by code unit. *)
Definition special (c : N) : bool :=
  bool_decide (c ∈ [33; 64; 35; 36; 37; 94; 38; 42; 40; 41; 44; 46; 63; 34;
                    58; 123; 125; 124; 60; 62]).

Definition strongPasswordSchema (v : option jsval) : option jsstring :=
  match z_string_min 8 v with
  | Some s =>
      if existsb upper s && existsb digit s && existsb special s
      then Some s else None
  | None => None
  end.

(** [loginSchema.parse]: the pair [{ username, password }], or a [ZodError]. *)
Definition loginSchema (b : jsobj) : result (jsstring * jsstring) :=
  match z_string_min 1 (b !! "username"%string),
        z_string_min 1 (b !! "password"%string) with
  | Some u, Some p => Ok (u, p)
  | _, _ => Throw ZodError
  end.

Definition publicRegistrationSchema (b : jsobj) : result (jsstring * jsstring) :=
  match z_string_min 3 (b !! "username"%string),
        strongPasswordSchema (b !! "password"%string) with
  | Some u, Some p => Ok (u, p)
  | _, _ => Throw ZodError
  end.

(** [z.enum(['user', 'admin']).optional().default('user')]. *)
Definition role_enum (v : option jsval) : option jsstring :=
  match v with
  | None => Some (js "user")
  | Some (JStr s) =>
      if bool_decide (s = js "user") || bool_decide (s = js "admin")
      then Some s else None
  | Some _ => None
  end.

(** [adminUserCreationSchema.parse]: the three properties [username],
    [password] and [role] of its result. *)
Definition adminUserCreationSchema (b : jsobj)
  : result (jsstring * jsstring * jsstring) :=
  match z_string_min 3 (b !! "username"%string),
        strongPasswordSchema (b !! "password"%string),
        role_enum (b !! "role"%string) with
  | Some u, Some p, Some r => Ok (u, p, r)
  | _, _, _ => Throw ZodError
  end.

(** An optional string property of a partial schema: absent, or a string. *)
Definition optional_string (v : option jsval) : option (option jsstring) :=
  match v with
  | None => Some None
  | Some (JStr s) => Some (Some s)
  | Some _ => None
  end.

Definition put_string (k : string) (v : option jsstring) (o : jsobj) : jsobj :=
  match v with
  | Some s => <[k := JStr s]> o
  | None => o
  end.

(** [insertUserSchema.partial().parse]: the properties among [username],
    [password] and [role] that the body has, each a string. *)
Definition insertUserSchema_partial (b : jsobj) : result jsobj :=
  match optional_string (b !! "username"%string),
        optional_string (b !! "password"%string),
        optional_string (b !! "role"%string) with
  | Some u, Some p, Some r =>
      Ok (put_string "username" u (put_string "password" p (put_string "role" r ∅)))
  | _, _, _ => Throw ZodError
  end.

End Schema.
Export Schema.

(** ** The in-memory store ([server/storage.ts]) *)

Module Storage.

(** A [Map<string, User>]: the entries in insertion order. *)
Abbreviation users_map := (list (jsstring * jsobj)).

Fixpoint Map_get (k : jsstring) (m : users_map) : option jsobj :=
  match m with
  | [] => None
  | (k', v) :: r => if bool_decide (k' = k) then Some v else Map_get k r
  end.

(** [Map.prototype.set]: an existing key keeps its place. *)
Fixpoint Map_set (k : jsstring) (v : jsobj) (m : users_map) : users_map :=
  match m with
  | [] => [(k, v)]
  | (k', v') :: r =>
      if bool_decide (k' = k) then (k, v) :: r else (k', v') :: Map_set k v r
  end.

Definition Map_values (m : users_map) : list jsobj := m.*2.

(** The part of [MemStorage] the account routes read and write. *)
Record MemStorage : Type := { users : users_map }.

Definition getUser (id : jsstring) (st : MemStorage) : option jsobj :=
  Map_get id (users st).

Definition getUserByUsername (username : jsstring) (st : MemStorage)
  : option jsobj :=
  List.find (fun user => bool_decide (user !! "username"%string = Some (JStr username)))
            (Map_values (users st)).

(** [createUser]; [id] is the draw of [randomUUID()] and [now] the value of
    [new Date()]. The literal's later properties override the spread. *)
Definition createUser (insertUser : jsobj) (id : jsstring) (now : Z)
  (st : MemStorage) : jsobj * MemStorage :=
  let role := or_else (insertUser !! "role"%string) (JStr (js "user")) in
  let status :=
    if is_str (insertUser !! "role"%string) "admin"
    then JStr (js "approved") else JStr (js "pending") in
  let user : jsobj :=
    <["lastLoginAt"%string := JNull]>
      (<["createdAt"%string := JDate now]>
         (<["openaiApiKey"%string := JNull]>
            (<["status"%string := status]>
               (<["role"%string := role]>
                  (<["id"%string := JStr id]> insertUser))))) in
  (user, {| users := Map_set id user (users st) |}).

(** [updateUser]: [{ ...user, ...updates }] replaces the stored object. *)
Definition updateUser (id : jsstring) (updates : jsobj) (st : MemStorage)
  : option jsobj * MemStorage :=
  match Map_get id (users st) with
  | None => (None, st)
  | Some user =>
      let updatedUser : jsobj := updates ∪ user in
      (Some updatedUser, {| users := Map_set id updatedUser (users st) |})
  end.

Definition getAllUsers (st : MemStorage) : list jsobj := Map_values (users st).

(** Every account stored in [st] is still stored in [st'], and differs at
    most in the properties [keys]. *)
Definition unchanged_except (keys : list string) (st st' : MemStorage) : Prop :=
  forall id user, getUser id st = Some user ->
    exists user', getUser id st' = Some user'
                  /\ forall k, k ∉ keys -> user' !! k = user !! k.

End Storage.
Export Storage.

(** ** [bcrypt] and [jsonwebtoken] *)

(** [bcrypt.hash(data, rounds)] with its random salt as an argument, and
    [bcrypt.compare(data, hash)]. *)
Class Bcrypt : Type := {
  bcrypt_hash : jsstring -> nat -> buffer -> jsstring;
  bcrypt_compare : jsstring -> jsstring -> bool
}.

(** The signed compact serialisation of a set of claims under a secret; its
    inverse, which is [None] for a string that is no such serialisation or
    whose signature does not verify under the secret; and the reading of a
    time span such as ['24h'], in seconds. *)
Class Jws : Type := {
  jws_sign : jsstring -> jsobj -> jsstring;
  jws_open : jsstring -> jsstring -> option jsobj;
  timespan : jsstring -> option Z
}.

(** A value that JSON carries unchanged. *)
Definition json_value (v : jsval) : bool :=
  match v with
  | JDate _ => false
  | _ => true
  end.

Record JwsContract (J : Jws) : Prop := {
  jws_open_sign : forall secret (claims : jsobj),
    map_Forall (fun _ v => json_value v = true) claims ->
    jws_open secret (jws_sign secret claims) = Some claims;
  timespan_24h : timespan (js "24h") = Some 86400%Z
}.

Module Jsonwebtoken.
Section jsonwebtoken.
Context {J : Jws}.

(** [jwt.sign(payload, secret, { expiresIn, issuer, audience })] at the
    second [now]; it throws when [expiresIn] is no time span. *)
Definition sign (payload : jsobj) (secret expiresIn issuer audience : jsstring)
  (now : Z) : result jsstring :=
  match timespan expiresIn with
  | None => Throw (Error (js "expiresIn should be a number of seconds or string representing a timespan"))
  | Some span =>
      Ok (jws_sign secret
            (<["iss"%string := JStr issuer]>
               (<["aud"%string := JStr audience]>
                  (<["exp"%string := JNum (now + span)]>
                     (<["iat"%string := JNum now]> payload)))))
  end.

(** The expiry check of [jwt.verify]. *)
Definition check_exp (claims : jsobj) (now : Z) : option exn :=
  match claims !! "exp"%string with
  | Some (JNum e) => if (e <=? now)%Z then Some TokenExpiredError else None
  | Some _ => Some (JsonWebTokenError (js "invalid exp value"))
  | None => None
  end.

(** [jwt.verify(token, secret, { issuer, audience })] at the second [now]. *)
Definition verify (token secret issuer audience : jsstring) (now : Z)
  : result jsobj :=
  match jws_open secret token with
  | None => Throw (JsonWebTokenError (js "invalid token"))
  | Some claims =>
      match check_exp claims now with
      | Some e => Throw e
      | None =>
          if negb (bool_decide (claims !! "aud"%string = Some (JStr audience)))
          then Throw (JsonWebTokenError (js "jwt audience invalid"))
          else if negb (bool_decide (claims !! "iss"%string = Some (JStr issuer)))
          then Throw (JsonWebTokenError (js "jwt issuer invalid"))
          else Ok claims
      end
  end.

End jsonwebtoken.
End Jsonwebtoken.

(** ** Tokens ([server/auth/jwt-utils.ts]) *)

Module JwtUtils.
Section jwt_utils.
Context {J : Jws}.
(** The constants [JWT_SECRET] and [JWT_EXPIRES_IN] of the module. *)
Variable cfg : config.

(** [{ k: v }] added to an object literal; an [undefined] value is not
    serialised. *)
Definition prop (k : string) (v : option jsval) (o : jsobj) : jsobj :=
  match v with
  | Some x => <[k := x]> o
  | None => o
  end.

Definition JWTPayload (user : jsobj) : jsobj :=
  prop "id" (user !! "id"%string)
    (prop "username" (user !! "username"%string)
       (prop "role" (user !! "role"%string)
          (prop "status" (user !! "status"%string) ∅))).

(** The properties the payload copies hold values that JSON carries
    unchanged (in a [User] they are strings). *)
Definition json_subject (user : jsobj) : Prop :=
  forall k v, k ∈ ["id"; "username"; "role"; "status"]%string ->
    user !! k = Some v -> json_value v = true.

Definition generateToken (user : jsobj) (now : Z) : result jsstring :=
  Jsonwebtoken.sign (JWTPayload user) (jwt_secret cfg) (jwt_expires_in cfg)
    (js "sarvatra-ai") (js "sarvatra-ai-users") now.

(** The claims that [jwt.sign] signs for [user] at [now], with a life of
    [span] seconds. *)
Definition claims_of (user : jsobj) (now span : Z) : jsobj :=
  <["iss"%string := JStr (js "sarvatra-ai")]>
    (<["aud"%string := JStr (js "sarvatra-ai-users")]>
       (<["exp"%string := JNum (now + span)]>
          (<["iat"%string := JNum now]> (JWTPayload user)))).

(** [verifyToken]: the [catch] turns every exception into [null]. *)
Definition verifyToken (token : jsstring) (now : Z) : option jsobj :=
  match Jsonwebtoken.verify token (jwt_secret cfg)
          (js "sarvatra-ai") (js "sarvatra-ai-users") now with
  | Ok decoded => Some decoded
  | Throw _ => None
  end.

(** The class [\s] of a regular expression. *)
Definition white_space (c : N) : bool :=
  bool_decide (c ∈ [9; 10; 11; 12; 13; 32; 160; 0x1680; 0x2028; 0x2029;
                    0x202F; 0x205F; 0x3000; 0xFEFF])
  || ((0x2000 <=? c) && (c <=? 0x200A)).

(** What [.] does not match. *)
Definition line_terminator (c : N) : bool :=
  bool_decide (c ∈ [10; 13; 0x2028; 0x2029]).

Fixpoint drop_while (p : N -> bool) (s : jsstring) : jsstring :=
  match s with
  | c :: r => if p c then drop_while p r else s
  | [] => []
  end.

Definition starts_with (pre s : jsstring) : bool :=
  bool_decide (take (length pre) s = pre).

(** [authHeader.match(/^Bearer\s+(.+)$/)]: after [Bearer] comes a run of
    white space and then the token, which runs to the end and holds no line
    terminator. When only white space follows [Bearer], the run gives its
    last character back to the group. *)
Definition extractTokenFromHeader (authHeader : option jsstring)
  : option jsstring :=
  match authHeader with
  | None | Some [] => None
  | Some h =>
      if starts_with (js "Bearer") h then
        let after := drop 6 h in
        let rest := drop_while white_space after in
        match after, rest with
        | [], _ => None
        | c :: _, [] =>
            match last after with
            | Some l =>
                if (2 <=? length after)%nat && negb (line_terminator l)
                then Some [l] else None
            | None => None
            end
        | c :: _, _ :: _ =>
            if white_space c && forallb (fun x => negb (line_terminator x)) rest
            then Some rest else None
        end
      else None
  end.

End jwt_utils.
End JwtUtils.
Export JwtUtils.

(** ** Requests, middleware ([server/auth/*-middleware.ts]) *)

Module Middleware.

(** The parts of an Express request that the modelled routes read:
    [req.headers.authorization], [req.params.id], [req.body] and the
    [req.user] set by [authenticateToken]. *)
Record request : Type := {
  authorization : option jsstring;
  params_id : jsstring;
  req_body : jsobj;
  req_user : option jsobj
}.

Definition set_user (req : request) (u : jsobj) : request :=
  {| authorization := authorization req; params_id := params_id req;
     req_body := req_body req; req_user := Some u |}.

(** The same request with another JSON body. *)
Definition set_body (req : request) (b : jsobj) : request :=
  {| authorization := authorization req; params_id := params_id req;
     req_body := b; req_user := req_user req |}.

(** A middleware answers, or calls [next()] with the request. *)
Definition middleware : Type := request -> response + request.

Section middleware.
Context {J : Jws}.
Variable cfg : config.

(** [authenticateToken] at the second [now]. *)
Definition authenticateToken (now : Z) : middleware := fun req =>
  match extractTokenFromHeader (authorization req) with
  | None =>
      inl {| status := 401; body := error_body "Access denied. No token provided." |}
  | Some token =>
      match verifyToken cfg token now with
      | None =>
          inl {| status := 401; body := error_body "Access denied. Invalid token." |}
      | Some decoded =>
          if negb (is_str (decoded !! "status"%string) "approved") then
            inl {| status := 403;
                   body := with_prop "status" (decoded !! "status"%string)
                             (error_body "Access denied. Account is not approved.") |}
          else inr (set_user req decoded)
      end
  end.

Definition requireAdmin : middleware := fun req =>
  match req_user req with
  | None =>
      inl {| status := 401; body := error_body "Access denied. Authentication required." |}
  | Some user =>
      if negb (is_str (user !! "role"%string) "admin") then
        inl {| status := 403;
               body := with_prop "userRole" (user !! "role"%string)
                         (error_body "Access denied. Admin privileges required.") |}
      else inr req
  end.

End middleware.
End Middleware.
Export Middleware.

(** ** Route handlers: state, early return and exceptions *)

Module Handler.

(** How the body of a handler stops early: [return res...json(...)], or an
    exception on its way to the [catch]. *)
Inductive exit : Type :=
  | Sent (r : response)
  | Raised (e : exn).

(** A computation over the store. *)
Definition handler (A : Type) : Type := MemStorage -> (A + exit) * MemStorage.

#[global] Instance handler_ret : MRet handler :=
  fun A a st => (inl a, st).

#[global] Instance handler_bind : MBind handler :=
  fun A B f m st =>
    match m st with
    | (inl a, st') => f a st'
    | (inr x, st') => (inr x, st')
    end.

Definition send {A} (r : response) : handler A := fun st => (inr (Sent r), st).

(** A call that may throw. *)
Definition call {A} (r : result A) : handler A := fun st =>
  match r with
  | Ok a => (inl a, st)
  | Throw e => (inr (Raised e), st)
  end.

(** A read of the store, and an operation on it. *)
Definition read {A} (f : MemStorage -> A) : handler A := fun st => (inl (f st), st).
Definition update {A} (f : MemStorage -> A * MemStorage) : handler A := fun st =>
  let '(a, st') := f st in (inl a, st').

(** [try { body } catch (error) { res.status(...).json(...) }]. *)
Definition run (body : handler response) (catch : exn -> response)
  (st : MemStorage) : response * MemStorage :=
  match body st with
  | (inl r, st') => (r, st')
  | (inr (Sent r), st') => (r, st')
  | (inr (Raised e), st') => (catch e, st')
  end.

(** [app.METHOD(path, ...middleware, handler)]. *)
Fixpoint route (chain : list middleware) (h : request -> MemStorage -> response * MemStorage)
  (req : request) (st : MemStorage) : response * MemStorage :=
  match chain with
  | [] => h req st
  | m :: chain' =>
      match m req with
      | inl r => (r, st)
      | inr req' => route chain' h req' st
      end
  end.

End Handler.
Export Handler.

(** ** The account routes ([server/routes.ts]) *)

Module Routes.
Section routes.
Context {B : Bcrypt} {J : Jws}.
Variable cfg : config.

(** [const { password, openaiApiKey, ...sanitizedUser } = user]. *)
Definition sanitizeUser (user : jsobj) : jsobj :=
  delete "password"%string (delete "openaiApiKey"%string user).

Definition sanitizeUsers (users : list jsobj) : list jsobj :=
  map sanitizeUser users.

(** An object with neither password hash nor credential blob; a property
    value, a body and an answer all of whose objects are such. *)
Definition sanitized (o : jsobj) : Prop :=
  o !! "password"%string = None /\ o !! "openaiApiKey"%string = None.

Definition clean_json (j : json) : Prop := forall o, o ∈ objects_of j -> sanitized o.

Definition clean_body (b : gmap string json) : Prop :=
  forall k j o, b !! k = Some j -> o ∈ objects_of j -> sanitized o.

Definition clean (r : response) : Prop := clean_body (body r).

Definition reply (code : Z) (b : gmap string json) : response :=
  {| status := code; body := b |}.

(** [bcrypt.compare(password, user.password)], which rejects when the hash
    is not a string. *)
Definition compare (password : jsstring) (hash : option jsval) : result bool :=
  match hash with
  | Some (JStr h) => Ok (bcrypt_compare password h)
  | _ => Throw BcryptError
  end.

(** A call of the store keyed by [user.id]: a value that is no string is no
    key of the map. *)
Definition with_id {A} (id : option jsval) (f : jsstring -> MemStorage -> option A * MemStorage)
  : handler (option A) :=
  match id with
  | Some (JStr i) => update (f i)
  | _ => mret None
  end.

(** [POST /api/auth/login]; [now] is the value of [new Date()] and [iat]
    the second at which the token is signed. *)
Definition login_body (now iat : Z) (req : request) : handler response :=
  '(username, password) ← call (loginSchema (req_body req));
  found ← read (getUserByUsername username);
  match found with
  | None => send (reply 401 (error_body "Invalid credentials"))
  | Some user =>
      isValidPassword ← call (compare password (user !! "password"%string));
      if negb isValidPassword then
        send (reply 401 (error_body "Invalid credentials"))
      else if negb (is_str (user !! "status"%string) "approved") then
        send (reply 403 (with_prop "status" (user !! "status"%string)
                           (error_body "Account pending approval")))
      else
        _ ← with_id (user !! "id"%string)
              (fun id => updateUser id {[ "lastLoginAt"%string := JDate now ]});
        token ← call (generateToken cfg user iat);
        mret (reply 200
                (<["user"%string := Object (sanitizeUser user)]>
                   (<["token"%string := Val (JStr token)]>
                      {[ "expiresIn"%string := Val (JStr (js "24h")) ]})))
  end.

Definition invalid_request (_ : exn) : response :=
  reply 400 (error_body "Invalid request").

Definition login (now iat : Z) (req : request) :=
  run (login_body now iat req) invalid_request.

Definition created_message : jsval :=
  JStr (js "Account created successfully. Please wait for admin approval.").

(** [POST /api/auth/register]; [salt] is the salt [bcrypt.hash] draws, [id]
    the new UUID and [now] the creation date. *)
Definition register_body (salt : buffer) (id : jsstring) (now : Z) (req : request)
  : handler response :=
  '(username, password) ← call (publicRegistrationSchema (req_body req));
  existingUser ← read (getUserByUsername username);
  match existingUser with
  | Some _ => send (reply 409 (error_body "Username already exists"))
  | None =>
      let hashedPassword := bcrypt_hash password 12 salt in
      user ← update (createUser
                        (<["username"%string := JStr username]>
                           (<["password"%string := JStr hashedPassword]>
                              {[ "role"%string := JStr (js "user") ]}))
                        id now);
      mret (reply 201
              (<["user"%string := Object (sanitizeUser user)]>
                 {[ "message"%string := Val created_message ]}))
  end.

Definition register (salt : buffer) (id : jsstring) (now : Z) (req : request) :=
  run (register_body salt id now req) invalid_request.

(** [GET /api/admin/users]. *)
Definition admin_users_body (req : request) : handler response :=
  users ← read getAllUsers;
  mret (reply 200 {[ "users"%string := Array (sanitizeUsers users) ]}).

Definition admin_users_handler (req : request) :=
  run (admin_users_body req) (fun _ => reply 500 (error_body "Failed to fetch users")).

Definition admin_users (clock : Z) :=
  route [authenticateToken cfg clock; requireAdmin] admin_users_handler.

(** [POST /api/admin/create-user]: [{ ...userData, password: hashedPassword }]
    goes to [createUser]. *)
Definition admin_create_user_body (salt : buffer) (id : jsstring) (now : Z)
  (req : request) : handler response :=
  '(username, password, role) ← call (adminUserCreationSchema (req_body req));
  existingUser ← read (getUserByUsername username);
  match existingUser with
  | Some _ => send (reply 409 (error_body "Username already exists"))
  | None =>
      let hashedPassword := bcrypt_hash password 12 salt in
      user ← update (createUser
                        (<["password"%string := JStr hashedPassword]>
                           (<["username"%string := JStr username]>
                              {[ "role"%string := JStr role ]}))
                        id now);
      mret (reply 201 {[ "user"%string := Object (sanitizeUser user) ]})
  end.

Definition admin_create_user_handler (salt : buffer) (id : jsstring) (now : Z)
  (req : request) :=
  run (admin_create_user_body salt id now req) invalid_request.

Definition admin_create_user (clock : Z) (salt : buffer) (id : jsstring) (now : Z) :=
  route [authenticateToken cfg clock; requireAdmin]
    (admin_create_user_handler salt id now).

(** [PUT /api/admin/users/:id/status]. *)
Definition admin_status_body (req : request) : handler response :=
  let id := params_id req in
  let status := req_body req !! "status"%string in
  if negb (is_str status "approved" || is_str status "rejected" || is_str status "pending")
  then send (reply 400 (error_body "Invalid status"))
  else
    user ← update (updateUser id (prop "status" status ∅));
    match user with
    | None => send (reply 404 (error_body "User not found"))
    | Some user => mret (reply 200 {[ "user"%string := Object (sanitizeUser user) ]})
    end.

Definition admin_status_handler (req : request) :=
  run (admin_status_body req) (fun _ => reply 500 (error_body "Failed to update user")).

Definition admin_status (clock : Z) :=
  route [authenticateToken cfg clock; requireAdmin] admin_status_handler.

(** [PUT /api/admin/users/:id]. *)
Definition admin_update_body (salt : buffer) (req : request) : handler response :=
  let id := params_id req in
  parsed ← call (insertUserSchema_partial (req_body req));
  let updates : jsobj :=
    match parsed !! "password"%string with
    | Some (JStr (c :: p)) =>
        <["password"%string := JStr (bcrypt_hash (c :: p) 12 salt)]> parsed
    | _ => parsed
    end in
  user ← update (updateUser id updates);
  match user with
  | None => send (reply 404 (error_body "User not found"))
  | Some user => mret (reply 200 {[ "user"%string := Object (sanitizeUser user) ]})
  end.

Definition admin_update_handler (salt : buffer) (req : request) :=
  run (admin_update_body salt req) invalid_request.

Definition admin_update (clock : Z) (salt : buffer) :=
  route [authenticateToken cfg clock; requireAdmin] (admin_update_handler salt).

(** [GET /api/auth/me]. *)
Definition me_body (req : request) : handler response :=
  match req_user req with
  | None => send (reply 401 (error_body "Authentication required"))
  | Some decoded =>
      user ← with_id (decoded !! "id"%string) (fun id st => (getUser id st, st));
      match user with
      | None => send (reply 404 (error_body "User not found"))
      | Some user => mret (reply 200 {[ "user"%string := Object (sanitizeUser user) ]})
      end
  end.

Definition me_handler (req : request) :=
  run (me_body req) (fun _ => reply 500 (error_body "Failed to fetch user info")).

Definition me (clock : Z) := route [authenticateToken cfg clock] me_handler.

End routes.
End Routes.
Export Routes.

(** ** Reference implementations of the interfaces

    Small executable instances of [Crypto], [Bcrypt] and [Jws], used to run
    the model on concrete inputs and to show that the contracts above can
    be met. They are stand-ins, not the algorithms of the libraries. *)

Module Reference.

(** A UTF-8 decoder over byte values. An ill-formed sequence yields U+FFFD
    for its first byte. *)
Definition continuation (b : N) : bool := (0x80 <=? b) && (b <? 0xC0).

Fixpoint utf8_units (bs : list N) : jsstring :=
  match bs with
  | [] => []
  | b0 :: t0 =>
      if b0 <? 0x80 then b0 :: utf8_units t0
      else if (0xC2 <=? b0) && (b0 <? 0xE0) then
        match t0 with
        | b1 :: t1 =>
            if continuation b1
            then ((b0 - 0xC0) * 64 + (b1 - 0x80)) :: utf8_units t1
            else 0xFFFD :: utf8_units t0
        | [] => [0xFFFD]
        end
      else if (0xE0 <=? b0) && (b0 <? 0xF0) then
        match t0 with
        | b1 :: b2 :: t2 =>
            let c := (b0 - 0xE0) * 4096 + (b1 - 0x80) * 64 + (b2 - 0x80) in
            if continuation b1 && continuation b2 && (0x800 <=? c)
               && negb ((0xD800 <=? c) && (c <? 0xE000))
            then c :: utf8_units t2
            else 0xFFFD :: utf8_units t0
        | _ => 0xFFFD :: utf8_units t0
        end
      else if (0xF0 <=? b0) && (b0 <? 0xF5) then
        match t0 with
        | b1 :: b2 :: b3 :: t3 =>
            let p := (b0 - 0xF0) * 262144 + (b1 - 0x80) * 4096
                     + (b2 - 0x80) * 64 + (b3 - 0x80) in
            if continuation b1 && continuation b2 && continuation b3
               && (0x10000 <=? p) && (p <? 0x110000)
            then (0xD800 + (p - 0x10000) / 1024)
                   :: (0xDC00 + (p - 0x10000) mod 1024) :: utf8_units t3
            else 0xFFFD :: utf8_units t0
        | _ => 0xFFFD :: utf8_units t0
        end
      else 0xFFFD :: utf8_units t0
  end.

Definition checksum (bs : buffer) : byte :=
  byte_of_N (foldr (fun b acc => (Byte.to_N b + acc) mod 256) 0 bs).

(** A 16-byte tag over key, nonce and ciphertext. *)
Definition tag_of (key iv ct : buffer) : buffer :=
  replicate 15 x00 ++ [checksum (key ++ iv ++ ct)].

Definition crypto : Crypto := {|
  scryptSync pw salt n := take n (from_utf8 pw ++ salt ++ replicate n x00);
  gcm_seal key iv pt := (rev pt, tag_of key iv (rev pt));
  gcm_open key iv ct tag :=
    if bool_decide (tag = tag_of key iv ct) then Some (rev ct) else None;
  to_utf8_string bs := utf8_units (map Byte.to_N bs)
|}.

Definition bcrypt : Bcrypt := {|
  bcrypt_hash pw rounds salt := js "$2b$" ++ toString_hex salt ++ 36 :: pw;
  bcrypt_compare pw h :=
    bool_decide (drop_while (fun c => negb (N.eqb c 36)) (drop 4 h) = 36 :: pw)
|}.

Definition jsval_to_sum (v : jsval) : unit + bool + Z + jsstring + Z :=
  match v with
  | JNull => inl (inl (inl (inl tt)))
  | JBool b => inl (inl (inl (inr b)))
  | JNum n => inl (inl (inr n))
  | JStr s => inl (inr s)
  | JDate t => inr t
  end.

Definition jsval_of_sum (x : unit + bool + Z + jsstring + Z) : jsval :=
  match x with
  | inl (inl (inl (inl _))) => JNull
  | inl (inl (inl (inr b))) => JBool b
  | inl (inl (inr n)) => JNum n
  | inl (inr s) => JStr s
  | inr t => JDate t
  end.

#[global] Instance jsval_countable : Countable jsval.
Proof.
  refine (inj_countable' jsval_to_sum jsval_of_sum _).
  intros []; reflexivity.
Defined.

(** A token is one number that encodes the secret and the claims. *)
Definition jws : Jws := {|
  jws_sign secret claims := [Npos (encode (secret, claims))];
  jws_open secret token :=
    match token with
    | [Npos p] =>
        match decode p with
        | Some (s, claims) => if bool_decide (s = secret) then Some claims else None
        | None => None
        end
    | _ => None
    end;
  timespan s := if bool_decide (s = js "24h") then Some 86400%Z else None
|}.

End Reference.

(** ** Sample data *)

Module Sample.
Import Reference.

Definition secret : jsstring := js "0123456789abcdef0123456789abcdef".
Definition salt : buffer := replicate 32 x11.
Definition iv : buffer := replicate 12 x22.

(** An environment with a master secret and nothing else. *)
Definition env : environment := {[ "SESSION_SECRET"%string := secret ]}.

Definition cfg : config :=
  {| session_secret := secret;
     jwt_secret := JWT_SECRET env;
     jwt_expires_in := JWT_EXPIRES_IN env |}.

Definition account (id username hash role status : string) : jsobj :=
  <["id"%string := JStr (js id)]>
    (<["username"%string := JStr (js username)]>
       (<["password"%string := JStr (js hash)]>
          (<["role"%string := JStr (js role)]>
             (<["status"%string := JStr (js status)]>
                (<["openaiApiKey"%string := JNull]>
                   (<["createdAt"%string := JDate 0]>
                      {[ "lastLoginAt"%string := JNull ]})))))).

(** An approved administrator and a user who waits for approval. *)
Definition admin : jsobj :=
  account "u-1" "admin" "$2b$00$Admin#2024" "admin" "approved".
Definition alice : jsobj :=
  account "u-2" "alice" "$2b$00$Str0ng!pass" "user" "pending".

Definition store : MemStorage :=
  {| users := [(js "u-1", admin); (js "u-2", alice)] |}.

Definition request_with (b : jsobj) : request :=
  {| authorization := None; params_id := js "u-2"; req_body := b; req_user := None |}.

Definition credentials (username password : string) : jsobj :=
  <["username"%string := JStr (js username)]>
    {[ "password"%string := JStr (js password) ]}.

Definition empty_store : MemStorage := {| users := [] |}.

(** The body of the registration example: a role is smuggled in. *)
Definition register_alice : request :=
  request_with (<["role"%string := JStr (js "admin")]> (credentials "alice" "Str0ng!pass")).

(** The tokens that [generateToken] issues at second 1000. *)
Definition token_for (user : jsobj) : jsstring :=
  match generateToken (J := jws) cfg user 1000 with
  | Ok token => token
  | Throw _ => []
  end.

Definition bearer (user : jsobj) (b : jsobj) : request :=
  {| authorization := Some (js "Bearer " ++ token_for user);
     params_id := js "u-2"; req_body := b; req_user := None |}.

(** An administrator creates another administrator. *)
Definition create_carol : request :=
  bearer admin (<["role"%string := JStr (js "admin")]> (credentials "carol" "C4rol!pass")).

(** A stored blob, and the same blob with its last digit changed. *)
Definition blob : jsstring :=
  encryptApiKey (C := crypto) secret salt iv (js "sk-test").
Definition tampered : jsstring := removelast blob ++ js "0".

End Sample.

(** ** The client's token store ([client/src/lib/queryClient.ts]) *)

Module Client.

Definition TOKEN_KEY : string := "sarvatra_auth_token".

(** [localStorage]. *)
Abbreviation localStorage := (gmap string jsstring).

Definition getStoredToken (ls : localStorage) : option jsstring := ls !! TOKEN_KEY.

Definition setStoredToken (token : jsstring) (ls : localStorage) : localStorage :=
  <[TOKEN_KEY := token]> ls.

Definition removeStoredToken (ls : localStorage) : localStorage :=
  delete TOKEN_KEY ls.

(** [getAuthHeaders]: the headers object, with [Authorization] when the
    stored token is truthy. *)
Definition getAuthHeaders (ls : localStorage) : gmap string jsstring :=
  match getStoredToken ls with
  | Some (c :: token) => {[ "Authorization"%string := js "Bearer " ++ c :: token ]}
  | _ => ∅
  end.

(** What [throwIfResNotOk] reads of a [Response]: [status], the text of the
    body and [statusText]. *)
Record fetched : Type := {
  res_status : Z;
  res_text : jsstring;
  res_statusText : jsstring
}.

(** [res.ok]. *)
Definition res_ok (res : fetched) : bool :=
  (200 <=? res_status res)%Z && (res_status res <=? 299)%Z.

(** [throwIfResNotOk]: a 401 clears the stored token before the throw. *)
Definition throwIfResNotOk (res : fetched) (ls : localStorage)
  : result unit * localStorage :=
  if negb (res_ok res) then
    let ls' := if (res_status res =? 401)%Z then removeStoredToken ls else ls in
    let text := match res_text res with [] => res_statusText res | t => t end in
    (Throw (Error (js (pretty (res_status res)) ++ js ": " ++ text)), ls')
  else (Ok tt, ls).

End Client.

(** ** The other middleware ([auth-middleware.ts] 40-53, [admin-middleware.ts] 25-48) *)

Module Guards.
Section guards.
Context {J : Jws}.
Variable cfg : config.

(** [optionalAuth] at the second [now]: it always calls [next()]. *)
Definition optionalAuth (now : Z) : middleware := fun req =>
  match extractTokenFromHeader (authorization req) with
  | Some (c :: token) =>
      match verifyToken cfg (c :: token) now with
      | Some decoded =>
          if is_str (decoded !! "status"%string) "approved"
          then inr (set_user req decoded) else inr req
      | None => inr req
      end
  | _ => inr req
  end.

(** [req.params[name]] for the routes of this server, whose only parameter
    is [:id]. *)
Definition req_params (req : request) (name : string) : option jsstring :=
  if bool_decide (name = "id"%string) then Some (params_id req) else None.

(** [requireAdminOrSelf(userIdParam)]. *)
Definition requireAdminOrSelf (userIdParam : string) : middleware := fun req =>
  match req_user req with
  | None =>
      inl {| status := 401; body := error_body "Access denied. Authentication required." |}
  | Some user =>
      let targetUserId := req_params req userIdParam in
      if is_str (user !! "role"%string) "admin"
         || bool_decide (user !! "id"%string = JStr <$> targetUserId)
      then inr req
      else
        inl {| status := 403;
               body := with_prop "userRole" (user !! "role"%string)
                         (error_body "Access denied. Admin privileges or self-access required.") |}
  end.

End guards.
End Guards.
Export Guards.

(** The contract of [bcrypt]: a password matches the hash made of it. *)
Record BcryptContract (B : Bcrypt) : Prop := {
  compare_hash : forall password rounds salt,
    bcrypt_compare password (bcrypt_hash password rounds salt) = true
}.

(** ** Invariants of the account store *)

Module Invariant.

(** Every account is stored under its own [id], and no key occurs twice. *)
Definition keyed (st : MemStorage) : Prop :=
  NoDup (users st).*1
  /\ forall id user, getUser id st = Some user -> user !! "id"%string = Some (JStr id).

(** The [username] column is declared [unique()] in [shared/schema.ts]. *)
Definition has_username (username : jsstring) (user : jsobj) : Prop :=
  user !! "username"%string = Some (JStr username).


(** What one request does to the store: nothing, one [createUser], or one
    [updateUser] whose update has no [id]. *)
Inductive changes (st : MemStorage) : MemStorage -> Prop :=
  | changes_nothing : changes st st
  | changes_create (insertUser : jsobj) (id : jsstring) (now : Z) :
      changes st (createUser insertUser id now st).2
  | changes_update (id : jsstring) (updates : jsobj) :
      updates !! "id"%string = None -> changes st (updateUser id updates st).2.

End Invariant.
Export Invariant.

(** ** The OpenAI client *)

(** A client made with [new OpenAI({ apiKey })]: [models.list()];
    [chat.completions.create] with model [gpt-3.5-turbo], the system
    prompt, the user text, [parseFloat] of the temperature property and
    2000 tokens, read as [response.choices[0]?.message?.content]; and
    [audio.transcriptions.create] with model [whisper-1] on the decoded
    base64 data in the given format. Each either returns or throws. *)
Class OpenAI : Type := {
  models_list : jsstring -> result unit;
  chat_completions_create :
    jsstring -> option jsval -> jsstring -> option jsval -> result (option jsval);
  audio_transcriptions_create : jsstring -> jsstring -> jsstring -> result jsval
}.

(** ** The settings routes ([server/routes.ts] 339-404) *)

Module Settings.
Section settings.
Context {C : Crypto} {O : OpenAI} {J : Jws}.
Variable cfg : config.

(** [updateApiKeySchema.parse]. *)
Definition updateApiKeySchema (b : jsobj) : result jsstring :=
  match z_string_min 1 (b !! "apiKey"%string) with
  | Some apiKey => Ok apiKey
  | None => Throw ZodError
  end.

Definition not_authenticated {A} : handler A :=
  send (reply 401 (error_body "User not authenticated")).

(** [GET /api/user/settings]. *)
Definition settings_body (req : request) : handler response :=
  match req_user req with
  | None => not_authenticated
  | Some decoded =>
      user ← with_id (decoded !! "id"%string) (fun id st => (getUser id st, st));
      match user with
      | None => send (reply 404 (error_body "User not found"))
      | Some user =>
          mret (reply 200
                  (with_prop "username" (user !! "username"%string)
                     {[ "hasApiKey"%string :=
                          Val (JBool (truthy (user !! "openaiApiKey"%string))) ]}))
      end
  end.

Definition settings_handler (req : request) :=
  run (settings_body req) (fun _ => reply 500 (error_body "Failed to fetch user settings")).

Definition settings (clock : Z) := route [authenticateToken cfg clock] settings_handler.

(** [PUT /api/user/api-key]; [salt] and [iv] are the draws of
    [encryptApiKey]. The result of [updateUser] is not looked at. *)
Definition api_key_put_body (salt iv : buffer) (req : request) : handler response :=
  match req_user req with
  | None => not_authenticated
  | Some decoded =>
      apiKey ← call (updateApiKeySchema (req_body req));
      match models_list apiKey with
      | Throw _ =>
          send (reply 400 (error_body "Invalid OpenAI API key. Please check and try again."))
      | Ok _ =>
          let encryptedApiKey := encryptApiKey (session_secret cfg) salt iv apiKey in
          _ ← with_id (decoded !! "id"%string)
                (fun id => updateUser id {[ "openaiApiKey"%string := JStr encryptedApiKey ]});
          mret (reply 200
                  (<["success"%string := Val (JBool true)]>
                     {[ "hasApiKey"%string := Val (JBool true) ]}))
      end
  end.

Definition api_key_catch (e : exn) : response :=
  match e with
  | ZodError => reply 400 (error_body "Invalid request data")
  | _ => reply 500 (error_body "Failed to update API key")
  end.

Definition api_key_put_handler (salt iv : buffer) (req : request) :=
  run (api_key_put_body salt iv req) api_key_catch.

Definition api_key_put (clock : Z) (salt iv : buffer) :=
  route [authenticateToken cfg clock] (api_key_put_handler salt iv).

(** [DELETE /api/user/api-key]. *)
Definition api_key_delete_body (req : request) : handler response :=
  match req_user req with
  | None => not_authenticated
  | Some decoded =>
      _ ← with_id (decoded !! "id"%string)
            (fun id => updateUser id {[ "openaiApiKey"%string := JNull ]});
      mret (reply 200
              (<["success"%string := Val (JBool true)]>
                 {[ "hasApiKey"%string := Val (JBool false) ]}))
  end.

Definition api_key_delete_handler (req : request) :=
  run (api_key_delete_body req) (fun _ => reply 500 (error_body "Failed to remove API key")).

Definition api_key_delete (clock : Z) :=
  route [authenticateToken cfg clock] api_key_delete_handler.

End settings.
End Settings.
Export Settings.

(** ** Commands, sessions and preferences ([storage.ts] 125-315) *)

Module Catalogue.

(** [v ?? d]. *)
Definition nullish_or (v : option jsval) (d : jsval) : jsval :=
  match v with
  | None | Some JNull => d
  | Some x => x
  end.

(** [Map.prototype.delete] and [Map.prototype.has]. *)
Fixpoint Map_delete (k : jsstring) (m : users_map) : users_map :=
  match m with
  | [] => []
  | (k', v) :: r => if bool_decide (k' = k) then r else (k', v) :: Map_delete k r
  end.

Definition Map_has (k : jsstring) (m : users_map) : bool :=
  match Map_get k m with
  | Some _ => true
  | None => false
  end.

(** A [Session]; its numbers and dates are used in arithmetic. *)
Record Session : Type := {
  session_id : jsstring;
  session_userId : jsstring;
  textProcessed : Z;
  speechProcessed : Z;
  commandsUsed : Z;
  sessionStart : Z;
  sessionEnd : option Z
}.

Record InsertSession : Type := {
  insert_userId : jsstring;
  insert_textProcessed : option Z;
  insert_speechProcessed : option Z;
  insert_commandsUsed : option Z;
  insert_sessionEnd : option Z
}.

(** The whole of [MemStorage]: the accounts, and the three other maps with
    the flag of [initialize]. *)
Record Store : Type := {
  accounts : MemStorage;
  commands : users_map;
  sessions : list (jsstring * Session);
  userCommandPreferences : users_map;
  initialized : bool
}.

Definition with_accounts (fs : Store) (st : MemStorage) : Store :=
  {| accounts := st; commands := commands fs; sessions := sessions fs;
     userCommandPreferences := userCommandPreferences fs; initialized := initialized fs |}.

Definition with_commands (fs : Store) (m : users_map) : Store :=
  {| accounts := accounts fs; commands := m; sessions := sessions fs;
     userCommandPreferences := userCommandPreferences fs; initialized := initialized fs |}.

Definition with_preferences (fs : Store) (m : users_map) : Store :=
  {| accounts := accounts fs; commands := commands fs; sessions := sessions fs;
     userCommandPreferences := m; initialized := initialized fs |}.

(** [new MemStorage()]. *)
Definition new_store : Store :=
  {| accounts := {| users := [] |}; commands := []; sessions := [];
     userCommandPreferences := []; initialized := false |}.

Definition getCommand (id : jsstring) (fs : Store) : option jsobj :=
  Map_get id (commands fs).

Definition getAllCommands (fs : Store) : list jsobj := Map_values (commands fs).

Definition is_active (cmd : jsobj) : bool := truthy (cmd !! "isActive"%string).
Definition is_published (cmd : jsobj) : bool :=
  truthy (cmd !! "publishedToUsers"%string).

Definition getActiveCommands (fs : Store) : list jsobj :=
  List.filter is_active (getAllCommands fs).

Definition getPublishedCommands (fs : Store) : list jsobj :=
  List.filter (fun cmd => is_active cmd && is_published cmd) (getAllCommands fs).

(** The object literal of [createCommand] and of [addDefaultCommands];
    [created] and [updated] are its two [new Date()]. *)
Definition command_literal (id : jsstring) (name prompt temperature outputType : option jsval)
  (isActive publishedToUsers : jsval) (created updated : Z) : jsobj :=
  <["id"%string := JStr id]>
    (prop "name" name
       (prop "prompt" prompt
          (<["temperature"%string := or_else temperature (JStr (js "0.3"))]>
             (<["outputType"%string := or_else outputType (JStr (js "replace"))]>
                (<["isActive"%string := isActive]>
                   (<["publishedToUsers"%string := publishedToUsers]>
                      (<["createdAt"%string := JDate created]>
                         {[ "updatedAt"%string := JDate updated ]}))))))).

Definition createCommand (insertCommand : jsobj) (id : jsstring) (created updated : Z)
  (fs : Store) : jsobj * Store :=
  let command :=
    command_literal id (insertCommand !! "name"%string) (insertCommand !! "prompt"%string)
      (insertCommand !! "temperature"%string) (insertCommand !! "outputType"%string)
      (nullish_or (insertCommand !! "isActive"%string) (JBool true))
      (nullish_or (insertCommand !! "publishedToUsers"%string) (JBool false))
      created updated in
  (command, with_commands fs (Map_set id command (commands fs))).

(** [{ ...command, ...updates, updatedAt: new Date() }]. *)
Definition updateCommand (id : jsstring) (updates : jsobj) (now : Z) (fs : Store)
  : option jsobj * Store :=
  match Map_get id (commands fs) with
  | None => (None, fs)
  | Some command =>
      let updatedCommand : jsobj := <["updatedAt"%string := JDate now]> (updates ∪ command) in
      (Some updatedCommand, with_commands fs (Map_set id updatedCommand (commands fs)))
  end.

Definition deleteCommand (id : jsstring) (fs : Store) : bool * Store :=
  (Map_has id (commands fs), with_commands fs (Map_delete id (commands fs))).

(** [this.sessions.set]. *)
Fixpoint Sessions_set (k : jsstring) (v : Session) (m : list (jsstring * Session))
  : list (jsstring * Session) :=
  match m with
  | [] => [(k, v)]
  | (k', v') :: r =>
      if bool_decide (k' = k) then (k, v) :: r else (k', v') :: Sessions_set k v r
  end.

(** [createSession], where [n || 0] of an optional number is that number or
    zero, and [getUserSessions]. *)
Definition createSession (insertSession : InsertSession) (id : jsstring) (now : Z)
  (fs : Store) : Session * Store :=
  let session :=
    {| session_id := id;
       session_userId := insert_userId insertSession;
       textProcessed := default 0%Z (insert_textProcessed insertSession);
       speechProcessed := default 0%Z (insert_speechProcessed insertSession);
       commandsUsed := default 0%Z (insert_commandsUsed insertSession);
       sessionStart := now;
       sessionEnd := insert_sessionEnd insertSession |} in
  (session,
   {| accounts := accounts fs; commands := commands fs;
      sessions := Sessions_set id session (sessions fs);
      userCommandPreferences := userCommandPreferences fs;
      initialized := initialized fs |}).

Definition getUserSessions (userId : jsstring) (fs : Store) : list Session :=
  List.filter (fun s => bool_decide (session_userId s = userId)) (sessions fs).*2.

(** [getAdminStatistics]; [today] and [tomorrow] are the two local
    midnights it computes from [new Date()]. *)
Definition getAdminStatistics (today tomorrow : Z) (fs : Store) : jsobj :=
  let allUsers := getAllUsers (accounts fs) in
  let allCommands := getAllCommands fs in
  let allSessions := (sessions fs).*2 in
  let count {A} (p : A -> bool) (l : list A) : jsval := JNum (Z.of_nat (length (List.filter p l))) in
  let usageToday :=
    foldl (fun total session => (total + commandsUsed session)%Z) 0%Z
      (List.filter (fun session => (today <=? sessionStart session)%Z
                                   && (sessionStart session <? tomorrow)%Z) allSessions) in
  <["totalUsers"%string := JNum (Z.of_nat (length allUsers))]>
    (<["totalCommands"%string := JNum (Z.of_nat (length allCommands))]>
       (<["activeUsers"%string :=
            count (fun user : jsobj => is_str (user !! "status"%string) "approved") allUsers]>
          (<["pendingUsers"%string :=
               count (fun user : jsobj => is_str (user !! "status"%string) "pending") allUsers]>
             (<["publishedCommands"%string := count is_published allCommands]>
                {[ "usageToday"%string := JNum usageToday ]})))).

(** The three literals of [addDefaultCommands]. *)
Definition defaultCommands : list (string * string * string * string) :=
  [ ("Summarize", "Please provide a concise summary of the following text:",
     "0.3", "replace");
    ("Medical Notes",
     "Format this patient information as structured medical notes following standard documentation practices:",
     "0.1", "new_window");
    ("Improve Writing",
     "Improve the grammar, style, and clarity of this text while maintaining the original meaning:",
     "0.5", "replace") ]%string.

(** [addDefaultCommands]; [draws i] is the UUID and the two dates of the
    [i]-th command. *)
Fixpoint addDefaultCommands_from (i : nat) (draws : nat -> jsstring * Z * Z)
  (defaults : list (string * string * string * string)) (m : users_map) : users_map :=
  match defaults with
  | [] => m
  | (name, prompt, temperature, outputType) :: rest =>
      let '(id, created, updated) := draws i in
      let command :=
        command_literal id (Some (JStr (js name))) (Some (JStr (js prompt)))
          (Some (JStr (js temperature))) (Some (JStr (js outputType)))
          (nullish_or (Some (JBool true)) (JBool true)) (JBool false) created updated in
      addDefaultCommands_from (S i) draws rest (Map_set id command m)
  end.

Definition addDefaultCommands (draws : nat -> jsstring * Z * Z) (fs : Store) : Store :=
  with_commands fs (addDefaultCommands_from 0 draws defaultCommands (commands fs)).

Section initialize.
Context {B : Bcrypt}.

(** [initialize]; [adminId], [salt] and [now] are its UUID, the salt of
    [bcrypt.hash] and its [new Date()]. *)
Definition initialize (adminId : jsstring) (salt : buffer) (now : Z)
  (draws : nat -> jsstring * Z * Z) (fs : Store) : Store :=
  if initialized fs then fs
  else
    let hashedPassword := bcrypt_hash (js "admin123") 12 salt in
    let admin : jsobj :=
      <["id"%string := JStr adminId]>
        (<["username"%string := JStr (js "admin")]>
           (<["password"%string := JStr hashedPassword]>
              (<["role"%string := JStr (js "admin")]>
                 (<["status"%string := JStr (js "approved")]>
                    (<["openaiApiKey"%string := JNull]>
                       (<["createdAt"%string := JDate now]>
                          {[ "lastLoginAt"%string := JNull ]})))))) in
    let fs1 := with_accounts fs {| users := Map_set adminId admin (users (accounts fs)) |} in
    let fs2 := addDefaultCommands draws fs1 in
    {| accounts := accounts fs2; commands := commands fs2; sessions := sessions fs2;
       userCommandPreferences := userCommandPreferences fs2; initialized := true |}.

End initialize.

Section preferences.
(** [Number.prototype.toString] and [Date.prototype.toString]; the second
    depends on the time zone of the host. *)
Variable number_string : Z -> jsstring.
Variable date_string : Z -> jsstring.

(** The conversion of a template literal. *)
Definition ToString (v : option jsval) : jsstring :=
  match v with
  | None => js "undefined"
  | Some JNull => js "null"
  | Some (JBool true) => js "true"
  | Some (JBool false) => js "false"
  | Some (JNum n) => number_string n
  | Some (JStr s) => s
  | Some (JDate t) => date_string t
  end.

(** [a === b] for two property reads; two dates are two objects. *)
Definition strict_equal (a b : option jsval) : bool :=
  match a, b with
  | Some (JDate _), _ | _, Some (JDate _) => false
  | _, _ => bool_decide (a = b)
  end.

(** [`${userId}-${commandId}`]. *)
Definition preference_key (userId commandId : option jsval) : jsstring :=
  ToString userId ++ js "-" ++ ToString commandId.

Definition getUserCommandPreference (userId commandId : option jsval) (fs : Store)
  : option jsobj :=
  Map_get (preference_key userId commandId) (userCommandPreferences fs).

Definition getUserCommandPreferences (userId : option jsval) (fs : Store) : list jsobj :=
  List.filter (fun pref : jsobj => strict_equal (pref !! "userId"%string) userId)
    (Map_values (userCommandPreferences fs)).

(** [{ id, ...preference, isVisible: ..., hasSeenNewBadge: ..., createdAt,
    updatedAt }]. *)
Definition setUserCommandPreference (preference : jsobj) (id : jsstring)
  (created updated : Z) (fs : Store) : jsobj * Store :=
  let key := preference_key (preference !! "userId"%string)
               (preference !! "commandId"%string) in
  let fullPreference : jsobj :=
    <["updatedAt"%string := JDate updated]>
      (<["createdAt"%string := JDate created]>
         (<["hasSeenNewBadge"%string :=
              nullish_or (preference !! "hasSeenNewBadge"%string) (JBool false)]>
            (<["isVisible"%string :=
                 nullish_or (preference !! "isVisible"%string) (JBool true)]>
               (preference ∪ {[ "id"%string := JStr id ]})))) in
  (fullPreference,
   with_preferences fs (Map_set key fullPreference (userCommandPreferences fs))).

Definition updateUserCommandPreference (userId commandId : option jsval)
  (updates : jsobj) (now : Z) (fs : Store) : option jsobj * Store :=
  let key := preference_key userId commandId in
  match Map_get key (userCommandPreferences fs) with
  | None => (None, fs)
  | Some existing =>
      let updated : jsobj := <["updatedAt"%string := JDate now]> (updates ∪ existing) in
      (Some updated,
       with_preferences fs (Map_set key updated (userCommandPreferences fs)))
  end.

End preferences.

End Catalogue.
Export Catalogue.

(** ** The command, preference and processing routes ([server/routes.ts]
    197-334, 409-501, 603-681) *)

(** [insertCommandSchema.parse] and [insertCommandSchema.partial().parse]
    of [drizzle-zod]. *)
Class CommandSchema : Type := {
  insertCommandSchema : jsobj -> result jsobj;
  insertCommandSchema_partial : jsobj -> result jsobj
}.

(** The columns that [insertCommandSchema] keeps. *)
Record CommandSchemaContract (S : CommandSchema) : Prop := {
  partial_keys : forall b parsed k,
    insertCommandSchema_partial b = Ok parsed ->
    k ∉ ["name"; "prompt"; "temperature"; "outputType"; "isActive";
         "publishedToUsers"]%string ->
    parsed !! k = None
}.

Module Services.

(** [haystack.includes(needle)]. *)
Fixpoint includes (needle haystack : jsstring) : bool :=
  starts_with needle haystack
  || match haystack with
     | [] => false
     | _ :: rest => includes needle rest
     end.

(** [app.METHOD(path, ...middleware, handler)] over the whole store. *)
Fixpoint behind {S : Type} (chain : list middleware)
  (h : request -> S -> response * S) (req : request) (s : S) : response * S :=
  match chain with
  | [] => h req s
  | m :: chain' =>
      match m req with
      | inl r => (r, s)
      | inr req' => behind chain' h req' s
      end
  end.

(** [{ ...o, k: v }] where [v] may be [undefined]. *)
Definition assign (k : string) (v : option jsval) (o : jsobj) : jsobj :=
  match v with
  | Some x => <[k := x]> o
  | None => delete k o
  end.

(** [textProcessSchema.parse], [speechProcessSchema.parse] and
    [commandPreferenceSchema.parse]. *)
Definition textProcessSchema (b : jsobj) : result (jsstring * jsstring) :=
  match z_string_min 1 (b !! "text"%string),
        z_string_min 1 (b !! "commandId"%string) with
  | Some text, Some commandId => Ok (text, commandId)
  | _, _ => Throw ZodError
  end.

Definition speechProcessSchema (b : jsobj) : result (jsstring * jsstring) :=
  match b !! "audioData"%string, b !! "format"%string with
  | Some (JStr audioData), Some (JStr format) => Ok (audioData, format)
  | Some (JStr audioData), None => Ok (audioData, js "webm")
  | _, _ => Throw ZodError
  end.

Definition commandPreferenceSchema (b : jsobj) : result (jsstring * bool * option bool) :=
  match z_string_min 1 (b !! "commandId"%string),
        b !! "isVisible"%string, b !! "hasSeenNewBadge"%string with
  | Some commandId, Some (JBool isVisible), Some (JBool hasSeenNewBadge) =>
      Ok (commandId, isVisible, Some hasSeenNewBadge)
  | Some commandId, Some (JBool isVisible), None => Ok (commandId, isVisible, None)
  | _, _, _ => Throw ZodError
  end.

Section services.
Context {C : Crypto} {O : OpenAI} {J : Jws} {S : CommandSchema}.
Variable cfg : config.
Variable number_string : Z -> jsstring.
Variable date_string : Z -> jsstring.

(** [storage.getUser(req.user.id)]. *)
Definition account_of (decoded : jsobj) (fs : Store) : option jsobj :=
  match decoded !! "id"%string with
  | Some (JStr id) => getUser id (accounts fs)
  | _ => None
  end.

(** [GET /api/commands]. *)
Definition commands_handler (req : request) (fs : Store) : response * Store :=
  (reply 200 {[ "commands"%string := Array (getPublishedCommands fs) ]}, fs).

Definition commands_route (clock : Z) := behind [authenticateToken cfg clock] commands_handler.

(** The [catch] of the two processing routes. *)
Definition processing_catch (what : string) (e : exn) : response :=
  match e with
  | Error message =>
      if includes (js "Incorrect API key") message then
        reply 400 (error_body "Invalid OpenAI API key. Please check your key in Settings.")
      else if includes (js "quota") message then
        reply 400 (error_body "OpenAI API quota exceeded. Please check your account.")
      else reply 500 (error_body what)
  | _ => reply 500 (error_body what)
  end.

(** [decryptApiKey(user.openaiApiKey)] inside its own [try]: a value that
    is no string has no [split]. *)
Definition user_key (user : jsobj) : result jsstring :=
  match user !! "openaiApiKey"%string with
  | Some (JStr blob) => decryptApiKey (session_secret cfg) blob
  | _ => Throw decrypt_failure
  end.

Definition key_missing : response :=
  reply 400 (error_body "OpenAI API key not configured. Please add your API key in Settings.").

Definition key_unreadable : response :=
  reply 500 (error_body "Failed to access API key. Please re-enter your key in Settings.").

(** [POST /api/ai/process-text]. *)
Definition process_text_handler (req : request) (fs : Store) : response * Store :=
  (match req_user req with
   | None => reply 401 (error_body "User not authenticated")
   | Some decoded =>
       match textProcessSchema (req_body req) with
       | Throw e => processing_catch "Failed to process text" e
       | Ok (text, commandId) =>
           match getCommand commandId fs with
           | None => reply 404 (error_body "Command not found or not available")
           | Some command =>
               if negb (is_active command) || negb (is_published command) then
                 reply 404 (error_body "Command not found or not available")
               else
                 match account_of decoded fs with
                 | None => key_missing
                 | Some user =>
                     if negb (truthy (user !! "openaiApiKey"%string)) then key_missing
                     else
                       match user_key user with
                       | Throw _ => key_unreadable
                       | Ok decryptedApiKey =>
                           match chat_completions_create decryptedApiKey
                                   (command !! "prompt"%string) text
                                   (command !! "temperature"%string) with
                           | Throw e => processing_catch "Failed to process text" e
                           | Ok content =>
                               reply 200
                                 (with_prop "outputType" (command !! "outputType"%string)
                                    {[ "processedText"%string :=
                                         Val (or_else content (JStr [])) ]})
                           end
                       end
                 end
           end
       end
   end, fs).

Definition process_text (clock : Z) := behind [authenticateToken cfg clock] process_text_handler.

(** [POST /api/ai/speech-to-text]. *)
Definition speech_to_text_handler (req : request) (fs : Store) : response * Store :=
  (match req_user req with
   | None => reply 401 (error_body "User not authenticated")
   | Some decoded =>
       match speechProcessSchema (req_body req) with
       | Throw e => processing_catch "Failed to process speech" e
       | Ok (audioData, format) =>
           match account_of decoded fs with
           | None => key_missing
           | Some user =>
               if negb (truthy (user !! "openaiApiKey"%string)) then key_missing
               else
                 match user_key user with
                 | Throw _ => key_unreadable
                 | Ok decryptedApiKey =>
                     match audio_transcriptions_create decryptedApiKey audioData format with
                     | Throw e => processing_catch "Failed to process speech" e
                     | Ok transcription =>
                         reply 200 {[ "transcription"%string := Val transcription ]}
                     end
                 end
           end
       end
   end, fs).

Definition speech_to_text (clock : Z) :=
  behind [authenticateToken cfg clock] speech_to_text_handler.

(** [GET /api/user/command-preferences]. *)
Definition preferences_handler (req : request) (fs : Store) : response * Store :=
  (match req_user req with
   | None => reply 401 (error_body "User not authenticated")
   | Some decoded =>
       reply 200 {[ "preferences"%string :=
                      Array (getUserCommandPreferences (decoded !! "id"%string) fs) ]}
   end, fs).

(** [PUT /api/user/command-preferences]; [id], [created] and [updated] are
    the draws of [setUserCommandPreference], [now] the one of
    [updateUserCommandPreference]. *)
Definition preference_put_handler (id : jsstring) (created updated now : Z)
  (req : request) (fs : Store) : response * Store :=
  match req_user req with
  | None => (reply 401 (error_body "User not authenticated"), fs)
  | Some decoded =>
      match commandPreferenceSchema (req_body req) with
      | Throw _ => (reply 400 (error_body "Invalid request data"), fs)
      | Ok (commandId, isVisible, hasSeenNewBadge) =>
          match getCommand commandId fs with
          | None => (reply 404 (error_body "Command not found"), fs)
          | Some command =>
              if negb (is_published command) || negb (is_active command) then
                (reply 403 (error_body "Command is not available to users"), fs)
              else
                let userId := decoded !! "id"%string in
                match getUserCommandPreference number_string date_string
                        userId (Some (JStr commandId)) fs with
                | Some existing =>
                    let updates : jsobj :=
                      prop "hasSeenNewBadge" (JBool <$> hasSeenNewBadge)
                        {[ "isVisible"%string := JBool isVisible ]} in
                    let '(updatedPreference, fs') :=
                      updateUserCommandPreference number_string date_string
                        userId (Some (JStr commandId)) updates now fs in
                    (reply 200
                       (match updatedPreference with
                        | Some p => {[ "preference"%string := Object p ]}
                        | None => ∅
                        end), fs')
                | None =>
                    let '(newPreference, fs') :=
                      setUserCommandPreference number_string date_string
                        (prop "userId" userId
                           (<["commandId"%string := JStr commandId]>
                              (<["isVisible"%string := JBool isVisible]>
                                 {[ "hasSeenNewBadge"%string :=
                                      JBool (default false hasSeenNewBadge) ]})))
                        id created updated fs in
                    (reply 200 {[ "preference"%string := Object newPreference ]}, fs')
                end
          end
      end
  end.

(** [preferenceMap.get(command.id)]: of the preferences with that
    [commandId], the [Map] constructor keeps the last. *)
Definition preference_for (userPreferences : list jsobj) (command : jsobj)
  : option jsobj :=
  List.find (fun pref : jsobj =>
               strict_equal (pref !! "commandId"%string) (command !! "id"%string))
    (rev userPreferences).

Definition with_preference (userPreferences : list jsobj) (command : jsobj) : jsobj :=
  let userPref := preference_for userPreferences command in
  let read (k : string) : option jsval := userPref ≫= (fun p : jsobj => p !! k) in
  assign "userPreferenceId" (read "id"%string)
    (<["isNew"%string := JBool (negb (truthy (read "hasSeenNewBadge"%string)))]>
       (<["isVisible"%string := nullish_or (read "isVisible"%string) (JBool true)]>
          command)).

(** [GET /api/user/commands-with-preferences]. *)
Definition commands_with_preferences_handler (req : request) (fs : Store)
  : response * Store :=
  (match req_user req with
   | None => reply 401 (error_body "User not authenticated")
   | Some decoded =>
       let publishedCommands := getPublishedCommands fs in
       let userPreferences := getUserCommandPreferences (decoded !! "id"%string) fs in
       reply 200 {[ "commands"%string :=
                      Array (map (with_preference userPreferences) publishedCommands) ]}
   end, fs).

(** The administrator's command routes. *)
Definition admin_command_create_handler (id : jsstring) (created updated : Z)
  (req : request) (fs : Store) : response * Store :=
  match insertCommandSchema (req_body req) with
  | Throw _ => (reply 400 (error_body "Invalid request"), fs)
  | Ok commandData =>
      let '(command, fs') := createCommand commandData id created updated fs in
      (reply 201 {[ "command"%string := Object command ]}, fs')
  end.

Definition command_answer (updated : option jsobj * Store) : response * Store :=
  match updated with
  | (None, fs') => (reply 404 (error_body "Command not found"), fs')
  | (Some command, fs') => (reply 200 {[ "command"%string := Object command ]}, fs')
  end.

Definition admin_command_update_handler (now : Z) (req : request) (fs : Store)
  : response * Store :=
  match insertCommandSchema_partial (req_body req) with
  | Throw _ => (reply 400 (error_body "Invalid request"), fs)
  | Ok updates => command_answer (updateCommand (params_id req) updates now fs)
  end.

Definition admin_command_delete_handler (req : request) (fs : Store) : response * Store :=
  let '(success, fs') := deleteCommand (params_id req) fs in
  if negb success then (reply 404 (error_body "Command not found"), fs')
  else (reply 200 {[ "success"%string := Val (JBool true) ]}, fs').

Definition admin_command_publish_handler (now : Z) (req : request) (fs : Store) :=
  command_answer
    (updateCommand (params_id req) {[ "publishedToUsers"%string := JBool true ]} now fs).

Definition admin_command_unpublish_handler (now : Z) (req : request) (fs : Store) :=
  command_answer
    (updateCommand (params_id req) {[ "publishedToUsers"%string := JBool false ]} now fs).

(** An account route, as it acts on the whole store. *)
Definition on_accounts (h : request -> MemStorage -> response * MemStorage)
  (req : request) (fs : Store) : response * Store :=
  let '(r, st') := h req (accounts fs) in (r, with_accounts fs st').

End services.
End Services.
Export Services.

(** ** Stand-ins and sample data for the other routes *)

Module Scenario.

(** A client that accepts the keys that start with [sk-] and answers a
    text with the text itself. *)
Definition openai : OpenAI := {|
  models_list apiKey :=
    if starts_with (js "sk-") apiKey then Ok tt
    else Throw (Error (js "401 Incorrect API key provided"));
  chat_completions_create apiKey prompt text temperature :=
    if starts_with (js "sk-") apiKey then Ok (Some (JStr text))
    else Throw (Error (js "401 Incorrect API key provided"));
  audio_transcriptions_create apiKey audioData format :=
    if starts_with (js "sk-") apiKey then Ok (JStr audioData)
    else Throw (Error (js "401 Incorrect API key provided"))
|}.

Definition command_columns : list string :=
  ["name"; "prompt"; "temperature"; "outputType"; "isActive"; "publishedToUsers"]%string.

(** A schema that keeps the six columns and asks for a name and a prompt. *)
Definition command_schema : CommandSchema := {|
  insertCommandSchema b :=
    match b !! "name"%string, b !! "prompt"%string with
    | Some (JStr _), Some (JStr _) =>
        Ok (filter (fun kv : string * jsval => kv.1 ∈ command_columns) b)
    | _, _ => Throw ZodError
    end;
  insertCommandSchema_partial b :=
    Ok (filter (fun kv : string * jsval => kv.1 ∈ command_columns) b)
|}.

Definition number_string (n : Z) : jsstring := js (pretty n).
Definition date_string (t : Z) : jsstring := js "Thu Jan 01 1970 00:00:00 GMT+0000".

(** A published command and one that is not. *)
Definition summarize : jsobj :=
  command_literal (js "c-1") (Some (JStr (js "Summarize")))
    (Some (JStr (js "Please provide a concise summary of the following text:")))
    None None (JBool true) (JBool true) 0 0.

Definition draft : jsobj :=
  command_literal (js "c-2") (Some (JStr (js "Draft"))) (Some (JStr (js "Draft a reply:")))
    None None (JBool true) (JBool false) 0 0.

Definition catalogue : Store :=
  {| accounts := Sample.store;
     commands := [(js "c-1", summarize); (js "c-2", draft)];
     sessions := [];
     userCommandPreferences := [];
     initialized := true |}.

(** A request that has passed [authenticateToken] for [user]. *)
Definition as_user (user : jsobj) (b : jsobj) : request :=
  set_user (Sample.request_with b) (JWTPayload user).

Definition api_key (k : string) : jsobj := {[ "apiKey"%string := JStr (js k) ]}.

Definition text_request (text commandId : string) : jsobj :=
  <["text"%string := JStr (js text)]> {[ "commandId"%string := JStr (js commandId) ]}.

Definition preference_request (commandId : string) (isVisible : bool) : jsobj :=
  <["commandId"%string := JStr (js commandId)]>
    {[ "isVisible"%string := JBool isVisible ]}.

Definition draws (i : nat) : jsstring * Z * Z := (js "d-" ++ js (pretty i), 0%Z, 0%Z).

End Scenario.

(** * Properties *)

(** ** Strings and encodings *)

Ltac Zify.zify_post_hook ::= Z.to_euclidean_division_equations.

Lemma split_no_sep (sep : N) (a : jsstring) :
  Forall (fun c => c <> sep) a -> split sep a = [a].
Proof.
  induction 1 as [|c a Hc _ IH]; [reflexivity|].
  cbn [split]. destruct (N.eqb_spec c sep); [contradiction|].
  now rewrite IH.
Qed.

Lemma split_app_sep (sep : N) (a r : jsstring) :
  Forall (fun c => c <> sep) a -> split sep (a ++ sep :: r) = a :: split sep r.
Proof.
  induction 1 as [|c a Hc _ IH].
  - cbn [app split]. now rewrite N.eqb_refl.
  - cbn [app split]. destruct (N.eqb_spec c sep); [contradiction|].
    now rewrite IH.
Qed.

Lemma split_join4 (sep : N) (a b c d : jsstring) :
  Forall (fun x => x <> sep) a -> Forall (fun x => x <> sep) b ->
  Forall (fun x => x <> sep) c -> Forall (fun x => x <> sep) d ->
  split sep (join sep [a; b; c; d]) = [a; b; c; d].
Proof.
  intros Ha Hb Hc Hd. cbn [join].
  rewrite !split_app_sep by assumption.
  now rewrite split_no_sep.
Qed.

Lemma hex_byte (x : byte) :
  hex_value (hex_digit (Byte.to_N x / 16)) = Some (Byte.to_N x / 16)
  /\ hex_value (hex_digit (Byte.to_N x mod 16)) = Some (Byte.to_N x mod 16)
  /\ byte_of_N (16 * (Byte.to_N x / 16) + Byte.to_N x mod 16) = x
  /\ hex_digit (Byte.to_N x / 16) <> colon
  /\ hex_digit (Byte.to_N x mod 16) <> colon.
Proof. destruct x; vm_compute; repeat split; discriminate. Qed.

Lemma from_hex_toString_hex (b : buffer) : from_hex (toString_hex b) = b.
Proof.
  induction b as [|x b IH]; [reflexivity|].
  destruct (hex_byte x) as (H1 & H2 & H3 & _).
  cbn [toString_hex flat_map app from_hex].
  rewrite H1, H2, H3. f_equal. exact IH.
Qed.

Lemma toString_hex_no_colon (b : buffer) :
  Forall (fun c => c <> colon) (toString_hex b).
Proof.
  induction b as [|x b IH]; [constructor|].
  destruct (hex_byte x) as (_ & _ & _ & H4 & H5).
  cbn [toString_hex flat_map app]. repeat constructor; assumption.
Qed.

Lemma to_N_byte_of_N (n : N) : n < 256 -> Byte.to_N (byte_of_N n) = n.
Proof.
  intros Hn. unfold byte_of_N.
  destruct (Byte.of_N n) as [b|] eqn:E.
  - now apply Byte.to_of_N.
  - apply Byte.of_N_None_iff in E. lia.
Qed.

(** Boolean tests decided by linear arithmetic. *)
Ltac bool_lia :=
  repeat first
    [ rewrite andb_true_iff | rewrite andb_false_iff
    | rewrite negb_true_iff | rewrite negb_false_iff
    | rewrite N.ltb_lt | rewrite N.leb_le | rewrite N.ltb_ge | rewrite N.leb_gt ];
  lia.

Ltac decide_test :=
  match goal with
  | |- context [if ?b then _ else _] =>
      first [ replace b with true by (symmetry; bool_lia)
            | replace b with false by (symmetry; bool_lia) ];
      cbv beta iota
  end.

Section utf8.
Import Reference.

Lemma utf8_units_cons (b0 : N) (t0 : list N) :
  utf8_units (b0 :: t0) =
    if b0 <? 0x80 then b0 :: utf8_units t0
    else if (0xC2 <=? b0) && (b0 <? 0xE0) then
      match t0 with
      | b1 :: t1 =>
          if continuation b1
          then ((b0 - 0xC0) * 64 + (b1 - 0x80)) :: utf8_units t1
          else 0xFFFD :: utf8_units t0
      | [] => [0xFFFD]
      end
    else if (0xE0 <=? b0) && (b0 <? 0xF0) then
      match t0 with
      | b1 :: b2 :: t2 =>
          let c := (b0 - 0xE0) * 4096 + (b1 - 0x80) * 64 + (b2 - 0x80) in
          if continuation b1 && continuation b2 && (0x800 <=? c)
             && negb ((0xD800 <=? c) && (c <? 0xE000))
          then c :: utf8_units t2
          else 0xFFFD :: utf8_units t0
      | _ => 0xFFFD :: utf8_units t0
      end
    else if (0xF0 <=? b0) && (b0 <? 0xF5) then
      match t0 with
      | b1 :: b2 :: b3 :: t3 =>
          let p := (b0 - 0xF0) * 262144 + (b1 - 0x80) * 4096
                   + (b2 - 0x80) * 64 + (b3 - 0x80) in
          if continuation b1 && continuation b2 && continuation b3
             && (0x10000 <=? p) && (p <? 0x110000)
          then (0xD800 + (p - 0x10000) / 1024)
                 :: (0xDC00 + (p - 0x10000) mod 1024) :: utf8_units t3
          else 0xFFFD :: utf8_units t0
      | _ => 0xFFFD :: utf8_units t0
      end
    else 0xFFFD :: utf8_units t0.
Proof. destruct t0 as [|? [|? [|? ?]]]; reflexivity. Qed.

Lemma utf8_units_1 (c : N) (t : list N) :
  c < 0x80 -> utf8_units (c :: t) = c :: utf8_units t.
Proof. intros H. rewrite utf8_units_cons. now decide_test. Qed.

Lemma utf8_units_2 (c : N) (t : list N) :
  0x80 <= c < 0x800 ->
  utf8_units ((0xC0 + c / 64) :: (0x80 + c mod 64) :: t) = c :: utf8_units t.
Proof.
  intros H. rewrite utf8_units_cons. unfold continuation.
  do 3 decide_test. f_equal. lia.
Qed.

Lemma utf8_units_3 (c : N) (t : list N) :
  0x800 <= c < 0x10000 -> ~ (0xD800 <= c < 0xE000) ->
  utf8_units ((0xE0 + c / 4096) :: (0x80 + (c / 64) mod 64) :: (0x80 + c mod 64) :: t)
  = c :: utf8_units t.
Proof.
  intros H Hs. rewrite utf8_units_cons. unfold continuation.
  do 3 decide_test.
  replace ((0xE0 + c / 4096 - 0xE0) * 4096 + (0x80 + (c / 64) mod 64 - 0x80) * 64
           + (0x80 + c mod 64 - 0x80)) with c by lia.
  now decide_test.
Qed.

Lemma utf8_units_4 (hi lo : N) (t : list N) :
  is_high_surrogate hi = true -> is_low_surrogate lo = true ->
  utf8_units ((0xF0 + code_point hi lo / 262144)
                :: (0x80 + (code_point hi lo / 4096) mod 64)
                :: (0x80 + (code_point hi lo / 64) mod 64)
                :: (0x80 + code_point hi lo mod 64) :: t)
  = hi :: lo :: utf8_units t.
Proof.
  unfold is_high_surrogate, is_low_surrogate.
  rewrite !andb_true_iff, !N.leb_le, !N.ltb_lt. intros [H1 H2] [H3 H4].
  assert (Hp : exists p, p = code_point hi lo) by eauto.
  destruct Hp as [p Hp]. rewrite <- Hp.
  assert (Hr : 0x10000 <= p < 0x110000) by (rewrite Hp; unfold code_point; lia).
  rewrite utf8_units_cons. unfold continuation.
  do 4 decide_test. cbv zeta.
  replace ((0xF0 + p / 262144 - 0xF0) * 262144 + (0x80 + (p / 4096) mod 64 - 0x80) * 4096
           + (0x80 + (p / 64) mod 64 - 0x80) * 64 + (0x80 + p mod 64 - 0x80)) with p by lia.
  decide_test. rewrite Hp. unfold code_point. f_equal; [lia|]. f_equal. lia.
Qed.

Lemma surrogate_bounds (c : N) :
  (is_high_surrogate c = true <-> 0xD800 <= c < 0xDC00)
  /\ (is_low_surrogate c = true <-> 0xDC00 <= c < 0xE000).
Proof.
  unfold is_high_surrogate, is_low_surrogate.
  rewrite !andb_true_iff, !N.leb_le, !N.ltb_lt. tauto.
Qed.

Lemma roundtrip_single (c : N) (t : jsstring) :
  is_high_surrogate c = false -> is_low_surrogate c = false -> c < 0x10000 ->
  utf8_units (map Byte.to_N (from_utf8 (c :: t)))
  = c :: utf8_units (map Byte.to_N (from_utf8 t)).
Proof.
  intros Hh Hl Hc.
  apply not_true_iff_false in Hh, Hl.
  rewrite (proj1 (surrogate_bounds c)) in Hh.
  rewrite (proj2 (surrogate_bounds c)) in Hl.
  cbn [from_utf8].
  destruct (N.ltb_spec c 0x80) as [H1|H1]; [|destruct (N.ltb_spec c 0x800) as [H2|H2]].
  - cbn [map]. rewrite to_N_byte_of_N by lia. now apply utf8_units_1.
  - unfold utf8_2. cbn [app map]. rewrite !to_N_byte_of_N by lia.
    apply utf8_units_2. lia.
  - replace (is_high_surrogate c) with false
      by (symmetry; apply not_true_iff_false; rewrite (proj1 (surrogate_bounds c)); lia).
    replace (is_low_surrogate c) with false
      by (symmetry; apply not_true_iff_false; rewrite (proj2 (surrogate_bounds c)); lia).
    unfold utf8_3. cbn [app map]. rewrite !to_N_byte_of_N by lia.
    apply utf8_units_3; lia.
Qed.

Lemma roundtrip_pair (c d : N) (t : jsstring) :
  is_high_surrogate c = true -> is_low_surrogate d = true ->
  utf8_units (map Byte.to_N (from_utf8 (c :: d :: t)))
  = c :: d :: utf8_units (map Byte.to_N (from_utf8 t)).
Proof.
  intros Hh Hl.
  pose proof (proj1 (proj1 (surrogate_bounds c)) Hh) as Bc.
  pose proof (proj1 (proj2 (surrogate_bounds d)) Hl) as Bd.
  cbn [from_utf8]. rewrite Hh, Hl.
  replace (c <? 0x80) with false by (symmetry; apply N.ltb_ge; lia).
  replace (c <? 0x800) with false by (symmetry; apply N.ltb_ge; lia).
  assert (Hp : code_point c d < 0x110000) by (unfold code_point; lia).
  unfold utf8_4. cbn [app map]. rewrite !to_N_byte_of_N by lia.
  now apply utf8_units_4.
Qed.

Lemma utf8_roundtrip_aux (s : jsstring) :
  (well_formed s = true -> utf8_units (map Byte.to_N (from_utf8 s)) = s)
  /\ (forall c, well_formed (c :: s) = true ->
        utf8_units (map Byte.to_N (from_utf8 (c :: s))) = c :: s).
Proof.
  induction s as [|d r [IH1 IH2]].
  - split; [reflexivity|]. intros c H. cbn [well_formed] in H.
    destruct (is_high_surrogate c) eqn:Eh; [discriminate|].
    rewrite !andb_true_iff, negb_true_iff, N.ltb_lt in H.
    destruct H as [[Hc Hl] _]. now rewrite roundtrip_single.
  - split; [apply IH2|]. intros c H. cbn [well_formed] in H.
    destruct (is_high_surrogate c) eqn:Eh.
    + apply andb_true_iff in H as [Hl Hr].
      rewrite roundtrip_pair by assumption. now rewrite IH1.
    + rewrite !andb_true_iff, negb_true_iff, N.ltb_lt in H.
      destruct H as [[Hc Hl] Hr].
      rewrite roundtrip_single by assumption. f_equal. apply IH2.
      exact Hr.
Qed.

Lemma utf8_units_from_utf8 (s : jsstring) :
  well_formed s = true -> utf8_units (map Byte.to_N (from_utf8 s)) = s.
Proof. apply utf8_roundtrip_aux. Qed.

End utf8.

Lemma reference_crypto_contract : CryptoContract Reference.crypto.
Proof.
  split.
  - intros pw salt n. cbn [scryptSync Reference.crypto].
    rewrite length_take, !length_app, length_replicate. lia.
  - intros key iv pt _ _. cbn [gcm_seal gcm_open Reference.crypto fst snd].
    rewrite bool_decide_eq_true_2 by reflexivity.
    now rewrite rev_involutive.
  - intros s Hs. cbn [to_utf8_string Reference.crypto].
    now apply utf8_units_from_utf8.
Qed.

Lemma reference_jws_contract : JwsContract Reference.jws.
Proof.
  split.
  - intros secret claims _. cbn [jws_sign jws_open Reference.jws].
    rewrite decode_encode. now rewrite bool_decide_eq_true_2.
  - reflexivity.
Qed.



(** ** The credential cipher *)

Section cipher_properties.
Context {C : Crypto}.
Hypothesis contract : CryptoContract C.
Variable secret : jsstring.

Lemma split_encryptApiKey (salt iv : buffer) (K : jsstring) :
  split colon (encryptApiKey secret salt iv K)
  = [toString_hex salt; toString_hex iv;
     toString_hex (gcm_seal (scryptSync secret salt 32) iv (from_utf8 K)).1;
     toString_hex (gcm_seal (scryptSync secret salt 32) iv (from_utf8 K)).2].
Proof.
  unfold encryptApiKey. cbv zeta.
  apply split_join4; apply toString_hex_no_colon.
Qed.

(** What decryption returns for a freshly encrypted key: the decoding of
    the key's UTF-8 encoding. *)
Lemma decrypt_encrypt_bytes (salt iv : buffer) (K : jsstring) :
  length iv = 12%nat ->
  decryptApiKey secret (encryptApiKey secret salt iv K)
  = Ok (to_utf8_string (from_utf8 K)).
Proof.
  intros Hiv. unfold decryptApiKey, decryptApiKey_try.
  rewrite split_encryptApiKey. cbv zeta.
  rewrite !from_hex_toString_hex.
  rewrite (gcm_open_seal C contract) by (try apply (scrypt_length C contract); assumption).
  reflexivity.
Qed.

(** An unpaired surrogate is not recovered, whatever the implementation
    of the primitives. *)
Lemma unpaired_surrogate_lost (salt iv : buffer) :
  length iv = 12%nat ->
  decryptApiKey secret (encryptApiKey secret salt iv [0xD800]) = Ok [0xFFFD].
Proof.
  intros Hiv. rewrite decrypt_encrypt_bytes by assumption.
  change (from_utf8 [0xD800]) with (from_utf8 [0xFFFD]).
  now rewrite (utf8_decode_encode C contract).
Qed.

(** C1 (as amended). For every API key [K] that is a well-formed string (no
    unpaired surrogate), decrypting the blob that [encryptApiKey] produced
    for [K], under the same master secret, returns exactly [K]; this holds
    for every salt and every 12-byte nonce that encryption may draw. *)
Theorem decrypt_encrypt_well_formed (salt iv : buffer) (K : jsstring) :
  length iv = 12%nat ->
  well_formed K = true ->
  decryptApiKey secret (encryptApiKey secret salt iv K) = Ok K.
Proof.
  intros Hiv HK. rewrite decrypt_encrypt_bytes by assumption.
  f_equal. now apply (utf8_decode_encode C contract).
Qed.

End cipher_properties.

(** C1 on the sample key. *)
Lemma decrypt_encrypt_well_formed_witness :
  decryptApiKey (C := Reference.crypto) Sample.secret
    (encryptApiKey (C := Reference.crypto) Sample.secret Sample.salt Sample.iv (js "sk-test"))
  = Ok (js "sk-test").
Proof.
  apply (decrypt_encrypt_well_formed (C := Reference.crypto) reference_crypto_contract);
    reflexivity.
Defined.

(** C1 (counterexample to the claim as stated). The key made of the single
    unpaired surrogate U+D800 is encrypted as U+FFFD and comes back as
    U+FFFD. *)
Lemma unpaired_surrogate_not_recovered :
  decryptApiKey (C := Reference.crypto) Sample.secret
    (encryptApiKey (C := Reference.crypto) Sample.secret Sample.salt Sample.iv [0xD800])
  = Ok [0xFFFD]
  /\ decryptApiKey (C := Reference.crypto) Sample.secret
       (encryptApiKey (C := Reference.crypto) Sample.secret Sample.salt Sample.iv [0xD800])
     <> Ok [0xD800].
Proof.
  assert (H : decryptApiKey (C := Reference.crypto) Sample.secret
                (encryptApiKey (C := Reference.crypto) Sample.secret Sample.salt Sample.iv
                   [0xD800]) = Ok [0xFFFD]).
  { apply (unpaired_surrogate_lost (C := Reference.crypto) reference_crypto_contract).
    reflexivity. }
  split; [exact H|]. rewrite H. discriminate.
Qed.

(** C3 (as amended). [decryptApiKey] fails with one and the same error,
    [decrypt_failure], both when the blob does not split into exactly four
    parts and when the opening of the ciphertext under the tag fails
    (tampering or a wrong secret); it throws no other error; and whenever it
    returns a plaintext, the blob had four parts, the tag check passed, and
    the plaintext is the decoding of the whole opened ciphertext. *)
Theorem decryptApiKey_failure {C : Crypto} (secret blob : jsstring) :
  (length (split colon blob) <> 4%nat ->
   decryptApiKey secret blob = Throw decrypt_failure)
  /\ (forall saltHex ivHex encryptedHex authTagHex,
        split colon blob = [saltHex; ivHex; encryptedHex; authTagHex] ->
        gcm_open (scryptSync secret (from_hex saltHex) 32) (from_hex ivHex)
          (from_hex encryptedHex) (from_hex authTagHex) = None ->
        decryptApiKey secret blob = Throw decrypt_failure)
  /\ (forall e, decryptApiKey secret blob = Throw e -> e = decrypt_failure)
  /\ (forall plaintext, decryptApiKey secret blob = Ok plaintext ->
        exists saltHex ivHex encryptedHex authTagHex bytes,
          split colon blob = [saltHex; ivHex; encryptedHex; authTagHex]
          /\ gcm_open (scryptSync secret (from_hex saltHex) 32) (from_hex ivHex)
               (from_hex encryptedHex) (from_hex authTagHex) = Some bytes
          /\ plaintext = to_utf8_string bytes).
Proof.
  unfold decryptApiKey, decryptApiKey_try.
  destruct (split colon blob) as [|a [|b [|c [|d [|e l]]]]] eqn:Es; cbv zeta;
    try (refine (conj _ (conj _ (conj _ _)));
         [ intros; reflexivity
         | intros ? ? ? ? [=]
         | intros ? [=]; congruence
         | intros ? [=] ]).
  destruct (gcm_open _ _ _ _) as [bytes|] eqn:Eo;
    refine (conj _ (conj _ (conj _ _))).
  - cbn. congruence.
  - intros ? ? ? ? [= <- <- <- <-]. congruence.
  - intros ? [=].
  - intros ? [= <-]. exists a, b, c, d, bytes. now rewrite Eo.
  - intros _. reflexivity.
  - intros; reflexivity.
  - intros ? [=]. congruence.
  - intros ? [=].
Qed.

(** On the sample blobs: a string with one part and a four-part blob whose
    tag no longer matches are both refused with [decrypt_failure]. *)
Lemma decryptApiKey_failure_witness :
  decryptApiKey (C := Reference.crypto) Sample.secret (js "abc") = Throw decrypt_failure
  /\ decryptApiKey (C := Reference.crypto) Sample.secret Sample.tampered
     = Throw decrypt_failure.
Proof.
  split.
  - apply (proj1 (decryptApiKey_failure (C := Reference.crypto) Sample.secret (js "abc"))).
    vm_compute. discriminate.
  - destruct (decryptApiKey_failure (C := Reference.crypto) Sample.secret Sample.tampered)
      as (_ & H & _).
    eapply H; vm_compute; reflexivity.
Defined.

(** C3 (counterexample to the claim as stated). A blob with one part and a
    four-part blob that fails the tag check produce the same error: the
    inner ['Invalid encrypted data format'] never leaves the function. *)
Lemma malformed_and_tampered_same_error :
  length (split colon (js "abc")) = 1%nat
  /\ decryptApiKey_try (C := Reference.crypto) Sample.secret (js "abc")
     = Throw (Error (js "Invalid encrypted data format"))
  /\ length (split colon Sample.tampered) = 4%nat
  /\ decryptApiKey_try (C := Reference.crypto) Sample.secret Sample.tampered
     = Throw CryptoError
  /\ decryptApiKey (C := Reference.crypto) Sample.secret (js "abc")
     = decryptApiKey (C := Reference.crypto) Sample.secret Sample.tampered.
Proof. vm_compute. repeat split. Qed.

(** ** Start-up *)




(** ** The store and the routes *)

(** Membership in, and absence from, a list of literals. *)
Ltac member :=
  first
    [ solve [repeat first [apply list_elem_of_here | apply list_elem_of_further]]
    | solve [rewrite ?not_elem_of_cons; repeat split;
             first [congruence | apply not_elem_of_nil]] ].


Lemma Map_get_set_eq (k : jsstring) (v : jsobj) (m : users_map) :
  Map_get k (Map_set k v m) = Some v.
Proof.
  induction m as [|[k' v'] m IH]; cbn [Map_set Map_get].
  - now rewrite bool_decide_eq_true_2.
  - destruct (bool_decide (k' = k)) eqn:E; cbn [Map_get].
    + now rewrite bool_decide_eq_true_2.
    + now rewrite E.
Qed.

Lemma Map_get_set_ne (k k' : jsstring) (v : jsobj) (m : users_map) :
  k <> k' -> Map_get k' (Map_set k v m) = Map_get k' m.
Proof.
  intros Hne. induction m as [|[k0 v0] m IH]; cbn [Map_set Map_get].
  - now rewrite bool_decide_eq_false_2.
  - destruct (bool_decide (k0 = k)) eqn:E; cbn [Map_get].
    + apply bool_decide_eq_true in E. subst k0.
      now rewrite !bool_decide_eq_false_2.
    + now rewrite IH.
Qed.

(** The handler monad, step by step. *)
Lemma bind_call_ok {A B} (a : A) (k : A -> handler B) (st : MemStorage) :
  (call (Ok a) ≫= k) st = k a st.
Proof. reflexivity. Qed.

Lemma bind_call_throw {A B} (e : exn) (k : A -> handler B) (st : MemStorage) :
  (call (Throw e) ≫= k) st = (inr (Raised e), st).
Proof. reflexivity. Qed.

Lemma bind_read {A B} (f : MemStorage -> A) (k : A -> handler B) (st : MemStorage) :
  (read f ≫= k) st = k (f st) st.
Proof. reflexivity. Qed.

Lemma bind_update {A B} (f : MemStorage -> A * MemStorage) (k : A -> handler B)
  (st : MemStorage) :
  (update f ≫= k) st = k (f st).1 (f st).2.
Proof. unfold mbind, handler_bind, update. now destruct (f st). Qed.

Lemma unchanged_refl (keys : list string) (st : MemStorage) :
  unchanged_except keys st st.
Proof. intros id user H. now exists user. Qed.

Lemma updateUser_lookup (id : jsstring) (updates : jsobj) (st : MemStorage)
  (user : jsobj) :
  getUser id st = Some user ->
  updateUser id updates st
  = (Some (updates ∪ user), {| users := Map_set id (updates ∪ user) (users st) |}).
Proof. unfold getUser, updateUser. now intros ->. Qed.

Lemma updateUser_unchanged (keys : list string) (id : jsstring) (updates : jsobj)
  (st : MemStorage) :
  (forall k, k ∉ keys -> updates !! k = None) ->
  unchanged_except keys st (updateUser id updates st).2.
Proof.
  intros Hk. unfold updateUser.
  destruct (Map_get id (users st)) as [user|] eqn:Eg; [|apply unchanged_refl].
  intros id' u Hu. unfold getUser in *. cbn [snd users].
  destruct (decide (id = id')) as [<-|Hne].
  - rewrite Map_get_set_eq. exists (updates ∪ user). split; [reflexivity|].
    intros k Hnk. rewrite lookup_union_r by auto. congruence.
  - rewrite Map_get_set_ne by assumption. now exists u.
Qed.

Lemma elem_of_carried (r : response) (o : jsobj) :
  o ∈ carried r <-> exists k j, body r !! k = Some j /\ o ∈ objects_of j.
Proof.
  unfold carried. rewrite list_elem_of_In, in_flat_map. split.
  - intros ([k j] & Hin & Ho). exists k, j. split.
    + now apply elem_of_map_to_list, list_elem_of_In.
    + now apply list_elem_of_In.
  - intros (k & j & Hb & Ho). exists (k, j). split.
    + now apply list_elem_of_In, elem_of_map_to_list.
    + now apply list_elem_of_In.
Qed.

Lemma clean_body_carried (r : response) :
  clean_body (body r) -> Forall sanitized (carried r).
Proof.
  intros Hc. apply Forall_forall. intros o Ho.
  apply elem_of_carried in Ho as (k & j & Hb & Ho). exact (Hc k j o Hb Ho).
Qed.

Lemma clean_empty : clean_body ∅.
Proof. intros k j o Hb. now rewrite lookup_empty in Hb. Qed.

Lemma clean_val (v : jsval) : clean_json (Val v).
Proof. intros o Ho. now apply elem_of_nil in Ho. Qed.

Lemma clean_insert (k : string) (j : json) (b : gmap string json) :
  clean_json j -> clean_body b -> clean_body (<[k := j]> b).
Proof.
  intros Hj Hb k' j' o Hl Ho. destruct (decide (k = k')) as [<-|Hne].
  - rewrite lookup_insert_eq in Hl. injection Hl as <-. now apply Hj.
  - rewrite lookup_insert_ne in Hl by assumption. exact (Hb k' j' o Hl Ho).
Qed.

Lemma clean_singleton (k : string) (j : json) : clean_json j -> clean_body {[ k := j ]}.
Proof. intros Hj. rewrite <- insert_empty. apply clean_insert; [exact Hj|apply clean_empty]. Qed.

Lemma clean_error (msg : string) : clean_body (error_body msg).
Proof. apply clean_singleton, clean_val. Qed.

Lemma clean_with_prop (k : string) (v : option jsval) (b : gmap string json) :
  clean_body b -> clean_body (with_prop k v b).
Proof. intros Hb. destruct v; [apply clean_insert; [apply clean_val|exact Hb]|exact Hb]. Qed.

Section accounts.
Context {B : Bcrypt} {J : Jws}.
Variable cfg : config.

(** What [POST /api/auth/register] does with a body that the schema
    accepts, when the username is free. *)
Lemma register_accepted (salt : buffer) (id : jsstring) (now : Z) (req : request)
  (st : MemStorage) (username password : jsstring) :
  publicRegistrationSchema (req_body req) = Ok (username, password) ->
  getUserByUsername username st = None ->
  let insertUser : jsobj :=
    <["username"%string := JStr username]>
      (<["password"%string := JStr (bcrypt_hash password 12 salt)]>
         {[ "role"%string := JStr (js "user") ]}) in
  register salt id now req st
  = (reply 201 (<["user"%string := Object (sanitizeUser (createUser insertUser id now st).1)]>
                  {[ "message"%string := Val created_message ]}),
     (createUser insertUser id now st).2).
Proof.
  intros Hp Hf insertUser. unfold register, run, register_body.
  rewrite Hp, bind_call_ok. cbv beta iota. rewrite bind_read, Hf.
  rewrite bind_update. reflexivity.
Qed.

(** The schema of public registration reads [username] and [password] only. *)
Lemma publicRegistrationSchema_reads (b1 b2 : jsobj) :
  b1 !! "username"%string = b2 !! "username"%string ->
  b1 !! "password"%string = b2 !! "password"%string ->
  publicRegistrationSchema b1 = publicRegistrationSchema b2.
Proof. unfold publicRegistrationSchema. now intros -> ->. Qed.

Lemma register_reads (salt : buffer) (id : jsstring) (now : Z) (req1 req2 : request)
  (st : MemStorage) :
  req_body req1 !! "username"%string = req_body req2 !! "username"%string ->
  req_body req1 !! "password"%string = req_body req2 !! "password"%string ->
  register salt id now req1 st = register salt id now req2 st.
Proof.
  intros Hu Hp. unfold register, register_body.
  now rewrite (publicRegistrationSchema_reads _ _ Hu Hp).
Qed.

(** C5. For every self-registration request whose username and password
    the schema accepts (and whose username is free), the account that is
    created and stored has role ['user'] and status ['pending'], the answer
    is 201, and a [role] property in the body, whatever its value, changes
    nothing: the answer and the store are the same as without it. *)
Theorem register_role_pending (salt : buffer) (id : jsstring) (now : Z)
  (req : request) (st : MemStorage) (username password : jsstring) :
  publicRegistrationSchema (req_body req) = Ok (username, password) ->
  getUserByUsername username st = None ->
  exists user : jsobj,
    register salt id now req st
    = (reply 201 (<["user"%string := Object (sanitizeUser user)]>
                    {[ "message"%string := Val created_message ]}),
       {| users := Map_set id user (users st) |})
    /\ getUser id (register salt id now req st).2 = Some user
    /\ user !! "username"%string = Some (JStr username)
    /\ user !! "role"%string = Some (JStr (js "user"))
    /\ user !! "status"%string = Some (JStr (js "pending"))
    /\ (forall role : jsval,
          register salt id now (set_body req (<["role"%string := role]> (req_body req))) st
          = register salt id now req st)
    /\ register salt id now (set_body req (delete "role"%string (req_body req))) st
       = register salt id now req st.
Proof.
  intros Hp Hf. pose proof (register_accepted salt id now req st _ _ Hp Hf) as Hr.
  cbv zeta in Hr. rewrite Hr. eexists.
  refine (conj eq_refl (conj _ (conj _ (conj _ (conj _ (conj _ _)))))).
  - cbn [snd]. unfold createUser, getUser. cbn [snd users]. apply Map_get_set_eq.
  - unfold createUser. cbn [fst]. now simplify_map_eq.
  - unfold createUser. cbn [fst]. now simplify_map_eq.
  - unfold createUser. cbn [fst]. now simplify_map_eq.
  - intros role. rewrite <- Hr. apply register_reads; cbn [req_body set_body];
      now simplify_map_eq.
  - rewrite <- Hr. apply register_reads; cbn [req_body set_body];
      now simplify_map_eq.
Qed.


(** What passing the two gates means. *)
Lemma authenticateToken_next (clock : Z) (req req' : request) :
  authenticateToken cfg clock req = inr req' ->
  exists token decoded,
    extractTokenFromHeader (authorization req) = Some token
    /\ verifyToken cfg token clock = Some decoded
    /\ decoded !! "status"%string = Some (JStr (js "approved"))
    /\ req' = set_user req decoded.
Proof.
  unfold authenticateToken.
  destruct (extractTokenFromHeader (authorization req)) as [token|] eqn:Et;
    [|discriminate].
  destruct (verifyToken cfg token clock) as [decoded|] eqn:Ev; [|discriminate].
  unfold is_str. case_bool_decide as Hs; cbn [negb]; [|discriminate].
  intros [= <-]. now exists token, decoded.
Qed.

Lemma requireAdmin_next (req req' : request) :
  requireAdmin req = inr req' ->
  req' = req
  /\ exists user, req_user req = Some user
                  /\ user !! "role"%string = Some (JStr (js "admin")).
Proof.
  unfold requireAdmin. destruct (req_user req) as [user|]; [|discriminate].
  unfold is_str. case_bool_decide as Hs; cbn [negb]; [|discriminate].
  intros [= <-]. split; [reflexivity|]. now exists user.
Qed.

(** A request that passes both gates reaches the handler with its body. *)
Lemma admin_route_next (h : request -> MemStorage -> response * MemStorage)
  (clock : Z) (req req1 req2 : request) (st : MemStorage) :
  authenticateToken cfg clock req = inr req1 ->
  requireAdmin req1 = inr req2 ->
  route [authenticateToken cfg clock; requireAdmin] h req st = h req2 st
  /\ req_body req2 = req_body req /\ params_id req2 = params_id req.
Proof.
  intros H1 H2. cbn [route]. rewrite H1, H2. split; [reflexivity|].
  apply authenticateToken_next in H1 as (? & ? & _ & _ & _ & ->).
  apply requireAdmin_next in H2 as [-> _]. now split.
Qed.

Lemma adminUserCreationSchema_role (b : jsobj) (username password role : jsstring) :
  adminUserCreationSchema b = Ok (username, password, role) ->
  (role = js "user" \/ role = js "admin")
  /\ (b !! "role"%string = None -> role = js "user")
  /\ (forall r, b !! "role"%string = Some (JStr r) -> role = r).
Proof.
  unfold adminUserCreationSchema, role_enum.
  destruct (z_string_min 3 _); [|discriminate].
  destruct (strongPasswordSchema _); [|discriminate].
  destruct (b !! "role"%string) as [[| | |r|]|]; try discriminate.
  - destruct (bool_decide (r = js "user")) eqn:E1;
      [|destruct (bool_decide (r = js "admin")) eqn:E2]; cbn [orb];
      try discriminate; intros [= _ _ <-].
    + apply bool_decide_eq_true in E1. refine (conj _ (conj _ _)); [tauto|discriminate|congruence].
    + apply bool_decide_eq_true in E2. refine (conj _ (conj _ _)); [tauto|discriminate|congruence].
  - intros [= _ _ <-]. refine (conj _ (conj _ _)); [tauto|reflexivity|discriminate].
Qed.

Lemma admin_create_accepted (salt : buffer) (id : jsstring) (now : Z) (req : request)
  (st : MemStorage) (username password role : jsstring) :
  adminUserCreationSchema (req_body req) = Ok (username, password, role) ->
  getUserByUsername username st = None ->
  let insertUser : jsobj :=
    <["password"%string := JStr (bcrypt_hash password 12 salt)]>
      (<["username"%string := JStr username]> {[ "role"%string := JStr role ]}) in
  admin_create_user_handler salt id now req st
  = (reply 201 {[ "user"%string := Object (sanitizeUser (createUser insertUser id now st).1) ]},
     (createUser insertUser id now st).2).
Proof.
  intros Hp Hf insertUser. unfold admin_create_user_handler, run, admin_create_user_body.
  rewrite Hp, bind_call_ok. cbv beta iota. rewrite bind_read, Hf.
  rewrite bind_update. reflexivity.
Qed.

(** C8. When a request that passes the administrator gate creates a user
    with role ['admin'], the account is stored with status ['approved'] at
    once; with role ['user'], or with no role in the body (the schema's
    default), it is stored with status ['pending']. *)
Theorem admin_create_user_status (clock : Z) (salt : buffer) (id : jsstring) (now : Z)
  (req req1 req2 : request) (st : MemStorage) (username password role : jsstring) :
  authenticateToken cfg clock req = inr req1 ->
  requireAdmin req1 = inr req2 ->
  adminUserCreationSchema (req_body req) = Ok (username, password, role) ->
  getUserByUsername username st = None ->
  exists user : jsobj,
    admin_create_user cfg clock salt id now req st
    = (reply 201 {[ "user"%string := Object (sanitizeUser user) ]},
       {| users := Map_set id user (users st) |})
    /\ getUser id (admin_create_user cfg clock salt id now req st).2 = Some user
    /\ user !! "role"%string = Some (JStr role)
    /\ (role = js "admin" -> user !! "status"%string = Some (JStr (js "approved")))
    /\ (role = js "user" -> user !! "status"%string = Some (JStr (js "pending")))
    /\ (role = js "admin" \/ role = js "user")
    /\ (req_body req !! "role"%string = None -> role = js "user").
Proof.
  intros H1 H2 Hp Hf.
  destruct (admin_route_next (admin_create_user_handler salt id now) clock req req1 req2 st H1 H2)
    as (Hroute & Hbody & _).
  unfold admin_create_user. rewrite Hroute. rewrite <- Hbody in Hp.
  destruct (adminUserCreationSchema_role _ _ _ _ Hp) as (Hcases & Hdefault & _).
  pose proof (admin_create_accepted salt id now req2 st _ _ _ Hp Hf) as Hr.
  cbv zeta in Hr. rewrite Hr. eexists.
  refine (conj eq_refl (conj _ (conj _ (conj _ (conj _ (conj _ _)))))).
  - cbn [snd]. unfold createUser, getUser. cbn [snd users]. apply Map_get_set_eq.
  - unfold createUser. cbn [fst]. simplify_map_eq.
    destruct Hcases as [-> | ->]; reflexivity.
  - intros ->. unfold createUser. cbn [fst]. now simplify_map_eq.
  - intros ->. unfold createUser. cbn [fst]. now simplify_map_eq.
  - tauto.
  - now rewrite <- Hbody.
Qed.


Lemma login_unchanged (now iat : Z) (req : request) (st : MemStorage) :
  unchanged_except ["lastLoginAt"%string] st (login cfg now iat req st).2.
Proof.
  unfold login, run, login_body.
  destruct (loginSchema (req_body req)) as [[username password]|e];
    [rewrite bind_call_ok | rewrite bind_call_throw; apply unchanged_refl].
  cbv beta iota. rewrite bind_read.
  destruct (getUserByUsername username st) as [user|]; [|apply unchanged_refl].
  destruct (compare password (user !! "password"%string)) as [ok|e];
    [rewrite bind_call_ok | rewrite bind_call_throw; apply unchanged_refl].
  destruct ok; cbn [negb]; [|apply unchanged_refl].
  destruct (is_str (user !! "status"%string) "approved"); cbn [negb];
    [|apply unchanged_refl].
  assert (Hu : forall id, unchanged_except ["lastLoginAt"%string] st
                 (updateUser id {[ "lastLoginAt"%string := JDate now ]} st).2).
  { intros id. apply updateUser_unchanged. intros k Hk.
    apply lookup_singleton_ne. intros <-. apply Hk, list_elem_of_here. }
  unfold with_id.
  destruct (user !! "id"%string) as [[| | |id|]|];
    try (change (mret None ≫= ?k) with (k None);
         destruct (generateToken cfg user iat);
         [rewrite bind_call_ok | rewrite bind_call_throw]; apply unchanged_refl).
  rewrite bind_update.
  destruct (generateToken cfg user iat);
    [rewrite bind_call_ok | rewrite bind_call_throw]; apply Hu.
Qed.

Lemma admin_status_unchanged (req : request) (st : MemStorage) :
  unchanged_except ["status"%string] st (admin_status_handler req st).2.
Proof.
  unfold admin_status_handler, run, admin_status_body.
  destruct (negb _); [apply unchanged_refl|].
  rewrite bind_update.
  assert (Hu : unchanged_except ["status"%string] st
                 (updateUser (params_id req) (prop "status" (req_body req !! "status"%string) ∅) st).2).
  { apply updateUser_unchanged. intros k Hk. unfold prop.
    destruct (req_body req !! "status"%string); [|apply lookup_empty].
    rewrite lookup_insert_ne by (intros <-; apply Hk, list_elem_of_here).
    apply lookup_empty. }
  destruct (updateUser _ _ st) as [[user|] st']; exact Hu.
Qed.


Lemma route_unchanged (keys : list string) (chain : list middleware)
  (h : request -> MemStorage -> response * MemStorage) :
  (forall req st, unchanged_except keys st (h req st).2) ->
  forall req st, unchanged_except keys st (route chain h req st).2.
Proof.
  intros Hh. induction chain as [|m chain IH]; intros req st; cbn [route].
  - apply Hh.
  - destruct (m req) as [r|req']; [apply unchanged_refl | apply IH].
Qed.

(** C10. For every stored user and every partial update, [updateUser]
    stores an object that has the update's value at each property the
    update has and the old value at every other property, and leaves the
    other entries of the store alone. In particular, whatever the request,
    the administrator's status route keeps every property of every account
    other than [status] (so the password hash and the credential blob), and
    the login route keeps every property other than [lastLoginAt]. *)
Theorem updateUser_frame (id : jsstring) (updates : jsobj) (st : MemStorage)
  (user : jsobj) :
  getUser id st = Some user ->
  (exists user' : jsobj,
     updateUser id updates st
     = (Some user', {| users := Map_set id user' (users st) |})
     /\ getUser id (updateUser id updates st).2 = Some user'
     /\ (forall k v, updates !! k = Some v -> user' !! k = Some v)
     /\ (forall k, updates !! k = None -> user' !! k = user !! k))
  /\ (forall id', id' <> id ->
        getUser id' (updateUser id updates st).2 = getUser id' st)
  /\ (forall clock req,
        exists user' : jsobj,
          getUser id (admin_status cfg clock req st).2 = Some user'
          /\ user' !! "password"%string = user !! "password"%string
          /\ user' !! "openaiApiKey"%string = user !! "openaiApiKey"%string
          /\ forall k, k <> "status"%string -> user' !! k = user !! k)
  /\ (forall now iat req,
        exists user' : jsobj,
          getUser id (login cfg now iat req st).2 = Some user'
          /\ forall k, k <> "lastLoginAt"%string -> user' !! k = user !! k).
Proof.
  intros Hu. refine (conj _ (conj _ (conj _ _))).
  - exists (updates ∪ user). rewrite (updateUser_lookup _ _ _ _ Hu).
    refine (conj eq_refl (conj _ (conj _ _))).
    + cbn [snd]. unfold getUser. cbn [users]. apply Map_get_set_eq.
    + intros k v Hk. now apply lookup_union_Some_l.
    + intros k Hk. now apply lookup_union_r.
  - intros id' Hne. rewrite (updateUser_lookup _ _ _ _ Hu). cbn [snd].
    unfold getUser. cbn [users]. apply Map_get_set_ne. congruence.
  - intros clock req.
    destruct (route_unchanged ["status"%string] [authenticateToken cfg clock; requireAdmin]
                admin_status_handler admin_status_unchanged req st id user Hu)
      as (user' & Hg & Hk).
    exists user'. refine (conj Hg (conj _ (conj _ _))).
    + apply Hk. member.
    + apply Hk. member.
    + intros k Hne. apply Hk. member.
  - intros now iat req.
    destruct (login_unchanged now iat req st id user Hu) as (user' & Hg & Hk).
    exists user'. split; [exact Hg|]. intros k Hne. apply Hk. member.
Qed.

(** C9. A login with a username that matches no account and a login with
    an existing username and a password that does not match its hash - both
    requests being ones that the login schema accepts - get the same
    answer: status 401 with the body [{ error: 'Invalid credentials' }];
    neither changes the store. *)
Theorem login_failures_same_answer (now1 iat1 now2 iat2 : Z) (req1 req2 : request)
  (st1 st2 : MemStorage) (u1 p1 u2 p2 : jsstring) (user : jsobj) (hash : jsstring) :
  loginSchema (req_body req1) = Ok (u1, p1) ->
  getUserByUsername u1 st1 = None ->
  loginSchema (req_body req2) = Ok (u2, p2) ->
  getUserByUsername u2 st2 = Some user ->
  user !! "password"%string = Some (JStr hash) ->
  bcrypt_compare p2 hash = false ->
  login cfg now1 iat1 req1 st1 = (reply 401 (error_body "Invalid credentials"), st1)
  /\ login cfg now2 iat2 req2 st2 = (reply 401 (error_body "Invalid credentials"), st2)
  /\ (login cfg now1 iat1 req1 st1).1 = (login cfg now2 iat2 req2 st2).1.
Proof.
  intros Hp1 Hn Hp2 Hs Hh Hc.
  assert (H1 : login cfg now1 iat1 req1 st1
               = (reply 401 (error_body "Invalid credentials"), st1)).
  { unfold login, run, login_body. rewrite Hp1, bind_call_ok. cbv beta iota.
    now rewrite bind_read, Hn. }
  assert (H2 : login cfg now2 iat2 req2 st2
               = (reply 401 (error_body "Invalid credentials"), st2)).
  { unfold login, run, login_body. rewrite Hp2, bind_call_ok. cbv beta iota.
    rewrite bind_read, Hs, Hh. cbn [compare]. rewrite bind_call_ok, Hc.
    reflexivity. }
  now rewrite H1, H2.
Qed.


(** *** Tokens *)

Lemma prop_lookup_ne (k k' : string) (v : option jsval) (o : jsobj) :
  k <> k' -> prop k v o !! k' = o !! k'.
Proof. intros Hne. unfold prop. destruct v; [now apply lookup_insert_ne|reflexivity]. Qed.

Lemma prop_lookup_eq (k : string) (v : option jsval) (o : jsobj) :
  o !! k = None -> prop k v o !! k = v.
Proof. intros Ho. unfold prop. destruct v; [apply lookup_insert_eq|exact Ho]. Qed.

Lemma JWTPayload_lookup (user : jsobj) (k : string) :
  k ∈ ["id"; "username"; "role"; "status"]%string ->
  JWTPayload user !! k = user !! k.
Proof.
  intros Hk. unfold JWTPayload.
  repeat (apply elem_of_cons in Hk as [->|Hk]);
    [| | | | now apply elem_of_nil in Hk];
    rewrite ?prop_lookup_ne by discriminate;
    apply prop_lookup_eq; rewrite ?prop_lookup_ne by discriminate; apply lookup_empty.
Qed.

Lemma JWTPayload_json (user : jsobj) :
  json_subject user -> map_Forall (fun _ v => json_value v = true) (JWTPayload user).
Proof.
  intros Hs. unfold JWTPayload.
  assert (Hp : forall k v (o : jsobj),
             k ∈ ["id"; "username"; "role"; "status"]%string -> v = user !! k ->
             map_Forall (fun _ x => json_value x = true) o ->
             map_Forall (fun _ x => json_value x = true) (prop k v o)).
  { intros k v o Hk -> Ho. unfold prop. destruct (user !! k) as [x|] eqn:Ex; [|exact Ho].
    apply map_Forall_insert_2; [|exact Ho]. exact (Hs k x Hk Ex). }
  repeat (apply Hp; [member | reflexivity |]).
  apply map_Forall_empty.
Qed.

Lemma generateToken_claims (user : jsobj) (now span : Z) :
  timespan (jwt_expires_in cfg) = Some span ->
  generateToken cfg user now = Ok (jws_sign (jwt_secret cfg) (claims_of user now span)).
Proof. intros Ht. unfold generateToken, Jsonwebtoken.sign. now rewrite Ht. Qed.

Lemma claims_of_lookup (user : jsobj) (now span : Z) (k : string) :
  k ∈ ["id"; "username"; "role"; "status"]%string ->
  claims_of user now span !! k = user !! k.
Proof.
  intros Hk. unfold claims_of.
  rewrite !lookup_insert_ne; [now apply JWTPayload_lookup|..];
    intros <-; repeat (apply elem_of_cons in Hk as [Hk|Hk]; [discriminate|]);
    now apply elem_of_nil in Hk.
Qed.

Lemma verifyToken_claims (token : jsstring) (claims : jsobj) (later : Z) :
  jws_open (jwt_secret cfg) token = Some claims ->
  verifyToken cfg token later
  = match Jsonwebtoken.check_exp claims later with
    | Some _ => None
    | None =>
        if bool_decide (claims !! "aud"%string = Some (JStr (js "sarvatra-ai-users")))
           && bool_decide (claims !! "iss"%string = Some (JStr (js "sarvatra-ai")))
        then Some claims else None
    end.
Proof.
  intros Ho. unfold verifyToken, Jsonwebtoken.verify. rewrite Ho.
  destruct (Jsonwebtoken.check_exp claims later); [reflexivity|].
  do 2 (case_bool_decide; cbn [negb andb]; try reflexivity).
Qed.

Lemma verifyToken_fresh (Hc : JwsContract J) (user : jsobj) (now later span : Z) :
  json_subject user ->
  verifyToken cfg (jws_sign (jwt_secret cfg) (claims_of user now span)) later
  = if (now + span <=? later)%Z then None else Some (claims_of user now span).
Proof.
  intros Hs. rewrite (verifyToken_claims _ (claims_of user now span)).
  - unfold Jsonwebtoken.check_exp. unfold claims_of at 1. simplify_map_eq.
    destruct (now + span <=? later)%Z; [reflexivity|].
    unfold claims_of. simplify_map_eq. reflexivity.
  - apply (jws_open_sign J Hc). unfold claims_of.
    repeat (apply map_Forall_insert_2; [reflexivity|]).
    now apply JWTPayload_json.
Qed.


(** C7. Under the contract of the signing library and a valid life span
    in the configuration, the token issued for an account whose id,
    username, role and status are JSON values verifies, at any time before
    its expiry, to a payload whose [id], [username], [role] and [status]
    are exactly the account's; from its expiry on it verifies to [null].
    And for any string at all, [verifyToken] returns [null] - it does not
    throw - when the signature or the format is bad, when the token has
    expired, and when the audience or the issuer is wrong: whenever
    [jwt.verify] throws. *)
Theorem verifyToken_generateToken (Hc : JwsContract J) (user : jsobj)
  (now later span : Z) :
  timespan (jwt_expires_in cfg) = Some span ->
  json_subject user ->
  (exists token,
     generateToken cfg user now = Ok token
     /\ ((later < now + span)%Z ->
         exists decoded : jsobj,
           verifyToken cfg token later = Some decoded
           /\ decoded !! "id"%string = user !! "id"%string
           /\ decoded !! "username"%string = user !! "username"%string
           /\ decoded !! "role"%string = user !! "role"%string
           /\ decoded !! "status"%string = user !! "status"%string)
     /\ ((now + span <= later)%Z -> verifyToken cfg token later = None))
  /\ (forall token : jsstring,
        (jws_open (jwt_secret cfg) token = None -> verifyToken cfg token later = None)
        /\ (forall claims e,
              jws_open (jwt_secret cfg) token = Some claims ->
              claims !! "exp"%string = Some (JNum e) -> (e <= later)%Z ->
              verifyToken cfg token later = None)
        /\ (forall claims : jsobj,
              jws_open (jwt_secret cfg) token = Some claims ->
              claims !! "aud"%string <> Some (JStr (js "sarvatra-ai-users")) ->
              verifyToken cfg token later = None)
        /\ (forall claims : jsobj,
              jws_open (jwt_secret cfg) token = Some claims ->
              claims !! "iss"%string <> Some (JStr (js "sarvatra-ai")) ->
              verifyToken cfg token later = None)
        /\ (forall e,
              Jsonwebtoken.verify token (jwt_secret cfg) (js "sarvatra-ai")
                (js "sarvatra-ai-users") later = Throw e ->
              verifyToken cfg token later = None)).
Proof.
  intros Ht Hs. split.
  - exists (jws_sign (jwt_secret cfg) (claims_of user now span)).
    rewrite (generateToken_claims _ _ _ Ht), (verifyToken_fresh Hc) by assumption.
    refine (conj eq_refl (conj _ _)).
    + intros Hl. replace (now + span <=? later)%Z with false by (symmetry; apply Z.leb_gt; lia).
      exists (claims_of user now span).
      refine (conj eq_refl (conj _ (conj _ (conj _ _))));
        apply claims_of_lookup; member.
    + intros Hl. now replace (now + span <=? later)%Z with true by (symmetry; apply Z.leb_le; lia).
  - intros token. refine (conj _ (conj _ (conj _ (conj _ _)))).
    + intros Ho. unfold verifyToken, Jsonwebtoken.verify. now rewrite Ho.
    + intros claims e Ho He Hl. rewrite (verifyToken_claims _ _ _ Ho).
      unfold Jsonwebtoken.check_exp. rewrite He.
      now replace (e <=? later)%Z with true by (symmetry; apply Z.leb_le; lia).
    + intros claims Ho Ha. rewrite (verifyToken_claims _ _ _ Ho).
      destruct (Jsonwebtoken.check_exp claims later); [reflexivity|].
      now rewrite bool_decide_eq_false_2.
    + intros claims Ho Hi. rewrite (verifyToken_claims _ _ _ Ho).
      destruct (Jsonwebtoken.check_exp claims later); [reflexivity|].
      rewrite (bool_decide_eq_false_2 (claims !! "iss"%string = _)) by assumption.
      now rewrite andb_false_r.
    + intros e He. unfold verifyToken. now rewrite He.
Qed.

(** C6. Issuing a token does not look at the approval status: under a
    valid life span [generateToken] returns a token for every account. And
    for every token that verifies to a payload whose status is not
    ['approved'], [authenticateToken] answers 403 and the answer carries
    that status; in particular a token issued for an account that is not
    approved, presented before its expiry, gets 403 with the account's
    status. *)
Theorem unapproved_token_rejected (Hc : JwsContract J) (span : Z) :
  timespan (jwt_expires_in cfg) = Some span ->
  (forall (user : jsobj) (now : Z), exists token, generateToken cfg user now = Ok token)
  /\ (forall (req : request) (clock : Z) (token : jsstring) (decoded : jsobj),
        extractTokenFromHeader (authorization req) = Some token ->
        verifyToken cfg token clock = Some decoded ->
        decoded !! "status"%string <> Some (JStr (js "approved")) ->
        exists r : response,
          authenticateToken cfg clock req = inl r
          /\ status r = 403%Z
          /\ body r !! "status"%string = Val <$> decoded !! "status"%string
          /\ body r !! "error"%string
             = Some (Val (JStr (js "Access denied. Account is not approved."))))
  /\ (forall (user : jsobj) (now clock : Z) (token : jsstring) (req : request),
        json_subject user ->
        user !! "status"%string <> Some (JStr (js "approved")) ->
        generateToken cfg user now = Ok token ->
        extractTokenFromHeader (authorization req) = Some token ->
        (clock < now + span)%Z ->
        exists r : response,
          authenticateToken cfg clock req = inl r
          /\ status r = 403%Z
          /\ body r !! "status"%string = Val <$> user !! "status"%string).
Proof.
  intros Ht.
  assert (Hgate : forall (req : request) (clock : Z) (token : jsstring) (decoded : jsobj),
             extractTokenFromHeader (authorization req) = Some token ->
             verifyToken cfg token clock = Some decoded ->
             decoded !! "status"%string <> Some (JStr (js "approved")) ->
             exists r : response,
               authenticateToken cfg clock req = inl r
               /\ status r = 403%Z
               /\ body r !! "status"%string = Val <$> decoded !! "status"%string
               /\ body r !! "error"%string
                  = Some (Val (JStr (js "Access denied. Account is not approved.")))).
  { intros req clock token decoded He Hv Hs. unfold authenticateToken.
    rewrite He, Hv. unfold is_str. rewrite bool_decide_eq_false_2 by assumption.
    cbn [negb]. eexists. refine (conj eq_refl (conj eq_refl _)). cbn [body].
    unfold with_prop, error_body.
    destruct (decoded !! "status"%string); now simplify_map_eq. }
  refine (conj _ (conj Hgate _)).
  - intros user now. rewrite (generateToken_claims _ _ _ Ht). now eexists.
  - intros user now clock token req Hs Hn Hg He Hl.
    rewrite (generateToken_claims _ _ _ Ht) in Hg. injection Hg as <-.
    assert (Hv : verifyToken cfg (jws_sign (jwt_secret cfg) (claims_of user now span)) clock
                 = Some (claims_of user now span)).
    { rewrite (verifyToken_fresh Hc) by assumption.
      now replace (now + span <=? clock)%Z with false by (symmetry; apply Z.leb_gt; lia). }
    assert (Hst : claims_of user now span !! "status"%string = user !! "status"%string)
      by (apply claims_of_lookup; member).
    destruct (Hgate req clock _ _ He Hv) as (r & Hr & Hcode & Hbody & _).
    + now rewrite Hst.
    + exists r. rewrite <- Hst. now split.
Qed.


(** *** Sanitisation *)

Lemma sanitizeUser_sanitized (user : jsobj) : sanitized (sanitizeUser user).
Proof.
  unfold sanitized, sanitizeUser. split.
  - apply lookup_delete_eq.
  - rewrite lookup_delete_ne by discriminate. apply lookup_delete_eq.
Qed.

Lemma clean_user (user : jsobj) : clean_json (Object (sanitizeUser user)).
Proof.
  intros o Ho. apply list_elem_of_singleton in Ho as ->. apply sanitizeUser_sanitized.
Qed.

Lemma clean_users (users : list jsobj) : clean_json (Array (sanitizeUsers users)).
Proof.
  intros o Ho. cbn [objects_of] in Ho. unfold sanitizeUsers in Ho.
  apply list_elem_of_In, in_map_iff in Ho as (u & <- & _). apply sanitizeUser_sanitized.
Qed.

Create HintDb clean.
Hint Resolve clean_error clean_with_prop clean_val clean_insert clean_singleton
  clean_user clean_users clean_empty : clean.

(** The answer of a finished handler is clean. *)
Ltac answer :=
  unfold clean, mret, handler_ret, send; cbv beta iota; cbn [fst];
  unfold invalid_request; unfold reply; cbn [body]; solve [auto 10 with clean].

Lemma login_clean (now iat : Z) (req : request) (st : MemStorage) :
  clean (login cfg now iat req st).1.
Proof.
  unfold login, login_body, with_id.
  destruct (loginSchema (req_body req)) as [[u p]|e]; unfold clean, run;
    [rewrite bind_call_ok | rewrite bind_call_throw; answer].
  cbv beta iota. rewrite bind_read.
  destruct (getUserByUsername u st) as [user|]; [|answer].
  destruct (compare p (user !! "password"%string)) as [[|]|e];
    [rewrite bind_call_ok | rewrite bind_call_ok | rewrite bind_call_throw];
    cbn [negb]; try answer.
  destruct (is_str (user !! "status"%string) "approved"); cbn [negb]; [|answer].
  destruct (user !! "id"%string) as [[| | |id|]|];
    try (change (mret None ≫= ?k) with (k None));
    rewrite ?bind_update;
    (destruct (generateToken cfg user iat);
     [rewrite bind_call_ok | rewrite bind_call_throw]; answer).
Qed.


Lemma register_clean (salt : buffer) (id : jsstring) (now : Z) (req : request)
  (st : MemStorage) :
  clean (register salt id now req st).1.
Proof.
  unfold register, register_body.
  destruct (publicRegistrationSchema (req_body req)) as [[u p]|e]; unfold clean, run;
    [rewrite bind_call_ok | rewrite bind_call_throw; answer].
  cbv beta iota. rewrite bind_read.
  destruct (getUserByUsername u st); [answer|].
  rewrite bind_update. answer.
Qed.

Lemma admin_users_clean (req : request) (st : MemStorage) :
  clean (admin_users_handler req st).1.
Proof.
  unfold admin_users_handler, admin_users_body, clean, run.
  rewrite bind_read. answer.
Qed.

Lemma admin_create_user_clean (salt : buffer) (id : jsstring) (now : Z)
  (req : request) (st : MemStorage) :
  clean (admin_create_user_handler salt id now req st).1.
Proof.
  unfold admin_create_user_handler, admin_create_user_body.
  destruct (adminUserCreationSchema (req_body req)) as [[[u p] r]|e]; unfold clean, run;
    [rewrite bind_call_ok | rewrite bind_call_throw; answer].
  cbv beta iota. rewrite bind_read.
  destruct (getUserByUsername u st); [answer|].
  rewrite bind_update. answer.
Qed.

Lemma admin_status_clean (req : request) (st : MemStorage) :
  clean (admin_status_handler req st).1.
Proof.
  unfold admin_status_handler, admin_status_body, clean, run.
  destruct (negb _); [answer|].
  rewrite bind_update.
  destruct (updateUser _ _ st).1; answer.
Qed.

Lemma admin_update_clean (salt : buffer) (req : request) (st : MemStorage) :
  clean (admin_update_handler salt req st).1.
Proof.
  unfold admin_update_handler, admin_update_body.
  destruct (insertUserSchema_partial (req_body req)) as [parsed|e]; unfold clean, run;
    [rewrite bind_call_ok | rewrite bind_call_throw; answer].
  cbv beta iota zeta. rewrite bind_update.
  destruct (updateUser _ _ st).1; answer.
Qed.

Lemma me_clean (req : request) (st : MemStorage) : clean (me_handler req st).1.
Proof.
  unfold me_handler, me_body, with_id, clean, run.
  destruct (req_user req) as [decoded|]; [|answer].
  destruct (decoded !! "id"%string) as [[| | |id|]|];
    try (change (mret None ≫= ?k) with (k None); answer).
  rewrite bind_update. cbn [fst snd].
  destruct (getUser id st); answer.
Qed.

Lemma authenticateToken_clean (clock : Z) (req : request) (r : response) :
  authenticateToken cfg clock req = inl r -> clean r.
Proof.
  unfold authenticateToken.
  destruct (extractTokenFromHeader _); [|intros [= <-]; answer].
  destruct (verifyToken _ _ _); [|intros [= <-]; answer].
  destruct (negb _); [intros [= <-]; answer | discriminate].
Qed.

Lemma requireAdmin_clean (req : request) (r : response) :
  requireAdmin req = inl r -> clean r.
Proof.
  unfold requireAdmin. destruct (req_user req); [|intros [= <-]; answer].
  destruct (negb _); [intros [= <-]; answer | discriminate].
Qed.

Lemma route_clean (chain : list middleware)
  (h : request -> MemStorage -> response * MemStorage) :
  Forall (fun m : middleware => forall req r, m req = inl r -> clean r) chain ->
  (forall req st, clean (h req st).1) ->
  forall req st, clean (route chain h req st).1.
Proof.
  intros Hm Hh. induction Hm as [|m chain Hm _ IH]; intros req st; cbn [route].
  - apply Hh.
  - destruct (m req) as [r|req'] eqn:E; [exact (Hm req r E) | apply IH].
Qed.

(** C2. Every account object in the answer of the login, registration,
    user-listing, user-creation, status-update, user-update and
    [/api/auth/me] routes - whatever the request and the store, and
    including the answers of the two gates in front of them - has neither
    a [password] nor an [openaiApiKey] property. *)
Theorem responses_sanitized (req : request) (st : MemStorage) :
  (forall now iat, Forall sanitized (carried (login cfg now iat req st).1))
  /\ (forall salt id now, Forall sanitized (carried (register salt id now req st).1))
  /\ (forall clock, Forall sanitized (carried (admin_users cfg clock req st).1))
  /\ (forall clock salt id now,
        Forall sanitized (carried (admin_create_user cfg clock salt id now req st).1))
  /\ (forall clock, Forall sanitized (carried (admin_status cfg clock req st).1))
  /\ (forall clock salt, Forall sanitized (carried (admin_update cfg clock salt req st).1))
  /\ (forall clock, Forall sanitized (carried (me cfg clock req st).1)).
Proof.
  assert (Hadmin : forall clock,
             Forall (fun m : middleware => forall req r, m req = inl r -> clean r)
               [authenticateToken cfg clock; requireAdmin]).
  { intros clock. constructor; [apply authenticateToken_clean|].
    constructor; [apply requireAdmin_clean|constructor]. }
  assert (Hauth : forall clock,
             Forall (fun m : middleware => forall req r, m req = inl r -> clean r)
               [authenticateToken cfg clock]).
  { intros clock. constructor; [apply authenticateToken_clean|constructor]. }
  refine (conj _ (conj _ (conj _ (conj _ (conj _ (conj _ _))))));
    intros; apply clean_body_carried.
  - apply login_clean.
  - apply register_clean.
  - apply (route_clean _ _ (Hadmin clock)), admin_users_clean.
  - apply (route_clean _ _ (Hadmin clock)), admin_create_user_clean.
  - apply (route_clean _ _ (Hadmin clock)), admin_status_clean.
  - apply (route_clean _ _ (Hadmin clock)), admin_update_clean.
  - apply (route_clean _ _ (Hauth clock)), me_clean.
Qed.

End accounts.

(** ** The properties on the sample data *)

Lemma alice_json_subject : json_subject Sample.alice.
Proof.
  intros k v Hk Hv.
  repeat (apply elem_of_cons in Hk as [->|Hk]);
    [| | | | now apply elem_of_nil in Hk];
    vm_compute in Hv; injection Hv as <-; reflexivity.
Qed.

(** C5 on the example of the specification: ['alice'] registers with a
    [role] of ['admin'] in the body, and is stored as a pending user. *)
Lemma register_role_pending_witness :
  exists user : jsobj,
    getUser (js "u-9")
      (register (B := Reference.bcrypt) Sample.salt (js "u-9") 0
         Sample.register_alice Sample.empty_store).2 = Some user
    /\ user !! "role"%string = Some (JStr (js "user"))
    /\ user !! "status"%string = Some (JStr (js "pending")).
Proof.
  destruct (register_role_pending (B := Reference.bcrypt) Sample.salt (js "u-9") 0
              Sample.register_alice Sample.empty_store (js "alice") (js "Str0ng!pass"))
    as (user & _ & Hg & _ & Hr & Hs & _).
  - vm_compute. reflexivity.
  - reflexivity.
  - exists user. auto.
Defined.

(** C8 on the sample store: the administrator's token passes both gates
    and ['carol'] is created as an approved administrator. *)
Lemma admin_create_user_status_witness :
  exists user : jsobj,
    getUser (js "u-3")
      (admin_create_user (B := Reference.bcrypt) (J := Reference.jws) Sample.cfg 2000
         Sample.salt (js "u-3") 0 Sample.create_carol Sample.store).2 = Some user
    /\ user !! "role"%string = Some (JStr (js "admin"))
    /\ user !! "status"%string = Some (JStr (js "approved")).
Proof.
  edestruct (admin_create_user_status (B := Reference.bcrypt) (J := Reference.jws)
               Sample.cfg 2000 Sample.salt (js "u-3") 0 Sample.create_carol)
    as (user & _ & Hg & Hr & Ha & _).
  - vm_compute. reflexivity.
  - vm_compute. reflexivity.
  - vm_compute. reflexivity.
  - instantiate (1 := Sample.store). vm_compute. reflexivity.
  - exists user. split; [exact Hg|]. split; [exact Hr|]. now apply Ha.
Defined.

(** C7 on the sample store: the token issued for ['alice'] at second 1000
    verifies at second 2000 to a payload with her id, role and status. *)
Lemma verifyToken_generateToken_witness :
  exists token,
    generateToken (J := Reference.jws) Sample.cfg Sample.alice 1000 = Ok token
    /\ exists decoded : jsobj,
         verifyToken (J := Reference.jws) Sample.cfg token 2000 = Some decoded
         /\ decoded !! "id"%string = Some (JStr (js "u-2"))
         /\ decoded !! "role"%string = Some (JStr (js "user"))
         /\ decoded !! "status"%string = Some (JStr (js "pending")).
Proof.
  destruct (verifyToken_generateToken (J := Reference.jws) Sample.cfg
              reference_jws_contract Sample.alice 1000 2000 86400)
    as [(token & Hg & Hv & _) _].
  - reflexivity.
  - exact alice_json_subject.
  - exists token. split; [exact Hg|].
    destruct Hv as (decoded & Hd & Hid & _ & Hr & Hs); [lia|].
    exists decoded. now rewrite Hid, Hr, Hs.
Defined.

(** C6 on the sample store: a token is issued for ['alice'], who is
    pending, and the gate answers it with 403 and her status. *)
Lemma unapproved_token_rejected_witness :
  (exists token, generateToken (J := Reference.jws) Sample.cfg Sample.alice 1000 = Ok token)
  /\ exists r : response,
       authenticateToken (J := Reference.jws) Sample.cfg 2000 (Sample.bearer Sample.alice ∅)
       = inl r
       /\ status r = 403%Z
       /\ body r !! "status"%string = Some (Val (JStr (js "pending"))).
Proof.
  destruct (unapproved_token_rejected (J := Reference.jws) Sample.cfg
              reference_jws_contract 86400) as (Hissue & _ & Hgate).
  - reflexivity.
  - split; [apply Hissue|].
    apply (Hgate Sample.alice 1000%Z 2000%Z (Sample.token_for Sample.alice)).
    + exact alice_json_subject.
    + vm_compute. discriminate.
    + vm_compute. reflexivity.
    + vm_compute. reflexivity.
    + lia.
Defined.

(** C9 on the sample store: an unknown user and ['alice'] with a wrong
    password get the same answer. *)
Lemma login_failures_same_answer_witness :
  (login (B := Reference.bcrypt) (J := Reference.jws) Sample.cfg 0 0
     (Sample.request_with (Sample.credentials "nobody" "Str0ng!pass")) Sample.store).1
  = (login (B := Reference.bcrypt) (J := Reference.jws) Sample.cfg 0 0
       (Sample.request_with (Sample.credentials "alice" "Wr0ng!pass")) Sample.store).1.
Proof.
  apply (login_failures_same_answer (B := Reference.bcrypt) (J := Reference.jws)
           Sample.cfg 0 0 0 0 _ _ Sample.store Sample.store
           (js "nobody") (js "Str0ng!pass") (js "alice") (js "Wr0ng!pass")
           Sample.alice (js "$2b$00$Str0ng!pass"));
    vm_compute; reflexivity.
Defined.

(** C10 on the sample store: approving ['alice'] keeps her password hash. *)
Lemma updateUser_frame_witness :
  exists user' : jsobj,
    getUser (js "u-2")
      (updateUser (js "u-2") {[ "status"%string := JStr (js "approved") ]} Sample.store).2
    = Some user'
    /\ user' !! "status"%string = Some (JStr (js "approved"))
    /\ user' !! "password"%string = Sample.alice !! "password"%string.
Proof.
  destruct (updateUser_frame (B := Reference.bcrypt) (J := Reference.jws) Sample.cfg
              (js "u-2") {[ "status"%string := JStr (js "approved") ]} Sample.store
              Sample.alice)
    as ((user' & _ & Hg & Hset & Hkeep) & _).
  - reflexivity.
  - exists user'. split; [exact Hg|]. split.
    + apply Hset. reflexivity.
    + apply Hkeep. reflexivity.
Defined.

(** The user listing of the sample store carries two objects, both
    without the two properties. *)
Example admin_users_sample :
  map (fun o : jsobj => (o !! "username"%string, o !! "password"%string,
                         o !! "openaiApiKey"%string))
      (carried (admin_users_handler (Sample.request_with ∅) Sample.store).1)
  = [(Some (JStr (js "admin")), None, None); (Some (JStr (js "alice")), None, None)].
Proof. vm_compute. reflexivity. Qed.

(** The stand-in for [bcrypt] accepts the password it hashed. *)
Example reference_bcrypt_accepts :
  bcrypt_compare (Bcrypt := Reference.bcrypt) (js "Str0ng!pass")
    (bcrypt_hash (Bcrypt := Reference.bcrypt) (js "Str0ng!pass") 12 Sample.salt) = true.
Proof. vm_compute. reflexivity. Qed.

(** ** The model on concrete inputs *)

Example split_examples :
  split colon (js "a:b") = [js "a"; js "b"]
  /\ split colon (js "") = [[]]
  /\ split colon (js "a::b") = [js "a"; []; js "b"].
Proof. repeat split. Qed.

Example from_hex_examples :
  from_hex (js "0a1") = [x0a] /\ from_hex (js "0A") = [x0a] /\ from_hex (js "zz") = []
  /\ toString_hex [x0a; xff] = js "0aff".
Proof. repeat split. Qed.

Example from_utf8_examples :
  from_utf8 (js "A") = [x41]
  /\ from_utf8 [0xE9] = [xc3; xa9]
  /\ from_utf8 [0x20AC] = [xe2; x82; xac]
  /\ from_utf8 [0xD83D; 0xDE00] = [xf0; x9f; x98; x80]
  /\ from_utf8 [0xDE00; 0xD83D] = replacement ++ replacement.
Proof. repeat split. Qed.

Example extractTokenFromHeader_examples :
  extractTokenFromHeader (Some (js "Bearer abc")) = Some (js "abc")
  /\ extractTokenFromHeader (Some (js "Bearer  a b")) = Some (js "a b")
  /\ extractTokenFromHeader (Some (js "Bearer")) = None
  /\ extractTokenFromHeader (Some (js "Bearer ")) = None
  /\ extractTokenFromHeader (Some (js "bearer abc")) = None
  /\ extractTokenFromHeader None = None.
Proof. vm_compute. repeat split. Qed.

Example strongPasswordSchema_examples :
  strongPasswordSchema (Some (JStr (js "Str0ng!pass"))) = Some (js "Str0ng!pass")
  /\ strongPasswordSchema (Some (JStr (js "weakpass"))) = None
  /\ strongPasswordSchema (Some (JStr (js "Sh0rt!"))) = None
  /\ strongPasswordSchema None = None.
Proof. vm_compute. repeat split. Qed.

(** From registration to login: ['alice'] registers, is refused with 403
    and her status while pending, is approved, and then logs in; her stored
    password hash is never in an answer. *)
Example lifecycle :
  let login_alice := Sample.request_with (Sample.credentials "alice" "Str0ng!pass") in
  let approve :=
    {| authorization := None; params_id := js "u-9";
       req_body := {[ "status"%string := JStr (js "approved") ]}; req_user := None |} in
  let st1 := (register (B := Reference.bcrypt) Sample.salt (js "u-9") 0
                Sample.register_alice Sample.empty_store).2 in
  let refused := (login (B := Reference.bcrypt) (J := Reference.jws) Sample.cfg 5 5
                    login_alice st1).1 in
  let st2 := (admin_status_handler approve st1).2 in
  let admitted := (login (B := Reference.bcrypt) (J := Reference.jws) Sample.cfg 5 5
                     login_alice st2).1 in
  status refused = 403%Z
  /\ body refused !! "status"%string = Some (Val (JStr (js "pending")))
  /\ status admitted = 200%Z
  /\ map (fun o : jsobj => (o !! "username"%string, o !! "status"%string,
                            o !! "password"%string))
         (carried admitted)
     = [(Some (JStr (js "alice")), Some (JStr (js "approved")), None)].
Proof. vm_compute. repeat split. Qed.

(** * Further properties of the code *)

(** ** The bearer header *)

Lemma drop_while_split (p : N -> bool) (s : jsstring) :
  exists pre, s = pre ++ drop_while p s /\ forallb p pre = true.
Proof.
  induction s as [|c s (pre & Hs & Hp)]; [now exists []|].
  cbn [drop_while]. destruct (p c) eqn:E.
  - exists (c :: pre). cbn [app forallb]. rewrite E, Hp. now rewrite <- Hs.
  - now exists [].
Qed.

Lemma drop_while_head (p : N -> bool) (s : jsstring) (c : N) (r : jsstring) :
  drop_while p s = c :: r -> p c = false.
Proof.
  induction s as [|d s IH]; [discriminate|]. cbn [drop_while].
  destruct (p d) eqn:E; [exact IH|]. now intros [= -> _].
Qed.

Lemma drop_while_app (p : N -> bool) (pre s : jsstring) :
  forallb p pre = true -> drop_while p (pre ++ s) = drop_while p s.
Proof.
  induction pre as [|c pre IH]; [reflexivity|]. cbn [forallb app drop_while].
  intros [Hc Hp]%andb_true_iff. now rewrite Hc, IH.
Qed.

Lemma starts_with_Bearer (h : jsstring) :
  starts_with (js "Bearer") h = true -> h = js "Bearer" ++ drop 6 h.
Proof.
  unfold starts_with. intros H%bool_decide_eq_true. change (length (js "Bearer")) with 6%nat in H.
  rewrite <- H at 1. now rewrite take_drop.
Qed.

Lemma extractTokenFromHeader_parts (h token : jsstring) :
  extractTokenFromHeader (Some h) = Some token ->
  token <> []
  /\ forallb (fun x => negb (line_terminator x)) token = true
  /\ exists ws, h = js "Bearer" ++ ws ++ token
                /\ ws <> [] /\ forallb white_space ws = true.
Proof.
  unfold extractTokenFromHeader. destruct h as [|h0 h]; [discriminate|].
  destruct (starts_with (js "Bearer") (h0 :: h)) eqn:Es; [|discriminate].
  apply starts_with_Bearer in Es. revert Es.
  generalize (drop 6 (h0 :: h)). generalize (h0 :: h). clear h0 h.
  intros h after Hh.
  destruct (drop_while_split white_space after) as (pre & Ha & Hp).
  destruct after as [|c after]; [discriminate|].
  destruct (drop_while white_space (c :: after)) as [|r rest] eqn:Er.
  - rewrite app_nil_r in Ha. subst pre.
    destruct (last (c :: after)) as [l|] eqn:El; [|discriminate].
    destruct (2 <=? length (c :: after))%nat eqn:E2; [|discriminate].
    destruct (line_terminator l) eqn:Elt; [discriminate|]. cbn [negb andb].
    intros [= <-]. split; [discriminate|]. split; [cbn; now rewrite Elt|].
    apply last_Some in El as [front El]. exists front.
    rewrite Hh, El. split; [reflexivity|].
    rewrite El in Hp, E2. rewrite forallb_app in Hp. apply andb_true_iff in Hp as [Hf _].
    split; [|exact Hf]. intros ->. cbn in E2. discriminate.
  - destruct (white_space c) eqn:Ec; [|discriminate]. cbn [andb].
    destruct (forallb _ (r :: rest)) eqn:Ef; [|discriminate].
    intros [= <-]. split; [discriminate|]. split; [exact Ef|].
    exists pre. rewrite Hh, Ha. split; [reflexivity|]. split; [|exact Hp].
    intros ->. cbn [app] in Ha. rewrite <- Ha in Er.
    pose proof (drop_while_head _ _ _ _ Er) as Hn. injection Ha as <- _. congruence.
Qed.

Lemma extractTokenFromHeader_request (authHeader : option jsstring) (token : jsstring) :
  extractTokenFromHeader authHeader = Some token -> exists c t, token = c :: t.
Proof.
  destruct authHeader as [h|]; [|discriminate]. intros H.
  apply extractTokenFromHeader_parts in H as [Hn _].
  destruct token as [|c t]; [contradiction|]. now exists c, t.
Qed.

Lemma extractTokenFromHeader_bearer (ws token : jsstring) (c : N) (t : jsstring) :
  ws <> [] -> forallb white_space ws = true ->
  token = c :: t -> white_space c = false ->
  forallb (fun x => negb (line_terminator x)) token = true ->
  extractTokenFromHeader (Some (js "Bearer" ++ ws ++ token)) = Some token.
Proof.
  intros Hw Hws -> Hc Hlt. unfold extractTokenFromHeader.
  change (js "Bearer" ++ ws ++ c :: t) with (66 :: (js "earer" ++ ws ++ c :: t)).
  change (starts_with (js "Bearer") (66 :: js "earer" ++ ws ++ c :: t)) with true.
  cbv iota. change (drop 6 (66 :: js "earer" ++ ws ++ c :: t)) with (ws ++ c :: t).
  rewrite (drop_while_app _ _ _ Hws). cbn [drop_while]. rewrite Hc.
  destruct ws as [|w ws]; [contradiction|]. cbn [app].
  cbn [forallb] in Hws. apply andb_true_iff in Hws as [-> _]. cbn [andb].
  now rewrite Hlt.
Qed.

(** X2. Whatever [extractTokenFromHeader] returns is a non-empty string
    without line terminator that ends the header, and the header is
    [Bearer], then a non-empty run of white space, then that string.
    Conversely a header made of [Bearer], white space and a string that
    does not start with white space and holds no line terminator gives that
    string; a request without the header gives nothing. *)
Theorem extractTokenFromHeader_shape (h token : jsstring) :
  extractTokenFromHeader (Some h) = Some token ->
  (token <> []
   /\ forallb (fun x => negb (line_terminator x)) token = true
   /\ exists ws, h = js "Bearer" ++ ws ++ token
                 /\ ws <> [] /\ forallb white_space ws = true)
  /\ (forall c t, token = c :: t -> white_space c = false ->
        forall ws, ws <> [] -> forallb white_space ws = true ->
        extractTokenFromHeader (Some (js "Bearer" ++ ws ++ token)) = Some token)
  /\ extractTokenFromHeader None = None.
Proof.
  intros H. pose proof (extractTokenFromHeader_parts h token H) as (Hn & Hlt & Hws).
  refine (conj (conj Hn (conj Hlt Hws)) (conj _ eq_refl)).
  intros c t Ht Hc ws Hw Hf. now apply (extractTokenFromHeader_bearer ws token c t).
Qed.

Section guards_properties.
Context {J : Jws}.
Variable cfg : config.

(** X1. A token that the client stored - non-empty, not starting with
    white space, without line terminator - is sent as [Bearer <token>], and
    the server extracts exactly that token from the header. Without a
    stored token (or with an empty one) no [Authorization] header is sent
    and [authenticateToken] answers 401. *)
Theorem stored_token_reaches_server (ls : Client.localStorage) (token : jsstring)
  (c : N) (t : jsstring) :
  token = c :: t -> white_space c = false ->
  forallb (fun x => negb (line_terminator x)) token = true ->
  Client.getAuthHeaders (Client.setStoredToken token ls) !! "Authorization"%string
  = Some (js "Bearer " ++ token)
  /\ extractTokenFromHeader
       (Client.getAuthHeaders (Client.setStoredToken token ls) !! "Authorization"%string)
     = Some token
  /\ Client.getAuthHeaders (Client.removeStoredToken ls) = ∅
  /\ Client.getAuthHeaders (Client.setStoredToken [] ls) = ∅
  /\ (forall clock req,
        authorization req = Client.getAuthHeaders (Client.removeStoredToken ls)
                              !! "Authorization"%string ->
        authenticateToken cfg clock req
        = inl {| status := 401; body := error_body "Access denied. No token provided." |}).
Proof.
  intros Ht Hc Hlt.
  assert (Hh : Client.getAuthHeaders (Client.setStoredToken token ls) !! "Authorization"%string
               = Some (js "Bearer " ++ token)).
  { unfold Client.getAuthHeaders, Client.getStoredToken, Client.setStoredToken.
    rewrite lookup_insert_eq, Ht. apply lookup_singleton_eq. }
  assert (Hr : Client.getAuthHeaders (Client.removeStoredToken ls) = ∅).
  { unfold Client.getAuthHeaders, Client.getStoredToken, Client.removeStoredToken.
    now rewrite lookup_delete_eq. }
  refine (conj Hh (conj _ (conj Hr (conj _ _)))).
  - rewrite Hh.
    apply (extractTokenFromHeader_bearer [32] token c t);
      first [discriminate | reflexivity | assumption].
  - unfold Client.getAuthHeaders, Client.getStoredToken, Client.setStoredToken.
    now rewrite lookup_insert_eq.
  - intros clock req Ha. unfold authenticateToken. rewrite Ha, Hr, lookup_empty.
    reflexivity.
Qed.

(** X3. [throwIfResNotOk] returns normally and leaves [localStorage] alone
    exactly for a status from 200 to 299. Otherwise it throws; the stored
    token is removed when the status is 401 and only then, every other key
    of [localStorage] is kept, and after a 401 the next request carries no
    [Authorization] header. *)
Theorem throwIfResNotOk_clears_token (res : Client.fetched) (ls : Client.localStorage) :
  ((200 <= Client.res_status res <= 299)%Z ->
   Client.throwIfResNotOk res ls = (Ok tt, ls))
  /\ (~ (200 <= Client.res_status res <= 299)%Z ->
      exists e, (Client.throwIfResNotOk res ls).1 = Throw e)
  /\ (Client.res_status res = 401%Z ->
      Client.getStoredToken (Client.throwIfResNotOk res ls).2 = None
      /\ Client.getAuthHeaders (Client.throwIfResNotOk res ls).2 = ∅)
  /\ (Client.res_status res <> 401%Z -> (Client.throwIfResNotOk res ls).2 = ls)
  /\ (forall k, k <> Client.TOKEN_KEY -> (Client.throwIfResNotOk res ls).2 !! k = ls !! k).
Proof.
  unfold Client.throwIfResNotOk, Client.res_ok.
  refine (conj _ (conj _ (conj _ (conj _ _)))).
  - intros [H1 H2]. rewrite (proj2 (Z.leb_le _ _) H1), (proj2 (Z.leb_le _ _) H2).
    reflexivity.
  - intros Hn. destruct (_ && _)%bool eqn:E; cbn [negb]; [|now eexists].
    apply andb_true_iff in E as [H1%Z.leb_le H2%Z.leb_le]. lia.
  - intros ->. change ((200 <=? 401)%Z && (401 <=? 299)%Z) with false.
    change (401 =? 401)%Z with true. cbn [negb snd].
    unfold Client.getAuthHeaders, Client.getStoredToken, Client.removeStoredToken.
    now rewrite lookup_delete_eq.
  - intros Hn. destruct (negb _); [|reflexivity]. cbn [snd].
    now rewrite (proj2 (Z.eqb_neq _ _) Hn).
  - intros k Hk. destruct (negb _); [|reflexivity]. cbn [snd].
    destruct (_ =? _)%Z; [|reflexivity].
    unfold Client.removeStoredToken. now rewrite lookup_delete_ne.
Qed.

(** X4. [optionalAuth] never answers. It hands on the request that
    [authenticateToken] would hand on, when that one lets the request pass,
    and the unchanged request in every case where that one answers 401 or
    403. *)
Theorem optionalAuth_agrees (now : Z) (req : request) :
  (exists req', optionalAuth cfg now req = inr req')
  /\ (forall req', authenticateToken cfg now req = inr req' ->
        optionalAuth cfg now req = inr req')
  /\ (forall r, authenticateToken cfg now req = inl r ->
        optionalAuth cfg now req = inr req).
Proof.
  unfold optionalAuth, authenticateToken.
  destruct (extractTokenFromHeader (authorization req)) as [token|] eqn:Et.
  - destruct (extractTokenFromHeader_request _ _ Et) as (c & t & ->).
    destruct (verifyToken cfg (c :: t) now) as [decoded|].
    + destruct (is_str (decoded !! "status"%string) "approved"); cbn [negb];
        (split; [now eexists|]); split; intros ? [=]; congruence.
    + (split; [now eexists|]); split; intros ? [=]; congruence.
  - (split; [now eexists|]); split; intros ? [=]; congruence.
Qed.

Lemma with_prop_error (k : string) (v : option jsval) (msg : string) :
  k <> "error"%string ->
  with_prop k v (error_body msg) !! "error"%string = Some (Val (JStr (js msg))).
Proof.
  intros Hk. unfold with_prop, error_body. destruct v.
  - rewrite lookup_insert_ne by exact Hk. apply lookup_singleton_eq.
  - apply lookup_singleton_eq.
Qed.

(** What the two gates of the administrator routes let through. *)
Lemma admin_gate (clock : Z) (req : request) :
  (exists token decoded,
     extractTokenFromHeader (authorization req) = Some token
     /\ verifyToken cfg token clock = Some decoded
     /\ decoded !! "status"%string = Some (JStr (js "approved"))
     /\ decoded !! "role"%string = Some (JStr (js "admin"))
     /\ forall h st, route [authenticateToken cfg clock; requireAdmin] h req st
                     = h (set_user req decoded) st)
  \/ (exists r,
        (status r = 401%Z \/ status r = 403%Z)
        /\ (exists msg, body r !! "error"%string = Some (Val (JStr msg)))
        /\ forall h st, route [authenticateToken cfg clock; requireAdmin] h req st = (r, st)).
Proof.
  cbn [route]. destruct (authenticateToken cfg clock req) as [r|req1] eqn:Ea.
  - right. exists r. revert Ea. unfold authenticateToken.
    destruct (extractTokenFromHeader _);
      [|intros [= <-]; split; [now left|split; [now eexists|reflexivity]]].
    destruct (verifyToken _ _ _);
      [|intros [= <-]; split; [now left|split; [now eexists|reflexivity]]].
    destruct (negb _); [intros [= <-]|discriminate].
    split; [now right|split; [|reflexivity]].
    eexists. cbn [body]. now apply with_prop_error.
  - apply authenticateToken_next in Ea as (token & decoded & Et & Ev & Hs & ->).
    destruct (requireAdmin (set_user req decoded)) as [r|req2] eqn:Er.
    + right. exists r. revert Er. unfold requireAdmin. cbn [req_user set_user].
      destruct (negb _); [intros [= <-]|discriminate].
      split; [now right|split; [|reflexivity]].
      eexists. cbn [body]. now apply with_prop_error.
    + left. apply requireAdmin_next in Er as (-> & user & Hu & Hr).
      cbn [req_user set_user] in Hu. injection Hu as <-.
      now exists token, decoded.
Qed.

(** X6. Behind [authenticateToken] and [requireAdminOrSelf('id')] a handler
    runs only for a token that verifies to an approved payload which is an
    administrator's or whose [id] is the [:id] of the route; every other
    request is answered 401 or 403 and leaves the store as it is. A refused
    payload gets 403 with its own role echoed. Whatever [requireAdmin] lets
    pass, [requireAdminOrSelf] lets pass. *)
Theorem admin_or_self_gate (h : request -> MemStorage -> response * MemStorage)
  (clock : Z) (req : request) (st : MemStorage) :
  ((exists token decoded,
      extractTokenFromHeader (authorization req) = Some token
      /\ verifyToken cfg token clock = Some decoded
      /\ decoded !! "status"%string = Some (JStr (js "approved"))
      /\ (decoded !! "role"%string = Some (JStr (js "admin"))
          \/ decoded !! "id"%string = Some (JStr (params_id req)))
      /\ route [authenticateToken cfg clock; requireAdminOrSelf "id"] h req st
         = h (set_user req decoded) st)
   \/ (exists r,
         route [authenticateToken cfg clock; requireAdminOrSelf "id"] h req st = (r, st)
         /\ (status r = 401%Z \/ status r = 403%Z)))
  /\ (forall user,
        req_user req = Some user ->
        user !! "role"%string <> Some (JStr (js "admin")) ->
        user !! "id"%string <> Some (JStr (params_id req)) ->
        exists r, requireAdminOrSelf "id" req = inl r
                  /\ status r = 403%Z
                  /\ body r !! "userRole"%string = Val <$> user !! "role"%string)
  /\ (forall p req', requireAdmin req = inr req' -> requireAdminOrSelf p req = inr req').
Proof.
  refine (conj _ (conj _ _)).
  - cbn [route]. destruct (authenticateToken cfg clock req) as [r|req1] eqn:Ea.
    + right. exists r. split; [reflexivity|]. revert Ea. unfold authenticateToken.
      destruct (extractTokenFromHeader _); [|intros [= <-]; now left].
      destruct (verifyToken _ _ _); [|intros [= <-]; now left].
      destruct (negb _); [intros [= <-]; now right|discriminate].
    + apply authenticateToken_next in Ea as (token & decoded & Et & Ev & Hs & ->).
      unfold requireAdminOrSelf, req_params. cbn [req_user set_user params_id].
      rewrite (bool_decide_eq_true_2 ("id"%string = "id"%string) eq_refl).
      cbn [fmap option_fmap option_map].
      unfold is_str.
      destruct (decide (decoded !! "role"%string = Some (JStr (js "admin")))) as [Hr|Hr].
      * left. exists token, decoded. rewrite (bool_decide_eq_true_2 _ Hr). cbn [orb].
        auto 10.
      * rewrite (bool_decide_eq_false_2 _ Hr). cbn [orb]. case_bool_decide as Hi.
        -- left. exists token, decoded. auto 10.
        -- right. eexists. split; [reflexivity|]. now right.
  - intros user Hu Hr Hi. unfold requireAdminOrSelf, req_params. rewrite Hu.
    rewrite (bool_decide_eq_true_2 ("id"%string = "id"%string) eq_refl).
      cbn [fmap option_fmap option_map].
    unfold is_str. rewrite !bool_decide_eq_false_2 by assumption. cbn [orb].
    eexists. refine (conj eq_refl (conj eq_refl _)). cbn [body].
    unfold with_prop, error_body. destruct (user !! "role"%string); now simplify_map_eq.
  - intros p req' Hp. apply requireAdmin_next in Hp as (-> & user & Hu & Hr).
    unfold requireAdminOrSelf. rewrite Hu. unfold is_str.
    now rewrite (bool_decide_eq_true_2 _ Hr).
Qed.

End guards_properties.

(** ** The account store *)

Lemma Map_get_elem_of (k : jsstring) (v : jsobj) (m : users_map) :
  Map_get k m = Some v -> (k, v) ∈ m.
Proof.
  induction m as [|[k' v'] m IH]; cbn [Map_get]; [discriminate|].
  case_bool_decide as E.
  - intros [= ->]. subst k'. apply list_elem_of_here.
  - intros H. apply list_elem_of_further, IH, H.
Qed.

Lemma Map_get_None (k : jsstring) (m : users_map) :
  Map_get k m = None <-> k ∉ m.*1.
Proof.
  induction m as [|[k' v'] m IH]; cbn [Map_get fmap list_fmap fst].
  - split; [intros _; apply not_elem_of_nil|reflexivity].
  - rewrite not_elem_of_cons. case_bool_decide as E.
    + split; [discriminate|]. intros [H _]. now symmetry in E.
    + rewrite IH. split; [intros H; split; [congruence|exact H]|now intros [_ H]].
Qed.

Lemma elem_of_Map_get (k : jsstring) (v : jsobj) (m : users_map) :
  NoDup m.*1 -> (k, v) ∈ m -> Map_get k m = Some v.
Proof.
  induction m as [|[k' v'] m IH]; cbn [Map_get fmap list_fmap fst].
  - intros _ H. now apply elem_of_nil in H.
  - intros [Hk Hnd]%NoDup_cons [H|H]%elem_of_cons.
    + injection H as -> ->. now rewrite bool_decide_eq_true_2.
    + case_bool_decide as E; [|now apply IH].
      subst k'. exfalso. apply Hk. apply list_elem_of_fmap. now exists (k, v).
Qed.

Lemma Map_set_fresh (k : jsstring) (v : jsobj) (m : users_map) :
  Map_get k m = None -> Map_set k v m = m ++ [(k, v)].
Proof.
  induction m as [|[k' v'] m IH]; cbn [Map_get Map_set app]; [reflexivity|].
  case_bool_decide as E; [discriminate|]. intros H. now rewrite IH.
Qed.

Lemma Map_set_stored (k : jsstring) (v v0 : jsobj) (m : users_map) :
  Map_get k m = Some v0 ->
  exists before after,
    m = before ++ (k, v0) :: after /\ Map_set k v m = before ++ (k, v) :: after
    /\ k ∉ before.*1.
Proof.
  induction m as [|[k' v'] m IH]; cbn [Map_get Map_set]; [discriminate|].
  case_bool_decide as E.
  - intros [= ->]. subst k'. exists [], m. cbn [app fmap list_fmap].
    refine (conj eq_refl (conj eq_refl _)). apply not_elem_of_nil.
  - intros H. destruct (IH H) as (before & after & -> & -> & Hn).
    exists ((k', v') :: before), after. cbn [app fmap list_fmap fst].
    refine (conj eq_refl (conj eq_refl _)). rewrite not_elem_of_cons. split; congruence.
Qed.

Lemma Map_set_keys (k : jsstring) (v : jsobj) (m : users_map) :
  (Map_set k v m).*1 = match Map_get k m with Some _ => m.*1 | None => m.*1 ++ [k] end.
Proof.
  destruct (Map_get k m) as [v0|] eqn:E.
  - destruct (Map_set_stored k v v0 m E) as (before & after & -> & -> & _).
    now rewrite !fmap_app.
  - rewrite (Map_set_fresh k v m E). now rewrite fmap_app.
Qed.

Lemma Map_set_NoDup (k : jsstring) (v : jsobj) (m : users_map) :
  NoDup m.*1 -> NoDup (Map_set k v m).*1.
Proof.
  intros Hnd. rewrite Map_set_keys. destruct (Map_get k m) eqn:E; [exact Hnd|].
  apply NoDup_app. refine (conj Hnd (conj _ _)).
  - intros x Hx [->|H]%elem_of_cons; [|now apply elem_of_nil in H].
    now apply Map_get_None in E.
  - apply NoDup_singleton.
Qed.

Lemma createUser_id (insertUser : jsobj) (id : jsstring) (now : Z) (st : MemStorage) :
  (createUser insertUser id now st).1 !! "id"%string = Some (JStr id).
Proof. unfold createUser. cbn [fst]. now simplify_map_eq. Qed.

Lemma createUser_get (insertUser : jsobj) (id : jsstring) (now : Z) (st : MemStorage) :
  getUser id (createUser insertUser id now st).2 = Some (createUser insertUser id now st).1.
Proof. apply Map_get_set_eq. Qed.

Lemma createUser_other (insertUser : jsobj) (id id' : jsstring) (now : Z)
  (st : MemStorage) :
  id' <> id ->
  getUser id' (createUser insertUser id now st).2 = getUser id' st.
Proof. intros Hne. now apply Map_get_set_ne. Qed.


(** X7. [createUser] stores the new account under the drawn id and returns
    it. Whatever the caller passes, the account has that id, no credential
    blob, no last login, the creation date of the call, and a status that
    only the role decides; every other property is the caller's. Accounts
    under other ids are untouched, a fresh id puts the account last in
    [getAllUsers], and an id that is already a key replaces that account in
    place. *)
Theorem createUser_stored (insertUser : jsobj) (id : jsstring) (now : Z)
  (st : MemStorage) :
  let user := (createUser insertUser id now st).1 in
  let st' := (createUser insertUser id now st).2 in
  getUser id st' = Some user
  /\ user !! "id"%string = Some (JStr id)
  /\ user !! "openaiApiKey"%string = Some JNull
  /\ user !! "lastLoginAt"%string = Some JNull
  /\ user !! "createdAt"%string = Some (JDate now)
  /\ (user !! "status"%string = Some (JStr (js "approved"))
      \/ user !! "status"%string = Some (JStr (js "pending")))
  /\ (user !! "status"%string = Some (JStr (js "approved"))
      <-> insertUser !! "role"%string = Some (JStr (js "admin")))
  /\ (forall k, k ∉ ["id"; "role"; "status"; "openaiApiKey"; "createdAt"; "lastLoginAt"]%string ->
        user !! k = insertUser !! k)
  /\ (forall id', id' <> id -> getUser id' st' = getUser id' st)
  /\ (getUser id st = None -> getAllUsers st' = getAllUsers st ++ [user])
  /\ (forall old, getUser id st = Some old ->
        exists before after,
          getAllUsers st = before ++ old :: after
          /\ getAllUsers st' = before ++ user :: after).
Proof.
  intros user st'. subst user st'. unfold createUser, getUser, getAllUsers, Map_values.
  cbn [fst snd users]. unfold is_str.
  refine (conj _ (conj _ (conj _ (conj _ (conj _ (conj _ (conj _ (conj _ (conj _ (conj _ _)))))))))).
  - apply Map_get_set_eq.
  - now simplify_map_eq.
  - now simplify_map_eq.
  - now simplify_map_eq.
  - now simplify_map_eq.
  - case_bool_decide; simplify_map_eq; tauto.
  - case_bool_decide as E; simplify_map_eq; split; try tauto; try discriminate;
      intros H; congruence.
  - intros k Hk. rewrite !not_elem_of_cons in Hk.
    destruct Hk as (? & ? & ? & ? & ? & ? & _). now simplify_map_eq.
  - intros id' Hne. now apply Map_get_set_ne.
  - intros Hn. rewrite (Map_set_fresh _ _ _ Hn). now rewrite fmap_app.
  - intros old Ho. match goal with |- context [Map_set id ?u _] =>
      destruct (Map_set_stored id u old _ Ho) as (before & after & E1 & E2 & _) end.
    exists before.*2, after.*2. rewrite E2. rewrite E1 at 1. now rewrite !fmap_app.
Qed.

Lemma find_spec {A} (p : A -> bool) (l : list A) :
  match List.find p l with
  | Some x => exists before after,
      l = before ++ x :: after /\ p x = true /\ Forall (fun y => p y = false) before
  | None => Forall (fun y => p y = false) l
  end.
Proof.
  induction l as [|a l IH]; cbn [List.find]; [constructor|].
  destruct (p a) eqn:E.
  - exists [], l. now repeat split.
  - destruct (List.find p l) as [x|].
    + destruct IH as (before & after & -> & Hx & Hb).
      exists (a :: before), after. repeat split; [assumption|]. now constructor.
    + now constructor.
Qed.

(** X8. [getUserByUsername] returns the first account, in the order of
    insertion, whose [username] is strictly equal to the argument, and
    nothing exactly when no stored account has that username. *)
Theorem getUserByUsername_first (username : jsstring) (st : MemStorage) :
  match getUserByUsername username st with
  | Some user =>
      has_username username user
      /\ exists before after,
           getAllUsers st = before ++ user :: after
           /\ Forall (fun other => ~ has_username username other) before
  | None => Forall (fun other => ~ has_username username other) (getAllUsers st)
  end.
Proof.
  unfold getUserByUsername, getAllUsers, has_username.
  pose proof (find_spec
    (fun user : jsobj => bool_decide (user !! "username"%string = Some (JStr username)))
    (Map_values (users st))) as H.
  destruct (List.find _ _) as [user|].
  - destruct H as (before & after & E & Hu & Hb). split.
    + now apply bool_decide_eq_true in Hu.
    + exists before, after. split; [exact E|].
      eapply Forall_impl; [exact Hb|]. intros y Hy. now apply bool_decide_eq_false in Hy.
  - eapply Forall_impl; [exact H|]. intros y Hy. now apply bool_decide_eq_false in Hy.
Qed.

Lemma getUserByUsername_None_all (username : jsstring) (st : MemStorage) :
  getUserByUsername username st = None ->
  Forall (fun other : jsobj =>
            bool_decide (other !! "username"%string = Some (JStr username)) = false)
         (Map_values (users st)).
Proof.
  unfold getUserByUsername. intros Hn.
  pose proof (find_spec
    (fun user : jsobj => bool_decide (user !! "username"%string = Some (JStr username)))
    (Map_values (users st))) as H.
  now rewrite Hn in H.
Qed.

Lemma getUserByUsername_None (username : jsstring) (st : MemStorage) :
  getUserByUsername username st = None ->
  forall id user, getUser id st = Some user -> ~ has_username username user.
Proof.
  intros Hn id user Hu. pose proof (getUserByUsername_None_all username st Hn) as H.
  rewrite Forall_forall in H. unfold has_username.
  eapply bool_decide_eq_false_1, H.
  unfold getAllUsers, Map_values. apply list_elem_of_fmap. exists (id, user).
  split; [reflexivity|]. now apply Map_get_elem_of.
Qed.

Lemma getUserByUsername_Some (username : jsstring) (st : MemStorage) (id : jsstring)
  (user : jsobj) :
  getUser id st = Some user -> has_username username user ->
  exists found, getUserByUsername username st = Some found.
Proof.
  intros Hu Hn. destruct (getUserByUsername username st) as [found|] eqn:E;
    [now exists found|].
  exfalso. exact (getUserByUsername_None _ _ E _ _ Hu Hn).
Qed.

(** ** What the account routes do to the store *)

Lemma changes_keyed (st st' : MemStorage) : changes st st' -> keyed st -> keyed st'.
Proof.
  intros Hc [Hnd Hk]. destruct Hc as [|insertUser id now|id updates Hu].
  - now split.
  - split.
    + unfold createUser. cbn [snd users]. now apply Map_set_NoDup.
    + intros id' user. destruct (decide (id' = id)) as [->|Hne].
      * rewrite createUser_get. intros [= <-]. exact (createUser_id insertUser id now st).
      * rewrite (createUser_other _ _ _ _ _ Hne). apply Hk.
  - unfold updateUser. destruct (Map_get id (users st)) as [user|] eqn:Eg; [|now split].
    cbn [snd]. split.
    + cbn [users]. now apply Map_set_NoDup.
    + intros id' user'. unfold getUser. cbn [users].
      destruct (decide (id = id')) as [<-|Hne].
      * rewrite Map_get_set_eq. intros [= <-]. rewrite lookup_union_r by exact Hu.
        now apply Hk.
      * rewrite Map_get_set_ne by exact Hne. apply Hk.
Qed.

Lemma keyed_listed (st : MemStorage) (user : jsobj) :
  keyed st -> user ∈ getAllUsers st ->
  exists id, user !! "id"%string = Some (JStr id) /\ getUser id st = Some user.
Proof.
  intros [Hnd Hk] Hu. unfold getAllUsers, Map_values in Hu.
  apply list_elem_of_fmap in Hu as ([id u] & -> & Hin).
  apply (elem_of_Map_get _ _ _ Hnd) in Hin. exists id. split; [|exact Hin].
  now apply Hk.
Qed.

Lemma route_changes (chain : list middleware)
  (h : request -> MemStorage -> response * MemStorage) :
  (forall req st, changes st (h req st).2) ->
  forall req st, changes st (route chain h req st).2.
Proof.
  intros Hh. induction chain as [|m chain IH]; intros req st; cbn [route].
  - apply Hh.
  - destruct (m req) as [r|req']; [constructor | apply IH].
Qed.

Section account_flows.
Context {B : Bcrypt} {J : Jws}.
Variable cfg : config.

Lemma login_changes (now iat : Z) (req : request) (st : MemStorage) :
  changes st (login cfg now iat req st).2.
Proof.
  unfold login, run, login_body.
  destruct (loginSchema (req_body req)) as [[username password]|e];
    [rewrite bind_call_ok | rewrite bind_call_throw; constructor].
  cbv beta iota. rewrite bind_read.
  destruct (getUserByUsername username st) as [user|]; [|constructor].
  destruct (compare password (user !! "password"%string)) as [ok|e];
    [rewrite bind_call_ok | rewrite bind_call_throw; constructor].
  destruct ok; cbn [negb]; [|constructor].
  destruct (is_str (user !! "status"%string) "approved"); cbn [negb];
    [|constructor].
  unfold with_id.
  destruct (user !! "id"%string) as [[| | |id|]|];
    try (change (mret None ≫= ?k) with (k None);
         destruct (generateToken cfg user iat);
         [rewrite bind_call_ok | rewrite bind_call_throw]; constructor).
  rewrite bind_update.
  destruct (generateToken cfg user iat);
    [rewrite bind_call_ok | rewrite bind_call_throw];
    now apply changes_update.
Qed.

Lemma register_changes (salt : buffer) (id : jsstring) (now : Z) (req : request)
  (st : MemStorage) :
  changes st (register salt id now req st).2.
Proof.
  unfold register, run, register_body.
  destruct (publicRegistrationSchema (req_body req)) as [[u p]|e];
    [rewrite bind_call_ok | rewrite bind_call_throw; constructor].
  cbv beta iota. rewrite bind_read.
  destruct (getUserByUsername u st); [constructor|].
  rewrite bind_update. apply changes_create.
Qed.

Lemma admin_create_user_changes (salt : buffer) (id : jsstring) (now : Z)
  (req : request) (st : MemStorage) :
  changes st (admin_create_user_handler salt id now req st).2.
Proof.
  unfold admin_create_user_handler, run, admin_create_user_body.
  destruct (adminUserCreationSchema (req_body req)) as [[[u p] r]|e];
    [rewrite bind_call_ok | rewrite bind_call_throw; constructor].
  cbv beta iota. rewrite bind_read.
  destruct (getUserByUsername u st); [constructor|].
  rewrite bind_update. apply changes_create.
Qed.

Lemma admin_status_changes (req : request) (st : MemStorage) :
  changes st (admin_status_handler req st).2.
Proof.
  unfold admin_status_handler, run, admin_status_body.
  destruct (negb _); [constructor|].
  rewrite bind_update.
  assert (Hu : changes st
                 (updateUser (params_id req) (prop "status" (req_body req !! "status"%string) ∅) st).2).
  { apply changes_update. now rewrite prop_lookup_ne. }
  destruct (updateUser _ _ st) as [[user|] st']; exact Hu.
Qed.

Lemma insertUserSchema_partial_keys (b parsed : jsobj) (k : string) :
  insertUserSchema_partial b = Ok parsed ->
  k ∉ ["username"; "password"; "role"]%string -> parsed !! k = None.
Proof.
  unfold insertUserSchema_partial.
  destruct (optional_string (b !! "username"%string)) as [u|]; [|discriminate].
  destruct (optional_string (b !! "password"%string)) as [p|]; [|discriminate].
  destruct (optional_string (b !! "role"%string)) as [r|]; [|discriminate].
  intros [= <-] Hk. rewrite !not_elem_of_cons in Hk. destruct Hk as (? & ? & ? & _).
  unfold put_string. destruct u, p, r; now simplify_map_eq.
Qed.

(** The update that [PUT /api/admin/users/:id] passes to [updateUser]. *)
Lemma admin_update_run (salt : buffer) (req : request) (st : MemStorage) :
  match insertUserSchema_partial (req_body req) with
  | Throw _ => admin_update_handler salt req st = (reply 400 (error_body "Invalid request"), st)
  | Ok parsed =>
      exists updates : jsobj,
        (forall k, k <> "password"%string -> updates !! k = parsed !! k)
        /\ updates !! "password"%string
           = match parsed !! "password"%string with
             | Some (JStr (c :: p)) => Some (JStr (bcrypt_hash (c :: p) 12 salt))
             | other => other
             end
        /\ admin_update_handler salt req st
           = match (updateUser (params_id req) updates st).1 with
             | None => (reply 404 (error_body "User not found"),
                        (updateUser (params_id req) updates st).2)
             | Some user => (reply 200 {[ "user"%string := Object (sanitizeUser user) ]},
                             (updateUser (params_id req) updates st).2)
             end
  end.
Proof.
  unfold admin_update_handler, run, admin_update_body.
  destruct (insertUserSchema_partial (req_body req)) as [parsed|e];
    [rewrite bind_call_ok | now rewrite bind_call_throw].
  cbv beta iota zeta. rewrite bind_update.
  match goal with |- context [updateUser _ ?u st] => exists u end.
  refine (conj _ (conj _ _)); [| |destruct (updateUser _ _ st).1; reflexivity].
  - intros k Hk. destruct (parsed !! "password"%string) as [[| | |[|c p]|]|];
      try reflexivity. now rewrite lookup_insert_ne.
  - destruct (parsed !! "password"%string) as [[| | |[|c p]|]|] eqn:E;
      try exact E. apply lookup_insert_eq.
Qed.

Lemma admin_update_changes (salt : buffer) (req : request) (st : MemStorage) :
  changes st (admin_update_handler salt req st).2.
Proof.
  pose proof (admin_update_run salt req st) as H.
  destruct (insertUserSchema_partial (req_body req)) as [parsed|e] eqn:Ep.
  - destruct H as (updates & Hk & _ & ->).
    assert (Hc : changes st (updateUser (params_id req) updates st).2).
    { apply changes_update. rewrite Hk by discriminate.
      apply (insertUserSchema_partial_keys _ _ _ Ep). member. }
    now destruct (updateUser _ _ st).1.
  - rewrite H. constructor.
Qed.

Lemma me_store (req : request) (st : MemStorage) : (me_handler req st).2 = st.
Proof.
  unfold me_handler, me_body, with_id, run.
  destruct (req_user req) as [decoded|]; [|reflexivity].
  destruct (decoded !! "id"%string) as [[| | |id|]|];
    try (change (mret None ≫= ?k) with (k None); reflexivity).
  rewrite bind_update. cbn [fst snd]. now destruct (getUser id st).
Qed.

Lemma admin_users_store (req : request) (st : MemStorage) :
  (admin_users_handler req st).2 = st.
Proof. reflexivity. Qed.

(** X9. Every account route keeps the store keyed: when each account is
    stored once and under its own [id], it still is after the login,
    registration, user-listing, user-creation, status-update, user-update
    and [/api/auth/me] routes, whatever the request. In a keyed store each
    account that [getAllUsers] lists is the one [getUser] returns for the
    [id] it carries. *)
Theorem routes_keep_keyed (req : request) (st : MemStorage) :
  keyed st ->
  (forall now iat, keyed (login cfg now iat req st).2)
  /\ (forall salt id now, keyed (register salt id now req st).2)
  /\ (forall clock, keyed (admin_users cfg clock req st).2)
  /\ (forall clock salt id now, keyed (admin_create_user cfg clock salt id now req st).2)
  /\ (forall clock, keyed (admin_status cfg clock req st).2)
  /\ (forall clock salt, keyed (admin_update cfg clock salt req st).2)
  /\ (forall clock, keyed (me cfg clock req st).2)
  /\ (forall user, user ∈ getAllUsers st ->
        exists id, user !! "id"%string = Some (JStr id) /\ getUser id st = Some user).
Proof.
  intros Hk.
  refine (conj _ (conj _ (conj _ (conj _ (conj _ (conj _ (conj _ _))))))); intros.
  - eapply changes_keyed; [apply login_changes|exact Hk].
  - eapply changes_keyed; [apply register_changes|exact Hk].
  - eapply changes_keyed; [|exact Hk]. apply route_changes. intros. rewrite admin_users_store.
    constructor.
  - eapply changes_keyed; [|exact Hk]. apply route_changes. intros.
    apply admin_create_user_changes.
  - eapply changes_keyed; [|exact Hk]. apply route_changes. intros.
    apply admin_status_changes.
  - eapply changes_keyed; [|exact Hk]. apply route_changes. intros.
    apply admin_update_changes.
  - eapply changes_keyed; [|exact Hk]. apply route_changes. intros. rewrite me_store.
    constructor.
  - now apply keyed_listed.
Qed.




Lemma insertUserSchema_partial_lookup (b parsed : jsobj) (k : string) :
  insertUserSchema_partial b = Ok parsed ->
  k ∈ ["username"; "password"; "role"]%string -> parsed !! k = b !! k.
Proof.
  unfold insertUserSchema_partial.
  destruct (b !! "username"%string) as [[| | |u|]|] eqn:Eu; cbn [optional_string];
    try discriminate;
  (destruct (b !! "password"%string) as [[| | |p|]|] eqn:Epw; cbn [optional_string];
    try discriminate);
  (destruct (b !! "role"%string) as [[| | |r|]|] eqn:Er; cbn [optional_string];
    try discriminate);
  intros [= <-] Hk; cbn [put_string];
  repeat (apply elem_of_cons in Hk as [->|Hk]); try (now apply elem_of_nil in Hk);
  now simplify_map_eq.
Qed.



(** X11. A user id that is no key of the store: [updateUser] returns
    [undefined] and changes nothing, so the status route answers 404 (or
    400 for a status outside the three allowed ones) and the user-update
    route 404 (or 400 for a body the schema rejects), with the store as it
    was; [/api/auth/me] answers 404 to a verified payload whose account is
    gone. *)
Theorem unknown_id_not_found (salt : buffer) (req : request) (st : MemStorage) :
  getUser (params_id req) st = None ->
  (forall updates, updateUser (params_id req) updates st = (None, st))
  /\ admin_status_handler req st
     = (if is_str (req_body req !! "status"%string) "approved"
           || is_str (req_body req !! "status"%string) "rejected"
           || is_str (req_body req !! "status"%string) "pending"
        then reply 404 (error_body "User not found")
        else reply 400 (error_body "Invalid status"), st)
  /\ admin_update_handler salt req st
     = (match insertUserSchema_partial (req_body req) with
        | Ok _ => reply 404 (error_body "User not found")
        | Throw _ => reply 400 (error_body "Invalid request")
        end, st)
  /\ (forall decoded,
        req_user req = Some decoded ->
        decoded !! "id"%string = Some (JStr (params_id req)) ->
        me_handler req st = (reply 404 (error_body "User not found"), st)).
Proof.
  intros Hn.
  assert (Hu : forall updates, updateUser (params_id req) updates st = (None, st)).
  { intros updates. unfold updateUser. unfold getUser in Hn. now rewrite Hn. }
  refine (conj Hu (conj _ (conj _ _))).
  - unfold admin_status_handler, run, admin_status_body.
    destruct (_ || _ || _); cbn [negb]; [|reflexivity].
    now rewrite bind_update, Hu.
  - pose proof (admin_update_run salt req st) as Hr.
    destruct (insertUserSchema_partial (req_body req)) as [parsed|e]; [|exact Hr].
    destruct Hr as (updates & _ & _ & ->). now rewrite Hu.
  - intros decoded Hd Hi. unfold me_handler, run, me_body, with_id.
    rewrite Hd, Hi, bind_update. cbn [fst snd]. now rewrite Hn.
Qed.

(** X12. [PUT /api/admin/users/:id] on a stored account: a password of
    at least one character is stored as its bcrypt hash of 12 rounds,
    whatever its strength - the strong-password schema is not applied - and
    an empty password is stored as the empty string itself. The route
    changes no property other than [username], [password] and [role]: the
    status, the id and the credential blob stay. *)
Theorem admin_update_password (salt : buffer) (req : request) (st : MemStorage)
  (user parsed : jsobj) :
  getUser (params_id req) st = Some user ->
  insertUserSchema_partial (req_body req) = Ok parsed ->
  exists user',
    admin_update_handler salt req st
    = (reply 200 {[ "user"%string := Object (sanitizeUser user') ]},
       {| users := Map_set (params_id req) user' (users st) |})
    /\ getUser (params_id req) (admin_update_handler salt req st).2 = Some user'
    /\ (forall c p, req_body req !! "password"%string = Some (JStr (c :: p)) ->
          user' !! "password"%string = Some (JStr (bcrypt_hash (c :: p) 12 salt)))
    /\ (req_body req !! "password"%string = Some (JStr []) ->
          user' !! "password"%string = Some (JStr []))
    /\ (req_body req !! "password"%string = None ->
          user' !! "password"%string = user !! "password"%string)
    /\ (forall k, k ∉ ["username"; "password"; "role"]%string -> user' !! k = user !! k).
Proof.
  intros Hu Hp. pose proof (admin_update_run salt req st) as Hr. rewrite Hp in Hr.
  destruct Hr as (updates & Hk & Hpw & ->).
  rewrite (updateUser_lookup _ _ _ _ Hu). cbn [fst snd].
  exists (updates ∪ user).
  rewrite (insertUserSchema_partial_lookup _ _ _ Hp) in Hpw by member.
  refine (conj eq_refl (conj _ (conj _ (conj _ (conj _ _))))).
  - apply Map_get_set_eq.
  - intros c p Hb. apply lookup_union_Some_l. now rewrite Hpw, Hb.
  - intros Hb. apply lookup_union_Some_l. now rewrite Hpw, Hb.
  - intros Hb. rewrite lookup_union_r; [reflexivity|]. now rewrite Hpw, Hb.
  - intros k Hn. rewrite lookup_union_r; [reflexivity|].
    destruct (decide (k = "password"%string)) as [->|Hne].
    + exfalso. apply Hn. member.
    + rewrite (Hk k Hne). exact (insertUserSchema_partial_keys _ _ _ Hp Hn).
Qed.

End account_flows.

(** ** Logging in *)

Lemma reference_bcrypt_contract : BcryptContract Reference.bcrypt.
Proof.
  constructor. intros password rounds salt. cbn [bcrypt_compare bcrypt_hash Reference.bcrypt].
  apply bool_decide_eq_true. change (drop 4 (js "$2b$" ++ ?r)) with r.
  induction salt as [|x salt IH]; [reflexivity|].
  cbn [toString_hex flat_map app drop_while].
  change (flat_map _ salt) with (toString_hex salt).
  assert (H : forall n, n < 16 -> (hex_digit n =? 36) = false).
  { intros n Hn. unfold hex_digit. destruct (n <? 10); apply N.eqb_neq; lia. }
  rewrite !H; [exact IH|apply N.mod_lt; lia|].
  pose proof (Byte.to_N_bounded x). apply N.Div0.div_lt_upper_bound. lia.
Qed.

Lemma publicRegistrationSchema_login (b : jsobj) (u p : jsstring) :
  publicRegistrationSchema b = Ok (u, p) -> loginSchema b = Ok (u, p).
Proof.
  unfold publicRegistrationSchema, loginSchema, strongPasswordSchema, z_string_min.
  destruct (b !! "username"%string) as [[| | |u'|]|]; try discriminate.
  destruct (3 <=? length u')%nat eqn:E3; [|discriminate].
  destruct (b !! "password"%string) as [[| | |p'|]|]; try discriminate.
  destruct (8 <=? length p')%nat eqn:E8; [|discriminate].
  destruct (_ && _ && _); [|discriminate]. intros [= <- <-].
  apply Nat.leb_le in E3, E8.
  replace (1 <=? length u')%nat with true by (symmetry; apply Nat.leb_le; lia).
  now replace (1 <=? length p')%nat with true by (symmetry; apply Nat.leb_le; lia).
Qed.

(** X13. The registration schemas are stricter than the login schema:
    a body that public registration accepts is accepted by login with the
    same username and password, which the body holds as strings of at least
    3 and 8 code units, the password with an upper-case letter, a digit and
    a special character. What the administrator's schema accepts, public
    registration accepts; and the other way round when the body's [role] is
    absent, ['user'] or ['admin']. *)
Theorem registration_schema_stricter (b : jsobj) :
  (forall u p, publicRegistrationSchema b = Ok (u, p) ->
     loginSchema b = Ok (u, p)
     /\ b !! "username"%string = Some (JStr u)
     /\ b !! "password"%string = Some (JStr p)
     /\ (3 <= length u)%nat /\ (8 <= length p)%nat
     /\ (exists c, c ∈ p /\ 65 <= c <= 90)
     /\ (exists c, c ∈ p /\ 48 <= c <= 57)
     /\ (exists c, c ∈ p /\ special c = true))
  /\ (forall u p r, adminUserCreationSchema b = Ok (u, p, r) ->
        publicRegistrationSchema b = Ok (u, p))
  /\ (forall u p, publicRegistrationSchema b = Ok (u, p) ->
        (b !! "role"%string = None \/ b !! "role"%string = Some (JStr (js "user"))
         \/ b !! "role"%string = Some (JStr (js "admin"))) <->
        exists r, adminUserCreationSchema b = Ok (u, p, r)).
Proof.
  unfold publicRegistrationSchema, adminUserCreationSchema, loginSchema,
    strongPasswordSchema, z_string_min.
  refine (conj _ (conj _ _)).
  - intros u p.
    destruct (b !! "username"%string) as [[| | |u'|]|]; try discriminate.
    destruct (3 <=? length u')%nat eqn:E3; [|discriminate].
    destruct (b !! "password"%string) as [[| | |p'|]|]; try discriminate.
    destruct (8 <=? length p')%nat eqn:E8; [|discriminate].
    destruct (existsb upper p') eqn:Eu; [|discriminate].
    destruct (existsb digit p') eqn:Ed; [|discriminate].
    destruct (existsb special p') eqn:Es; [|discriminate].
    cbn [andb]. intros [= <- <-].
    apply Nat.leb_le in E3, E8.
    replace (1 <=? length u')%nat with true by (symmetry; apply Nat.leb_le; lia).
    replace (1 <=? length p')%nat with true by (symmetry; apply Nat.leb_le; lia).
    apply existsb_exists in Eu as (cu & Hu1 & Hu2), Ed as (cd & Hd1 & Hd2),
      Es as (cs & Hs1 & Hs2).
    unfold upper in Hu2. unfold digit in Hd2.
    apply andb_true_iff in Hu2 as [?%N.leb_le ?%N.leb_le].
    apply andb_true_iff in Hd2 as [?%N.leb_le ?%N.leb_le].
    refine (conj eq_refl (conj eq_refl (conj eq_refl (conj E3 (conj E8 (conj _ (conj _ _))))))).
    + exists cu. split; [now apply list_elem_of_In|lia].
    + exists cd. split; [now apply list_elem_of_In|lia].
    + exists cs. split; [now apply list_elem_of_In|exact Hs2].
  - intros u p r.
    destruct (match b !! "username"%string with Some (JStr s) => _ | _ => None end);
      [|discriminate].
    destruct (match match b !! "password"%string with Some (JStr s) => _ | _ => None end
              with Some s => _ | None => None end); [|discriminate].
    destruct (role_enum _); [|discriminate]. now intros [= <- <- _].
  - intros u p.
    destruct (match b !! "username"%string with Some (JStr s) => _ | _ => None end);
      [|discriminate].
    destruct (match match b !! "password"%string with Some (JStr s) => _ | _ => None end
              with Some s => _ | None => None end); [|discriminate].
    intros [= <- <-]. unfold role_enum. split.
    + intros [->|[->| ->]]; now eexists.
    + intros [r Hr]. destruct (b !! "role"%string) as [[| | |s|]|]; try discriminate;
        [|now left].
      destruct (bool_decide (s = js "user")) eqn:E1.
      * apply bool_decide_eq_true in E1. subst s. right. now left.
      * destruct (bool_decide (s = js "admin")) eqn:E2; [|discriminate].
        apply bool_decide_eq_true in E2. subst s. right. now right.
Qed.

Section login_flows.
Context {B : Bcrypt} {J : Jws}.
Variable cfg : config.

(** The login route once the account is found and its hash is a string. *)
Lemma login_found (now iat : Z) (req : request) (st : MemStorage)
  (username password : jsstring) (user : jsobj) (hash : jsstring) :
  loginSchema (req_body req) = Ok (username, password) ->
  getUserByUsername username st = Some user ->
  user !! "password"%string = Some (JStr hash) ->
  login cfg now iat req st
  = if negb (bcrypt_compare password hash) then
      (reply 401 (error_body "Invalid credentials"), st)
    else if negb (is_str (user !! "status"%string) "approved") then
      (reply 403 (with_prop "status" (user !! "status"%string)
                    (error_body "Account pending approval")), st)
    else
      let st' := match user !! "id"%string with
                 | Some (JStr id) =>
                     (updateUser id {[ "lastLoginAt"%string := JDate now ]} st).2
                 | _ => st
                 end in
      match generateToken cfg user iat with
      | Ok token =>
          (reply 200
             (<["user"%string := Object (sanitizeUser user)]>
                (<["token"%string := Val (JStr token)]>
                   {[ "expiresIn"%string := Val (JStr (js "24h")) ]})), st')
      | Throw _ => (reply 400 (error_body "Invalid request"), st')
      end.
Proof.
  intros Hp Hf Hh. unfold login, run, login_body.
  rewrite Hp, bind_call_ok. cbv beta iota. rewrite bind_read, Hf, Hh.
  cbn [compare]. rewrite bind_call_ok.
  destruct (bcrypt_compare password hash); cbn [negb]; [|reflexivity].
  destruct (is_str (user !! "status"%string) "approved"); cbn [negb]; [|reflexivity].
  unfold with_id. cbv zeta.
  destruct (user !! "id"%string) as [[| | |id|]|];
    try (change (mret None ≫= ?k) with (k None);
         destruct (generateToken cfg user iat);
         [rewrite bind_call_ok | rewrite bind_call_throw]; reflexivity).
  rewrite bind_update.
  destruct (generateToken cfg user iat);
    [rewrite bind_call_ok | rewrite bind_call_throw]; reflexivity.
Qed.

(** X14. A login with the right password for an approved account that
    is stored under its [id] records the login: the store then holds the
    account with [lastLoginAt] set to the time of the login and nothing
    else changed. With a configured token life that is a time span the
    answer is 200 with the token that [generateToken] issues for the
    account as it was found, [expiresIn: '24h'] whatever the configured
    life is, and the account still showing the login before this one. With
    a configured life that is no time span, [jwt.sign] throws after the
    login has been recorded and the answer is 400 with ['Invalid
    request']. *)
Theorem login_approved (Hb : BcryptContract B) (now iat : Z) (req : request)
  (st : MemStorage) (username password : jsstring) (user : jsobj) (id : jsstring)
  (rounds : nat) (salt : buffer) :
  loginSchema (req_body req) = Ok (username, password) ->
  getUserByUsername username st = Some user ->
  user !! "password"%string = Some (JStr (bcrypt_hash password rounds salt)) ->
  user !! "status"%string = Some (JStr (js "approved")) ->
  user !! "id"%string = Some (JStr id) ->
  getUser id st = Some user ->
  let answer := (login cfg now iat req st).1 in
  let st' := (login cfg now iat req st).2 in
  getUser id st' = Some (<["lastLoginAt"%string := JDate now]> user)
  /\ (forall id', id' <> id -> getUser id' st' = getUser id' st)
  /\ (forall span, timespan (jwt_expires_in cfg) = Some span ->
        status answer = 200%Z
        /\ generateToken cfg user iat
           = Ok (jws_sign (jwt_secret cfg) (claims_of user iat span))
        /\ body answer !! "token"%string
           = Some (Val (JStr (jws_sign (jwt_secret cfg) (claims_of user iat span))))
        /\ body answer !! "expiresIn"%string = Some (Val (JStr (js "24h")))
        /\ body answer !! "user"%string = Some (Object (sanitizeUser user))
        /\ sanitizeUser user !! "lastLoginAt"%string = user !! "lastLoginAt"%string)
  /\ (timespan (jwt_expires_in cfg) = None ->
      answer = reply 400 (error_body "Invalid request")).
Proof.
  intros Hp Hf Hh Hs Hi Hg answer st'. subst answer st'.
  rewrite (login_found now iat req st _ _ _ _ Hp Hf Hh).
  rewrite (compare_hash B Hb). cbn [negb]. unfold is_str.
  rewrite (bool_decide_eq_true_2 _ Hs). cbn [negb]. cbv zeta. rewrite Hi.
  rewrite (updateUser_lookup _ _ _ _ Hg). cbn [snd].
  refine (conj _ (conj _ (conj _ _))).
  - destruct (generateToken cfg user iat); cbn [snd]; unfold getUser; cbn [users];
      rewrite Map_get_set_eq; now rewrite insert_union_singleton_l.
  - intros id' Hne.
    destruct (generateToken cfg user iat); cbn [snd]; unfold getUser; cbn [users];
      now rewrite Map_get_set_ne.
  - intros span Ht. rewrite (generateToken_claims cfg user iat span Ht).
    cbn [fst status body reply].
    refine (conj eq_refl (conj eq_refl (conj _ (conj _ (conj _ _))))).
    + now simplify_map_eq.
    + now simplify_map_eq.
    + now simplify_map_eq.
    + unfold sanitizeUser. now rewrite !lookup_delete_ne.
  - intros Ht. unfold generateToken, Jsonwebtoken.sign. now rewrite Ht.
Qed.

(** X15. A login with the right password for an account whose status is
    not ['approved'] answers 403 with that status and no token, and changes
    nothing in the store: no last login is recorded. *)
Theorem login_not_approved (Hb : BcryptContract B) (now iat : Z) (req : request)
  (st : MemStorage) (username password : jsstring) (user : jsobj)
  (rounds : nat) (salt : buffer) :
  loginSchema (req_body req) = Ok (username, password) ->
  getUserByUsername username st = Some user ->
  user !! "password"%string = Some (JStr (bcrypt_hash password rounds salt)) ->
  user !! "status"%string <> Some (JStr (js "approved")) ->
  login cfg now iat req st
  = (reply 403 (with_prop "status" (user !! "status"%string)
                  (error_body "Account pending approval")), st)
  /\ body (login cfg now iat req st).1 !! "status"%string = Val <$> user !! "status"%string
  /\ body (login cfg now iat req st).1 !! "token"%string = None
  /\ body (login cfg now iat req st).1 !! "user"%string = None.
Proof.
  intros Hp Hf Hh Hs.
  rewrite (login_found now iat req st _ _ _ _ Hp Hf Hh).
  rewrite (compare_hash B Hb). cbn [negb]. unfold is_str.
  rewrite (bool_decide_eq_false_2 _ Hs). cbn [negb fst body reply].
  unfold with_prop, error_body.
  destruct (user !! "status"%string); now simplify_map_eq.
Qed.

Lemma Map_set_set (k : jsstring) (v v' : jsobj) (m : users_map) :
  Map_set k v' (Map_set k v m) = Map_set k v' m.
Proof.
  induction m as [|[k0 v0] m IH]; cbn [Map_set].
  - now rewrite bool_decide_eq_true_2.
  - case_bool_decide as E; cbn [Map_set].
    + now rewrite bool_decide_eq_true_2.
    + rewrite bool_decide_eq_false_2 by exact E. now rewrite IH.
Qed.

Lemma find_Map_set (p : jsobj -> bool) (k : jsstring) (u : jsobj) (m : users_map) :
  Forall (fun y => p y = false) m.*2 -> p u = true ->
  List.find p (Map_set k u m).*2 = Some u.
Proof.
  intros Hm Hu. induction m as [|[k0 v0] m IH]; cbn [Map_set fmap list_fmap snd List.find].
  - now rewrite Hu.
  - apply Forall_cons in Hm as [H0 Hm]. cbn [snd] in H0.
    case_bool_decide as E; cbn [fmap list_fmap snd List.find].
    + now rewrite Hu.
    + rewrite H0. now apply IH.
Qed.

Lemma getUserByUsername_set (username id : jsstring) (user : jsobj) (st : MemStorage) :
  getUserByUsername username st = None -> has_username username user ->
  getUserByUsername username {| users := Map_set id user (users st) |} = Some user.
Proof.
  intros Hn Hu. unfold getUserByUsername, Map_values. cbn [users].
  apply find_Map_set.
  - now apply getUserByUsername_None_all.
  - now apply bool_decide_eq_true.
Qed.

(** The account that a registration stores. *)
Lemma registered_account (salt : buffer) (id : jsstring) (now : Z)
  (username password : jsstring) (st : MemStorage) :
  let insertUser : jsobj :=
    <["username"%string := JStr username]>
      (<["password"%string := JStr (bcrypt_hash password 12 salt)]>
         {[ "role"%string := JStr (js "user") ]}) in
  let user := (createUser insertUser id now st).1 in
  has_username username user
  /\ user !! "password"%string = Some (JStr (bcrypt_hash password 12 salt))
  /\ user !! "status"%string = Some (JStr (js "pending"))
  /\ user !! "role"%string = Some (JStr (js "user"))
  /\ user !! "id"%string = Some (JStr id)
  /\ (createUser insertUser id now st).2 = {| users := Map_set id user (users st) |}.
Proof.
  cbv zeta. unfold createUser, has_username, is_str, or_else. cbn [fst snd].
  set (insertUser := <["username"%string := JStr username]> _).
  assert (Er : insertUser !! "role"%string = Some (JStr (js "user")))
    by (subst insertUser; now simplify_map_eq).
  rewrite !Er. change (truthy (Some (JStr (js "user")))) with true. cbv iota.
  case_bool_decide; [discriminate|]. subst insertUser.
  repeat split; now simplify_map_eq.
Qed.

Lemma register_then_login_pending_aux (salt : buffer) (id : jsstring) (now : Z)
  (req : request) (st : MemStorage) (username password : jsstring) :
  publicRegistrationSchema (req_body req) = Ok (username, password) ->
  getUserByUsername username st = None ->
  exists user,
    (register salt id now req st).2 = {| users := Map_set id user (users st) |}
    /\ has_username username user
    /\ user !! "password"%string = Some (JStr (bcrypt_hash password 12 salt))
    /\ user !! "status"%string = Some (JStr (js "pending"))
    /\ user !! "role"%string = Some (JStr (js "user"))
    /\ user !! "id"%string = Some (JStr id).
Proof.
  intros Hp Hf.
  pose proof (register_accepted salt id now req st _ _ Hp Hf) as Hr. cbv zeta in Hr.
  rewrite Hr. cbn [snd].
  destruct (registered_account salt id now username password st)
    as (Hn & Hh & Hs & Hro & Hi & Hst).
  eexists. refine (conj Hst (conj Hn (conj Hh (conj Hs (conj Hro Hi))))).
Qed.

(** X17. After a registration that is accepted, a login with the same
    body is refused with 403 and the status ['pending'], and every further
    registration of the username - public, or by an administrator through a
    body of the same username - is refused with 409; none of these changes
    the store any more. *)
Theorem register_then_login_pending (Hb : BcryptContract B) (salt : buffer)
  (id : jsstring) (now : Z) (req : request) (st : MemStorage)
  (username password : jsstring) :
  publicRegistrationSchema (req_body req) = Ok (username, password) ->
  getUserByUsername username st = None ->
  let st1 := (register salt id now req st).2 in
  status (register salt id now req st).1 = 201%Z
  /\ (exists user, getUserByUsername username st1 = Some user
                   /\ getUser id st1 = Some user
                   /\ user !! "status"%string = Some (JStr (js "pending")))
  /\ (forall now' iat,
        login cfg now' iat req st1
        = (reply 403 (<["status"%string := Val (JStr (js "pending"))]>
                        (error_body "Account pending approval")), st1))
  /\ (forall salt' id' now',
        register salt' id' now' req st1
        = (reply 409 (error_body "Username already exists"), st1))
  /\ (forall salt' id' now' req' password' role,
        adminUserCreationSchema (req_body req') = Ok (username, password', role) ->
        admin_create_user_handler salt' id' now' req' st1
        = (reply 409 (error_body "Username already exists"), st1)).
Proof.
  intros Hp Hf st1. subst st1.
  pose proof (register_accepted salt id now req st _ _ Hp Hf) as Hr. cbv zeta in Hr.
  rewrite Hr. cbn [fst snd].
  destruct (registered_account salt id now username password st)
    as (Hn & Hh & Hs & _ & Hi & Hst).
  set (user := (createUser _ id now st).1) in *.
  assert (Hfound : getUserByUsername username (createUser
             (<["username"%string := JStr username]>
                (<["password"%string := JStr (bcrypt_hash password 12 salt)]>
                   {[ "role"%string := JStr (js "user") ]})) id now st).2 = Some user).
  { rewrite Hst. now apply getUserByUsername_set. }
  refine (conj eq_refl (conj _ (conj _ (conj _ _)))).
  - exists user. refine (conj Hfound (conj _ Hs)).
    rewrite Hst. apply Map_get_set_eq.
  - intros now' iat.
    pose proof (publicRegistrationSchema_login _ _ _ Hp) as Hlogin.
    rewrite (login_found now' iat req _ _ _ _ _ Hlogin Hfound Hh).
    rewrite (compare_hash B Hb). cbn [negb]. unfold is_str. rewrite Hs.
    rewrite bool_decide_eq_false_2 by discriminate. reflexivity.
  - intros salt' id' now'. unfold register, run, register_body.
    rewrite Hp, bind_call_ok. cbv beta iota. now rewrite bind_read, Hfound.
  - intros salt' id' now' req' password' role Hp'.
    unfold admin_create_user_handler, run, admin_create_user_body.
    rewrite Hp', bind_call_ok. cbv beta iota. now rewrite bind_read, Hfound.
Qed.

(** X18. Registration, approval, login: once the status route has set
    the registered account to ['approved'], the login that was refused
    before answers 200 with a token for the approved account, and the
    account keeps the password hash and the role it was registered with. *)
Theorem approve_then_login (Hb : BcryptContract B) (salt : buffer) (id : jsstring)
  (now now' iat : Z) (req approve : request) (st : MemStorage)
  (username password : jsstring) (span : Z) :
  publicRegistrationSchema (req_body req) = Ok (username, password) ->
  getUserByUsername username st = None ->
  params_id approve = id ->
  req_body approve !! "status"%string = Some (JStr (js "approved")) ->
  timespan (jwt_expires_in cfg) = Some span ->
  let st1 := (register salt id now req st).2 in
  let st2 := (admin_status_handler approve st1).2 in
  status (login cfg now' iat req st1).1 = 403%Z
  /\ status (admin_status_handler approve st1).1 = 200%Z
  /\ exists user,
       getUser id st2 = Some user
       /\ user !! "status"%string = Some (JStr (js "approved"))
       /\ user !! "role"%string = Some (JStr (js "user"))
       /\ user !! "password"%string = Some (JStr (bcrypt_hash password 12 salt))
       /\ status (login cfg now' iat req st2).1 = 200%Z
       /\ body (login cfg now' iat req st2).1 !! "token"%string
          = Some (Val (JStr (jws_sign (jwt_secret cfg) (claims_of user iat span)))).
Proof.
  intros Hp Hf Hid Hbody Ht st1 st2.
  destruct (register_then_login_pending_aux salt id now req st username password Hp Hf)
    as (user1 & Hst1 & Hn1 & Hh1 & Hs1 & Hr1 & Hi1).
  fold st1 in Hst1.
  pose proof (publicRegistrationSchema_login _ _ _ Hp) as Hlogin.
  assert (Hf1 : getUserByUsername username st1 = Some user1).
  { rewrite Hst1. now apply getUserByUsername_set. }
  assert (Hg1 : getUser id st1 = Some user1).
  { rewrite Hst1. apply Map_get_set_eq. }
  set (user2 := {[ "status"%string := JStr (js "approved") ]} ∪ user1 : jsobj).
  assert (Hrun : admin_status_handler approve st1
                 = (reply 200 {[ "user"%string := Object (sanitizeUser user2) ]},
                    {| users := Map_set id user2 (users st) |})).
  { unfold admin_status_handler, run, admin_status_body. rewrite Hbody, Hid.
    unfold is_str. rewrite (bool_decide_eq_true_2 (Some (JStr (js "approved")) = _) eq_refl).
    cbn [orb negb]. rewrite bind_update. cbn [prop].
    rewrite insert_empty. rewrite (updateUser_lookup _ _ _ _ Hg1). cbn [fst snd].
    rewrite Hst1. cbn [users]. now rewrite Map_set_set. }
  assert (Hst2 : st2 = {| users := Map_set id user2 (users st) |}).
  { subst st2. now rewrite Hrun. }
  assert (Hk2 : forall k, k <> "status"%string -> user2 !! k = user1 !! k).
  { intros k Hk. subst user2. rewrite lookup_union_r; [reflexivity|].
    now apply lookup_singleton_ne. }
  assert (Hs2 : user2 !! "status"%string = Some (JStr (js "approved"))).
  { subst user2. apply lookup_union_Some_l. apply lookup_singleton_eq. }
  refine (conj _ (conj _ _)).
  - rewrite (login_found now' iat req _ _ _ _ _ Hlogin Hf1 Hh1).
    rewrite (compare_hash B Hb). cbn [negb]. unfold is_str. rewrite Hs1.
    now rewrite bool_decide_eq_false_2 by discriminate.
  - now rewrite Hrun.
  - exists user2.
    assert (Hf2 : getUserByUsername username st2 = Some user2).
    { rewrite Hst2. apply getUserByUsername_set; [exact Hf|].
      unfold has_username. now rewrite Hk2. }
    assert (Hg2 : getUser id st2 = Some user2).
    { rewrite Hst2. apply Map_get_set_eq. }
    assert (Hh2 : user2 !! "password"%string = Some (JStr (bcrypt_hash password 12 salt)))
      by now rewrite Hk2.
    assert (Hi2 : user2 !! "id"%string = Some (JStr id)) by now rewrite Hk2.
    rewrite (login_found now' iat req _ _ _ _ _ Hlogin Hf2 Hh2).
    rewrite (compare_hash B Hb). cbn [negb]. unfold is_str.
    rewrite (bool_decide_eq_true_2 _ Hs2). cbn [negb]. cbv zeta.
    rewrite (generateToken_claims cfg user2 iat span Ht). cbn [fst status body reply].
    refine (conj Hg2 (conj Hs2 (conj _ (conj Hh2 (conj eq_refl _))))).
    + now rewrite Hk2.
    + now simplify_map_eq.
Qed.

(** X19. A token outlives what the store says. For a request that
    carries a token issued for an approved account, before the token
    expires: [/api/auth/me] answers 200 with the account that is stored
    under the token's [id] now - whatever its status or role has become
    since - without its two secret properties, and 404 when no account is
    stored under that id; and when the account was an administrator at
    issue, the user listing is served whatever the store holds by then.
    From the expiry on the answer is 401. The store is not changed. *)
Theorem token_outlives_store (Hc : JwsContract J) (iat clock span : Z) (user : jsobj)
  (id : jsstring) (req : request) (st : MemStorage) :
  timespan (jwt_expires_in cfg) = Some span ->
  json_subject user ->
  user !! "status"%string = Some (JStr (js "approved")) ->
  user !! "id"%string = Some (JStr id) ->
  extractTokenFromHeader (authorization req)
  = Some (jws_sign (jwt_secret cfg) (claims_of user iat span)) ->
  ((clock < iat + span)%Z ->
   me cfg clock req st
   = (match getUser id st with
      | Some stored => reply 200 {[ "user"%string := Object (sanitizeUser stored) ]}
      | None => reply 404 (error_body "User not found")
      end, st)
   /\ (user !! "role"%string = Some (JStr (js "admin")) ->
       admin_users cfg clock req st
       = (reply 200 {[ "users"%string := Array (sanitizeUsers (getAllUsers st)) ]}, st)))
  /\ ((iat + span <= clock)%Z ->
      me cfg clock req st = (reply 401 (error_body "Access denied. Invalid token."), st)
      /\ admin_users cfg clock req st
         = (reply 401 (error_body "Access denied. Invalid token."), st)).
Proof.
  intros Ht Hj Hs Hi He. unfold me, admin_users. cbn [route]. unfold authenticateToken.
  rewrite He, (verifyToken_fresh cfg Hc user iat clock span Hj). split.
  - intros Hlt. rewrite (proj2 (Z.leb_gt _ _) Hlt).
    unfold is_str. rewrite (claims_of_lookup user iat span "status") by member.
    rewrite (bool_decide_eq_true_2 _ Hs). cbn [negb]. split.
    + unfold me_handler, run, me_body, with_id. cbn [req_user set_user].
      rewrite (claims_of_lookup user iat span "id") by member. rewrite Hi.
      rewrite bind_update. cbn [fst snd]. now destruct (getUser id st).
    + intros Hr. unfold requireAdmin. cbn [req_user set_user]. unfold is_str.
      rewrite (claims_of_lookup user iat span "role") by member.
      rewrite (bool_decide_eq_true_2 _ Hr). cbn [negb]. reflexivity.
  - intros Hle. now rewrite (proj2 (Z.leb_le _ _) Hle).
Qed.

End login_flows.

Section admin_gate_properties.
Context {B : Bcrypt} {J : Jws}.
Variable cfg : config.

(** X5. The four administrator routes for accounts - listing, creation,
    status and update - stand behind the same two gates. Either the header
    carries a token that verifies to an approved payload with role
    ['admin'], and each route runs its handler on the request with that
    payload as [req.user]; or all four give the same answer, 401 or 403
    with an [error] message, and leave the store untouched. *)
Theorem admin_routes_gate (clock : Z) (salt : buffer) (id : jsstring) (now : Z)
  (req : request) (st : MemStorage) :
  (exists token decoded,
     extractTokenFromHeader (authorization req) = Some token
     /\ verifyToken cfg token clock = Some decoded
     /\ decoded !! "status"%string = Some (JStr (js "approved"))
     /\ decoded !! "role"%string = Some (JStr (js "admin"))
     /\ admin_users cfg clock req st = admin_users_handler (set_user req decoded) st
     /\ admin_create_user cfg clock salt id now req st
        = admin_create_user_handler salt id now (set_user req decoded) st
     /\ admin_status cfg clock req st = admin_status_handler (set_user req decoded) st
     /\ admin_update cfg clock salt req st
        = admin_update_handler salt (set_user req decoded) st)
  \/ (exists r,
        (status r = 401%Z \/ status r = 403%Z)
        /\ (exists msg, body r !! "error"%string = Some (Val (JStr msg)))
        /\ admin_users cfg clock req st = (r, st)
        /\ admin_create_user cfg clock salt id now req st = (r, st)
        /\ admin_status cfg clock req st = (r, st)
        /\ admin_update cfg clock salt req st = (r, st)).
Proof.
  unfold admin_users, admin_create_user, admin_status, admin_update.
  destruct (admin_gate cfg clock req)
    as [(token & decoded & Et & Ev & Hs & Hr & Hh)|(r & Hc & He & Hh)].
  - left. exists token, decoded. rewrite !Hh. auto 10.
  - right. exists r. rewrite !Hh. auto 10.
Qed.

End admin_gate_properties.

(** ** The settings routes *)

Section settings_properties.
Context {C : Crypto} {O : OpenAI} {J : Jws}.
Variable cfg : config.

Lemma api_key_put_run (salt iv : buffer) (req : request) (st : MemStorage)
  (decoded user : jsobj) (id apiKey : jsstring) :
  req_user req = Some decoded ->
  decoded !! "id"%string = Some (JStr id) ->
  getUser id st = Some user ->
  updateApiKeySchema (req_body req) = Ok apiKey ->
  models_list apiKey = Ok tt ->
  api_key_put_handler cfg salt iv req st
  = (reply 200 (<["success"%string := Val (JBool true)]>
                  {[ "hasApiKey"%string := Val (JBool true) ]}),
     {| users := Map_set id
                   ({[ "openaiApiKey"%string :=
                         JStr (encryptApiKey (session_secret cfg) salt iv apiKey) ]} ∪ user)
                   (users st) |}).
Proof.
  intros Hu Hi Hg Hp Hm.
  unfold api_key_put_handler, run, api_key_put_body. rewrite Hu, Hp, bind_call_ok, Hm.
  cbv zeta. unfold with_id. rewrite Hi, bind_update.
  now rewrite (updateUser_lookup _ _ _ _ Hg).
Qed.

Lemma api_key_delete_run (req : request) (st : MemStorage) (decoded user : jsobj)
  (id : jsstring) :
  req_user req = Some decoded ->
  decoded !! "id"%string = Some (JStr id) ->
  getUser id st = Some user ->
  api_key_delete_handler req st
  = (reply 200 (<["success"%string := Val (JBool true)]>
                  {[ "hasApiKey"%string := Val (JBool false) ]}),
     {| users := Map_set id (<["openaiApiKey"%string := JNull]> user) (users st) |}).
Proof.
  intros Hu Hi Hg.
  unfold api_key_delete_handler, run, api_key_delete_body, with_id.
  rewrite Hu, Hi, !bind_update. rewrite (updateUser_lookup _ _ _ _ Hg).
  now rewrite <- insert_union_singleton_l.
Qed.

Lemma blob_truthy (secret : jsstring) (salt iv : buffer) (apiKey : jsstring) :
  truthy (Some (JStr (encryptApiKey secret salt iv apiKey))) = true.
Proof.
  cbn [truthy]. apply negb_true_iff, bool_decide_eq_false.
  unfold encryptApiKey. cbv zeta. cbn [join].
  intros E. apply (f_equal (@length N)) in E. rewrite !length_app in E.
  cbn [length] in E. lia.
Qed.

(** X21. Storing a credential: for a request whose verified payload has
    the id of a stored account, a body with a non-empty [apiKey] that
    [models.list()] accepts is answered 200 with [success] and [hasApiKey]
    and nothing else - the key is not echoed. The account then holds a blob
    that decrypts under the same master secret to that key (when the key is
    a well-formed string), every other property of the account and every
    other account are as before, and the settings route reports
    [hasApiKey: true]. *)
Theorem api_key_put_stored (contract : CryptoContract C) (salt iv : buffer)
  (req : request) (st : MemStorage) (decoded user : jsobj) (id apiKey : jsstring) :
  req_user req = Some decoded ->
  decoded !! "id"%string = Some (JStr id) ->
  getUser id st = Some user ->
  updateApiKeySchema (req_body req) = Ok apiKey ->
  models_list apiKey = Ok tt ->
  length iv = 12%nat ->
  well_formed apiKey = true ->
  let st' := (api_key_put_handler cfg salt iv req st).2 in
  (api_key_put_handler cfg salt iv req st).1
  = reply 200 (<["success"%string := Val (JBool true)]>
                 {[ "hasApiKey"%string := Val (JBool true) ]})
  /\ (exists blob user',
        getUser id st' = Some user'
        /\ user' !! "openaiApiKey"%string = Some (JStr blob)
        /\ decryptApiKey (session_secret cfg) blob = Ok apiKey
        /\ forall k, k <> "openaiApiKey"%string -> user' !! k = user !! k)
  /\ (forall id', id' <> id -> getUser id' st' = getUser id' st)
  /\ (settings_handler req st').1
     = reply 200 (with_prop "username" (user !! "username"%string)
                    {[ "hasApiKey"%string := Val (JBool true) ]}).
Proof.
  intros Hu Hi Hg Hp Hm Hiv Hw st'. subst st'.
  assert (Hrun : api_key_put_handler cfg salt iv req st
                 = (reply 200 (<["success"%string := Val (JBool true)]>
                                 {[ "hasApiKey"%string := Val (JBool true) ]}),
                    (updateUser id {[ "openaiApiKey"%string :=
                        JStr (encryptApiKey (session_secret cfg) salt iv apiKey) ]} st).2)).
  { unfold api_key_put_handler, run, api_key_put_body. rewrite Hu, Hp, bind_call_ok, Hm.
    cbv zeta. unfold with_id. rewrite Hi, bind_update. reflexivity. }
  rewrite Hrun. cbn [fst snd]. rewrite (updateUser_lookup _ _ _ _ Hg). cbn [snd].
  set (blob := encryptApiKey (session_secret cfg) salt iv apiKey).
  set (user' := {[ "openaiApiKey"%string := JStr blob ]} ∪ user : jsobj).
  assert (Hg' : getUser id {| users := Map_set id user' (users st) |} = Some user')
    by apply Map_get_set_eq.
  assert (Hb : user' !! "openaiApiKey"%string = Some (JStr blob)).
  { subst user'. apply lookup_union_Some_l, lookup_singleton_eq. }
  assert (Hk : forall k, k <> "openaiApiKey"%string -> user' !! k = user !! k).
  { intros k Hne. subst user'. rewrite lookup_union_r; [reflexivity|].
    now apply lookup_singleton_ne. }
  refine (conj eq_refl (conj _ (conj _ _))).
  - exists blob, user'. refine (conj Hg' (conj Hb (conj _ Hk))).
    subst blob. rewrite (decrypt_encrypt_bytes contract) by exact Hiv.
    f_equal. now apply (utf8_decode_encode C contract).
  - intros id' Hne. unfold getUser. cbn [users]. now rewrite Map_get_set_ne.
  - unfold settings_handler, run, settings_body, with_id.
    rewrite Hu, Hi, bind_update. cbn [fst snd]. rewrite Hg'. cbn [fst].
    rewrite Hb, (Hk "username"%string) by discriminate.
    replace (truthy (Some (JStr blob))) with true; [reflexivity|].
    cbn [truthy]. symmetry. apply negb_true_iff, bool_decide_eq_false.
    subst blob. unfold encryptApiKey. cbv zeta. cbn [join].
    intros E. apply (f_equal (@length N)) in E. rewrite !length_app in E.
    cbn [length] in E. lia.
Qed.

(** X22. A credential that is not stored: when the body has no [apiKey]
    string of at least one character the answer is 400 with ['Invalid
    request data'], and when [models.list()] throws for the key it is 400
    with ['Invalid OpenAI API key. Please check and try again.']; in both
    cases, and whenever the answer is not 200, the store is unchanged. As
    [encryptApiKey] does not throw, the route never answers 500. *)
Theorem api_key_put_refused (salt iv : buffer) (req : request) (st : MemStorage) :
  (forall decoded e, req_user req = Some decoded ->
     updateApiKeySchema (req_body req) = Throw e ->
     api_key_put_handler cfg salt iv req st
     = (reply 400 (error_body "Invalid request data"), st))
  /\ (forall decoded apiKey e, req_user req = Some decoded ->
        updateApiKeySchema (req_body req) = Ok apiKey ->
        models_list apiKey = Throw e ->
        api_key_put_handler cfg salt iv req st
        = (reply 400 (error_body "Invalid OpenAI API key. Please check and try again."), st))
  /\ (status (api_key_put_handler cfg salt iv req st).1 <> 200%Z ->
      (api_key_put_handler cfg salt iv req st).2 = st)
  /\ status (api_key_put_handler cfg salt iv req st).1 ∈ [200; 400; 401]%Z.
Proof.
  unfold api_key_put_handler, run, api_key_put_body, updateApiKeySchema.
  refine (conj _ (conj _ (conj _ _))).
  - intros decoded e ->. destruct (z_string_min 1 _); [discriminate|].
    intros _. now rewrite bind_call_throw.
  - intros decoded apiKey e -> Hp Hm. rewrite Hp, bind_call_ok. now rewrite Hm.
  - destruct (req_user req) as [decoded|]; [|reflexivity].
    destruct (z_string_min 1 _) as [apiKey|];
      [rewrite bind_call_ok|rewrite bind_call_throw; reflexivity].
    destruct (models_list apiKey); [|reflexivity]. cbv zeta. unfold with_id.
    destruct (decoded !! "id"%string) as [[| | |id|]|];
      try (change (mret None ≫= ?k) with (k None); reflexivity).
    rewrite bind_update. unfold mret, handler_ret. cbn [fst status reply]. congruence.
  - destruct (req_user req) as [decoded|]; [|cbn; member].
    destruct (z_string_min 1 _) as [apiKey|];
      [rewrite bind_call_ok|rewrite bind_call_throw; cbn; member].
    destruct (models_list apiKey); [|cbn; member]. cbv zeta. unfold with_id.
    destruct (decoded !! "id"%string) as [[| | |id|]|];
      try (change (mret None ≫= ?k) with (k None); cbn; member).
    rewrite bind_update. cbn. member.
Qed.

(** X23. The two credential routes do not look at what [updateUser]
    returns: for a verified payload whose [id] is no key of the store (or
    no string), storing an accepted key answers [success: true, hasApiKey:
    true] and removing it answers [success: true], while the store stays
    as it was and the settings route answers 404. *)
Theorem api_key_without_account (salt iv : buffer) (req : request) (st : MemStorage)
  (decoded : jsobj) (apiKey : jsstring) :
  req_user req = Some decoded ->
  (forall id, decoded !! "id"%string = Some (JStr id) -> getUser id st = None) ->
  updateApiKeySchema (req_body req) = Ok apiKey ->
  models_list apiKey = Ok tt ->
  api_key_put_handler cfg salt iv req st
  = (reply 200 (<["success"%string := Val (JBool true)]>
                  {[ "hasApiKey"%string := Val (JBool true) ]}), st)
  /\ api_key_delete_handler req st
     = (reply 200 (<["success"%string := Val (JBool true)]>
                     {[ "hasApiKey"%string := Val (JBool false) ]}), st)
  /\ settings_handler req st = (reply 404 (error_body "User not found"), st).
Proof.
  intros Hu Hn Hp Hm.
  unfold api_key_put_handler, api_key_delete_handler, settings_handler, run,
    api_key_put_body, api_key_delete_body, settings_body, with_id.
  rewrite Hu, Hp, bind_call_ok, Hm. cbv zeta.
  destruct (decoded !! "id"%string) as [[| | |id|]|] eqn:Ei;
    try (change (mret None ≫= ?k) with (k None); now repeat split).
  rewrite !bind_update. cbn [fst snd]. specialize (Hn id eq_refl).
  unfold updateUser. unfold getUser in Hn. rewrite Hn. unfold getUser. rewrite Hn.
  now repeat split.
Qed.

(** X24. Removing the credential: for a verified payload with the id of a
    stored account the answer is [success: true, hasApiKey: false], the
    account's [openaiApiKey] is [null] afterwards and nothing else has
    changed, and the settings route reports [hasApiKey: false] - as it does
    for an account that never stored a key. *)
Theorem api_key_delete_clears (req : request) (st : MemStorage) (decoded user : jsobj)
  (id : jsstring) :
  req_user req = Some decoded ->
  decoded !! "id"%string = Some (JStr id) ->
  getUser id st = Some user ->
  let st' := (api_key_delete_handler req st).2 in
  (api_key_delete_handler req st).1
  = reply 200 (<["success"%string := Val (JBool true)]>
                 {[ "hasApiKey"%string := Val (JBool false) ]})
  /\ getUser id st' = Some (<["openaiApiKey"%string := JNull]> user)
  /\ (forall id', id' <> id -> getUser id' st' = getUser id' st)
  /\ (settings_handler req st').1
     = reply 200 (with_prop "username" (user !! "username"%string)
                    {[ "hasApiKey"%string := Val (JBool false) ]})
  /\ (user !! "openaiApiKey"%string = Some JNull ->
      (settings_handler req st).1
      = reply 200 (with_prop "username" (user !! "username"%string)
                     {[ "hasApiKey"%string := Val (JBool false) ]})).
Proof.
  intros Hu Hi Hg st'. subst st'.
  unfold api_key_delete_handler, settings_handler, run, api_key_delete_body,
    settings_body, with_id.
  rewrite Hu, Hi, !bind_update. unfold mret, handler_ret. cbn [fst snd].
  rewrite (updateUser_lookup _ _ _ _ Hg). cbn [fst snd].
  rewrite <- insert_union_singleton_l.
  assert (Hg' : getUser id {| users := Map_set id (<["openaiApiKey"%string := JNull]> user)
                                          (users st) |}
                = Some (<["openaiApiKey"%string := JNull]> user))
    by apply Map_get_set_eq.
  refine (conj eq_refl (conj Hg' (conj _ (conj _ _)))).
  - intros id' Hne. unfold getUser. cbn [users]. now rewrite Map_get_set_ne.
  - rewrite Hg'. cbn [fst]. now simplify_map_eq.
  - intros Hk. rewrite Hg. cbn [fst]. now rewrite Hk.
Qed.

End settings_properties.

(** ** Commands *)

Lemma Map_get_delete_ne (k k' : jsstring) (m : users_map) :
  k <> k' -> Map_get k' (Map_delete k m) = Map_get k' m.
Proof.
  intros Hne. induction m as [|[k0 v0] m IH]; cbn [Map_delete Map_get]; [reflexivity|].
  destruct (bool_decide (k0 = k)) eqn:E; cbn [Map_get].
  - apply bool_decide_eq_true in E. subst k0. now rewrite bool_decide_eq_false_2.
  - now rewrite IH.
Qed.

Lemma Map_get_delete_eq (k : jsstring) (m : users_map) :
  NoDup m.*1 -> Map_get k (Map_delete k m) = None.
Proof.
  induction m as [|[k0 v0] m IH]; cbn [Map_delete Map_get fmap list_fmap fst];
    [reflexivity|].
  intros [Hk Hnd]%NoDup_cons. case_bool_decide as E.
  - subst k0. now apply Map_get_None.
  - cbn [Map_get]. rewrite bool_decide_eq_false_2 by exact E. now apply IH.
Qed.

Lemma Map_delete_absent (k : jsstring) (m : users_map) :
  Map_get k m = None -> Map_delete k m = m.
Proof.
  induction m as [|[k0 v0] m IH]; cbn [Map_delete Map_get]; [reflexivity|].
  case_bool_decide as E; [discriminate|]. intros H. now rewrite IH.
Qed.

Lemma filter_app_false {A} (p : A -> bool) (l : list A) (x : A) :
  p x = false -> List.filter p (l ++ [x]) = List.filter p l.
Proof.
  intros Hx. rewrite List.filter_app. cbn [List.filter]. rewrite Hx. apply app_nil_r.
Qed.

(** X25. [createCommand] stores the new command under the drawn id and
    returns it. The command has exactly the nine properties of the literal:
    the caller's [name] and [prompt], the temperature ['0.3'] and the
    output type ['replace'] when the caller gives none, [isActive] true and
    [publishedToUsers] false unless the caller says otherwise, and the two
    dates; no other property of the caller's object is carried over.
    Commands under other ids and the rest of the store are untouched; a
    fresh id puts the command last, and a command that is not published
    leaves the list of published commands as it was. *)
Theorem createCommand_defaults (insertCommand : jsobj) (id : jsstring)
  (created updated : Z) (fs : Store) :
  let command := (createCommand insertCommand id created updated fs).1 in
  let fs' := (createCommand insertCommand id created updated fs).2 in
  getCommand id fs' = Some command
  /\ command !! "id"%string = Some (JStr id)
  /\ command !! "name"%string = insertCommand !! "name"%string
  /\ command !! "prompt"%string = insertCommand !! "prompt"%string
  /\ command !! "createdAt"%string = Some (JDate created)
  /\ command !! "updatedAt"%string = Some (JDate updated)
  /\ (truthy (insertCommand !! "temperature"%string) = false ->
      command !! "temperature"%string = Some (JStr (js "0.3")))
  /\ (truthy (insertCommand !! "outputType"%string) = false ->
      command !! "outputType"%string = Some (JStr (js "replace")))
  /\ (insertCommand !! "isActive"%string = None -> is_active command = true)
  /\ (insertCommand !! "publishedToUsers"%string = None -> is_published command = false)
  /\ (forall k, k ∉ ["id"; "name"; "prompt"; "temperature"; "outputType"; "isActive";
                     "publishedToUsers"; "createdAt"; "updatedAt"]%string ->
        command !! k = None)
  /\ (forall id', id' <> id -> getCommand id' fs' = getCommand id' fs)
  /\ accounts fs' = accounts fs
  /\ userCommandPreferences fs' = userCommandPreferences fs
  /\ (getCommand id fs = None ->
      getAllCommands fs' = getAllCommands fs ++ [command]
      /\ (is_published command = false ->
          getPublishedCommands fs' = getPublishedCommands fs)).
Proof.
  intros command fs'. subst command fs'.
  unfold createCommand, getCommand, getPublishedCommands, getAllCommands, Map_values,
    command_literal, is_active, is_published.
  cbn [fst snd commands with_commands accounts userCommandPreferences].
  set (command := <["id"%string := JStr id]> _).
  assert (Hl : forall k v o, k <> "name"%string -> k <> "prompt"%string ->
                 (prop "name" (insertCommand !! "name"%string)
                    (prop "prompt" v o)) !! k = o !! k).
  { intros k v o H1 H2. now rewrite !prop_lookup_ne by congruence. }
  refine (conj _ (conj _ (conj _ (conj _ (conj _ (conj _ (conj _ (conj _
           (conj _ (conj _ (conj _ (conj _ (conj eq_refl (conj eq_refl _))))))))))))));
    subst command.
  - apply Map_get_set_eq.
  - now simplify_map_eq.
  - rewrite lookup_insert_ne by discriminate. apply prop_lookup_eq.
    rewrite prop_lookup_ne by discriminate. now simplify_map_eq.
  - rewrite lookup_insert_ne by discriminate. rewrite prop_lookup_ne by discriminate.
    apply prop_lookup_eq. now simplify_map_eq.
  - rewrite lookup_insert_ne by discriminate. rewrite Hl by discriminate.
    now simplify_map_eq.
  - rewrite lookup_insert_ne by discriminate. rewrite Hl by discriminate.
    now simplify_map_eq.
  - intros Ht. rewrite lookup_insert_ne by discriminate. rewrite Hl by discriminate.
    rewrite lookup_insert_eq. unfold or_else.
    destruct (insertCommand !! "temperature"%string); [now rewrite Ht|reflexivity].
  - intros Ht. rewrite lookup_insert_ne by discriminate. rewrite Hl by discriminate.
    rewrite lookup_insert_ne by discriminate. rewrite lookup_insert_eq. unfold or_else.
    destruct (insertCommand !! "outputType"%string); [now rewrite Ht|reflexivity].
  - intros ->. rewrite lookup_insert_ne by discriminate. rewrite Hl by discriminate.
    now simplify_map_eq.
  - intros ->. rewrite lookup_insert_ne by discriminate. rewrite Hl by discriminate.
    now simplify_map_eq.
  - intros k Hk. rewrite !not_elem_of_cons in Hk.
    destruct Hk as (? & ? & ? & ? & ? & ? & ? & ? & ? & _).
    rewrite lookup_insert_ne by congruence. rewrite Hl by congruence.
    now simplify_map_eq.
  - intros id' Hne. now apply Map_get_set_ne.
  - intros Hn. rewrite (Map_set_fresh _ _ _ Hn), fmap_app. split; [reflexivity|].
    intros Hp. cbn [fmap list_fmap snd]. apply (filter_app_false _ _ _).
    apply andb_false_iff. now right.
Qed.

Lemma updateCommand_lookup (id : jsstring) (updates : jsobj) (now : Z) (fs : Store)
  (command : jsobj) :
  getCommand id fs = Some command ->
  updateCommand id updates now fs
  = (Some (<["updatedAt"%string := JDate now]> (updates ∪ command)),
     with_commands fs
       (Map_set id (<["updatedAt"%string := JDate now]> (updates ∪ command)) (commands fs))).
Proof. unfold getCommand, updateCommand. now intros ->. Qed.

Lemma updateCommand_absent (id : jsstring) (updates : jsobj) (now : Z) (fs : Store) :
  getCommand id fs = None -> updateCommand id updates now fs = (None, fs).
Proof. unfold getCommand, updateCommand. now intros ->. Qed.

Section command_routes.
Context {S : CommandSchema}.

(** X26. The administrator's routes on one command. For an id that is
    no key of the command map, publishing, unpublishing and deleting answer
    404, updating answers 404 or 400, and none changes the store. For a
    stored command, publishing and unpublishing set [publishedToUsers] and
    [updatedAt] and keep every other property; an update through the
    schema keeps the [id] and the creation date; deleting removes that
    command and no other, after which the same request is answered 404.
    The accounts are never touched. *)
Theorem command_routes_by_id (contract : CommandSchemaContract S) (now : Z)
  (req : request) (fs : Store) :
  NoDup (commands fs).*1 ->
  (getCommand (params_id req) fs = None ->
   admin_command_publish_handler now req fs = (reply 404 (error_body "Command not found"), fs)
   /\ admin_command_unpublish_handler now req fs
      = (reply 404 (error_body "Command not found"), fs)
   /\ admin_command_delete_handler req fs = (reply 404 (error_body "Command not found"), fs)
   /\ (admin_command_update_handler now req fs).2 = fs
   /\ status (admin_command_update_handler now req fs).1 ∈ [400; 404]%Z)
  /\ (forall command, getCommand (params_id req) fs = Some command ->
        (forall flag handler,
           (flag = true /\ handler = admin_command_publish_handler now req fs
            \/ flag = false /\ handler = admin_command_unpublish_handler now req fs) ->
           exists command',
             handler.1 = reply 200 {[ "command"%string := Object command' ]}
             /\ getCommand (params_id req) handler.2 = Some command'
             /\ command' !! "publishedToUsers"%string = Some (JBool flag)
             /\ command' !! "updatedAt"%string = Some (JDate now)
             /\ (forall k, k <> "publishedToUsers"%string -> k <> "updatedAt"%string ->
                   command' !! k = command !! k)
             /\ (forall id', id' <> params_id req ->
                   getCommand id' handler.2 = getCommand id' fs)
             /\ accounts handler.2 = accounts fs)
        /\ (forall updates, insertCommandSchema_partial (req_body req) = Ok updates ->
              exists command',
                admin_command_update_handler now req fs
                = (reply 200 {[ "command"%string := Object command' ]},
                   with_commands fs (Map_set (params_id req) command' (commands fs)))
                /\ command' !! "id"%string = command !! "id"%string
                /\ command' !! "createdAt"%string = command !! "createdAt"%string
                /\ command' !! "updatedAt"%string = Some (JDate now))
        /\ (admin_command_delete_handler req fs).1
           = reply 200 {[ "success"%string := Val (JBool true) ]}
        /\ getCommand (params_id req) (admin_command_delete_handler req fs).2 = None
        /\ (forall id', id' <> params_id req ->
              getCommand id' (admin_command_delete_handler req fs).2 = getCommand id' fs)
        /\ accounts (admin_command_delete_handler req fs).2 = accounts fs
        /\ admin_command_delete_handler req (admin_command_delete_handler req fs).2
           = (reply 404 (error_body "Command not found"),
              (admin_command_delete_handler req fs).2)).
Proof.
  intros Hnd. split.
  - intros Hn.
    unfold admin_command_publish_handler, admin_command_unpublish_handler,
      admin_command_delete_handler, admin_command_update_handler, deleteCommand, Map_has.
    rewrite !(updateCommand_absent _ _ _ _ Hn). unfold getCommand in Hn. rewrite Hn.
    cbn [command_answer negb]. rewrite (Map_delete_absent _ _ Hn).
    assert (Hfs : with_commands fs (commands fs) = fs) by now destruct fs.
    rewrite Hfs. refine (conj eq_refl (conj eq_refl (conj eq_refl _))).
    destruct (insertCommandSchema_partial (req_body req)) as [updates|e].
    + unfold updateCommand. rewrite Hn. cbn. split; [reflexivity|member].
    + cbn. split; [reflexivity|member].
  - intros command Hc.
    refine (conj _ (conj _ _)).
    + intros flag handler Hh.
      assert (E : handler
                  = command_answer (updateCommand (params_id req)
                      {[ "publishedToUsers"%string := JBool flag ]} now fs)).
      { destruct Hh as [[-> ->]|[-> ->]]; reflexivity. }
      rewrite E, (updateCommand_lookup _ _ _ _ _ Hc). cbn [command_answer fst snd].
      eexists. refine (conj eq_refl (conj _ (conj _ (conj _ (conj _ (conj _ eq_refl)))))).
      * apply Map_get_set_eq.
      * rewrite lookup_insert_ne by discriminate. apply lookup_union_Some_l.
        apply lookup_singleton_eq.
      * apply lookup_insert_eq.
      * intros k H1 H2. rewrite lookup_insert_ne by congruence.
        rewrite lookup_union_r; [reflexivity|]. apply lookup_singleton_ne. congruence.
      * intros id' Hne. unfold getCommand. cbn [commands with_commands].
        apply Map_get_set_ne. congruence.
    + intros updates Hu. unfold admin_command_update_handler. rewrite Hu.
      rewrite (updateCommand_lookup _ _ _ _ _ Hc). cbn [command_answer].
      eexists. refine (conj eq_refl (conj _ (conj _ _))).
      * rewrite lookup_insert_ne by discriminate. rewrite lookup_union_r; [reflexivity|].
        apply (partial_keys S contract _ _ _ Hu). member.
      * rewrite lookup_insert_ne by discriminate. rewrite lookup_union_r; [reflexivity|].
        apply (partial_keys S contract _ _ _ Hu). member.
      * apply lookup_insert_eq.
    + unfold admin_command_delete_handler, deleteCommand, Map_has.
      pose proof Hc as Hc'. unfold getCommand in Hc'. rewrite Hc'. cbn [negb fst snd].
      unfold getCommand. cbn [commands with_commands accounts].
      rewrite (Map_get_delete_eq _ _ Hnd). cbn [negb].
      refine (conj eq_refl (conj eq_refl (conj _ (conj eq_refl _)))).
      * intros id' Hne. apply Map_get_delete_ne. congruence.
      * rewrite (Map_delete_absent _ (Map_delete _ _)) by now apply Map_get_delete_eq.
        reflexivity.
Qed.

End command_routes.

(** ** Text and speech processing *)

Lemma starts_with_prefix (needle haystack : jsstring) :
  starts_with needle haystack = true <-> exists post, haystack = needle ++ post.
Proof.
  unfold starts_with. rewrite bool_decide_eq_true. split.
  - intros H. exists (drop (length needle) haystack).
    rewrite <- H at 1. now rewrite take_drop.
  - intros [post ->]. now rewrite take_app_length.
Qed.

Lemma includes_substring (needle haystack : jsstring) :
  includes needle haystack = true
  <-> exists pre post, haystack = pre ++ needle ++ post.
Proof.
  induction haystack as [|c rest IH]; cbn [includes]; rewrite orb_true_iff.
  - rewrite starts_with_prefix. split.
    + intros [[post H]|H]; [|discriminate]. now exists [], post.
    + intros (pre & post & H). left. destruct pre; [now exists post|discriminate].
  - rewrite starts_with_prefix, IH. split.
    + intros [[post H]|(pre & post & H)]; [now exists [], post|].
      exists (c :: pre), post. now rewrite H.
    + intros (pre & post & H). destruct pre as [|c' pre]; [left; now exists post|].
      right. injection H as _ H. now exists pre, post.
Qed.

Section processing_properties.
Context {C : Crypto} {O : OpenAI}.
Variable cfg : config.

Lemma processing_catch_status (what : string) (e : exn) :
  status (processing_catch what e) = 400%Z \/ status (processing_catch what e) = 500%Z.
Proof.
  unfold processing_catch. destruct e; try (now right).
  destruct (includes _ _); [now left|]. destruct (includes _ _); [now left|now right].
Qed.

(** X27. The two processing routes never change the store, and answer
    200 only after a call of the OpenAI client that returned, made with
    the key that the blob of the account under the token's [id] decrypts
    to - and, for text, on a stored command that is active and published,
    with its prompt and temperature. An exception is answered 400 exactly
    when it is an error whose message contains ['Incorrect API key'] or
    ['quota'], and 500 otherwise; so a body that the schema rejects is
    answered 500. *)
Theorem processing_answers (req : request) (fs : Store) :
  (process_text_handler cfg req fs).2 = fs
  /\ (speech_to_text_handler cfg req fs).2 = fs
  /\ (status (process_text_handler cfg req fs).1 = 200%Z ->
      exists decoded text commandId command user blob key content,
        req_user req = Some decoded
        /\ textProcessSchema (req_body req) = Ok (text, commandId)
        /\ getCommand commandId fs = Some command
        /\ is_active command = true /\ is_published command = true
        /\ account_of decoded fs = Some user
        /\ user !! "openaiApiKey"%string = Some (JStr blob)
        /\ decryptApiKey (session_secret cfg) blob = Ok key
        /\ chat_completions_create key (command !! "prompt"%string) text
             (command !! "temperature"%string) = Ok content
        /\ (process_text_handler cfg req fs).1
           = reply 200 (with_prop "outputType" (command !! "outputType"%string)
                          {[ "processedText"%string := Val (or_else content (JStr [])) ]}))
  /\ (status (speech_to_text_handler cfg req fs).1 = 200%Z ->
      exists decoded audioData format user blob key transcription,
        req_user req = Some decoded
        /\ speechProcessSchema (req_body req) = Ok (audioData, format)
        /\ account_of decoded fs = Some user
        /\ user !! "openaiApiKey"%string = Some (JStr blob)
        /\ decryptApiKey (session_secret cfg) blob = Ok key
        /\ audio_transcriptions_create key audioData format = Ok transcription
        /\ (speech_to_text_handler cfg req fs).1
           = reply 200 {[ "transcription"%string := Val transcription ]})
  /\ (forall what e,
        (status (processing_catch what e) = 400%Z
         <-> exists message pre post,
               e = Error message
               /\ (message = pre ++ js "Incorrect API key" ++ post
                   \/ message = pre ++ js "quota" ++ post))
        /\ (status (processing_catch what e) <> 400%Z ->
            processing_catch what e = reply 500 (error_body what)))
  /\ (forall decoded e, req_user req = Some decoded ->
        textProcessSchema (req_body req) = Throw e ->
        (process_text_handler cfg req fs).1 = reply 500 (error_body "Failed to process text")).
Proof.
  refine (conj eq_refl (conj eq_refl (conj _ (conj _ (conj _ _))))).
  - unfold process_text_handler. cbn [fst].
    destruct (req_user req) as [decoded|]; [|discriminate].
    destruct (textProcessSchema (req_body req)) as [[text commandId]|e].
    2:{ intros H. destruct (processing_catch_status "Failed to process text" e); congruence. }
    destruct (getCommand commandId fs) as [command|] eqn:Eg; [|discriminate].
    destruct (is_active command) eqn:Ea; [|discriminate].
    destruct (is_published command) eqn:Ep; [|discriminate]. cbn [negb orb].
    destruct (account_of decoded fs) as [user|] eqn:Eu; [|discriminate].
    destruct (truthy (user !! "openaiApiKey"%string)) eqn:Et; [|discriminate].
    cbn [negb]. unfold user_key.
    destruct (user !! "openaiApiKey"%string) as [[| | |blob|]|] eqn:Eb; try discriminate.
    destruct (decryptApiKey (session_secret cfg) blob) as [key|] eqn:Ed; [|discriminate].
    destruct (chat_completions_create key _ text _) as [content|e] eqn:Ec.
    2:{ intros H. destruct (processing_catch_status "Failed to process text" e); congruence. }
    intros _. exists decoded, text, commandId, command, user, blob, key, content.
    auto 12.
  - unfold speech_to_text_handler. cbn [fst].
    destruct (req_user req) as [decoded|]; [|discriminate].
    destruct (speechProcessSchema (req_body req)) as [[audioData format]|e].
    2:{ intros H. destruct (processing_catch_status "Failed to process speech" e); congruence. }
    destruct (account_of decoded fs) as [user|] eqn:Eu; [|discriminate].
    destruct (truthy (user !! "openaiApiKey"%string)) eqn:Et; [|discriminate].
    cbn [negb]. unfold user_key.
    destruct (user !! "openaiApiKey"%string) as [[| | |blob|]|] eqn:Eb; try discriminate.
    destruct (decryptApiKey (session_secret cfg) blob) as [key|] eqn:Ed; [|discriminate].
    destruct (audio_transcriptions_create key audioData format) as [transcription|e] eqn:Ec.
    2:{ intros H. destruct (processing_catch_status "Failed to process speech" e); congruence. }
    intros _. exists decoded, audioData, format, user, blob, key, transcription.
    auto 12.
  - intros what e. unfold processing_catch. split.
    + split.
      * destruct e as [message| | | | | |]; try discriminate.
        destruct (includes (js "Incorrect API key") message) eqn:E1.
        -- intros _. apply includes_substring in E1 as (pre & post & E1).
           exists message, pre, post. split; [reflexivity|now left].
        -- destruct (includes (js "quota") message) eqn:E2; [|discriminate].
           intros _. apply includes_substring in E2 as (pre & post & E2).
           exists message, pre, post. split; [reflexivity|now right].
      * intros (message & pre & post & -> & [Hm|Hm]).
        -- replace (includes (js "Incorrect API key") message) with true; [reflexivity|].
           symmetry. apply includes_substring. now exists pre, post.
        -- destruct (includes (js "Incorrect API key") message); [reflexivity|].
           replace (includes (js "quota") message) with true; [reflexivity|].
           symmetry. apply includes_substring. now exists pre, post.
    + destruct e as [message| | | | | |]; try reflexivity.
      destruct (includes _ _); [now intros []|].
      destruct (includes _ _); [now intros []|reflexivity].
  - intros decoded e Hu He. unfold process_text_handler. cbn [fst]. rewrite Hu, He.
    revert He. unfold textProcessSchema.
    destruct (z_string_min 1 _); [destruct (z_string_min 1 _)|]; try discriminate;
      now intros [= <-].
Qed.

End processing_properties.

Lemma on_accounts_store (h : request -> MemStorage -> response * MemStorage)
  (req : request) (fs : Store) :
  (on_accounts h req fs).2 = with_accounts fs (h req (accounts fs)).2
  /\ (on_accounts h req fs).1 = (h req (accounts fs)).1.
Proof. unfold on_accounts. now destruct (h req (accounts fs)). Qed.

Section key_use.
Context {C : Crypto} {O : OpenAI}.
Variable cfg : config.

(** X28. The key that was stored is the key that is used: after the
    credential route has stored an accepted, well-formed key for an
    account, a text request of that account on an active published command
    calls the OpenAI client with exactly that key, and the answer is the
    client's; after the credential has been removed again, and for an
    account that never had one, the same request is answered 400 with the
    hint to configure a key, and the client is not called. *)
Theorem stored_key_is_used (contract : CryptoContract C) (salt iv : buffer)
  (put req : request) (fs : Store) (decoded user command : jsobj)
  (id apiKey text commandId : jsstring) :
  req_user put = Some decoded ->
  req_user req = Some decoded ->
  decoded !! "id"%string = Some (JStr id) ->
  getUser id (accounts fs) = Some user ->
  updateApiKeySchema (req_body put) = Ok apiKey ->
  models_list apiKey = Ok tt ->
  length iv = 12%nat ->
  well_formed apiKey = true ->
  textProcessSchema (req_body req) = Ok (text, commandId) ->
  getCommand commandId fs = Some command ->
  is_active command = true ->
  is_published command = true ->
  let fs1 := (on_accounts (api_key_put_handler cfg salt iv) put fs).2 in
  let fs2 := (on_accounts api_key_delete_handler put fs1).2 in
  (process_text_handler cfg req fs1).1
  = match chat_completions_create apiKey (command !! "prompt"%string) text
            (command !! "temperature"%string) with
    | Ok content =>
        reply 200 (with_prop "outputType" (command !! "outputType"%string)
                     {[ "processedText"%string := Val (or_else content (JStr [])) ]})
    | Throw e => processing_catch "Failed to process text" e
    end
  /\ (process_text_handler cfg req fs2).1 = key_missing
  /\ (user !! "openaiApiKey"%string = Some JNull ->
      (process_text_handler cfg req fs).1 = key_missing).
Proof.
  intros Hput Hreq Hi Hg Hp Hm Hiv Hw Ht Hc Ha Hpub fs1 fs2.
  assert (E1 : fs1 = with_accounts fs
                 {| users := Map_set id
                      ({[ "openaiApiKey"%string :=
                            JStr (encryptApiKey (session_secret cfg) salt iv apiKey) ]} ∪ user)
                      (users (accounts fs)) |}).
  { subst fs1. rewrite (proj1 (on_accounts_store _ _ _)).
    now rewrite (api_key_put_run cfg salt iv put _ decoded user id apiKey). }
  assert (G1 : getUser id (accounts fs1)
               = Some ({[ "openaiApiKey"%string :=
                            JStr (encryptApiKey (session_secret cfg) salt iv apiKey) ]} ∪ user)).
  { rewrite E1. apply Map_get_set_eq. }
  assert (E2 : fs2 = with_accounts fs1
                 {| users := Map_set id
                      (<["openaiApiKey"%string := JNull]>
                         ({[ "openaiApiKey"%string :=
                               JStr (encryptApiKey (session_secret cfg) salt iv apiKey) ]} ∪ user))
                      (users (accounts fs1)) |}).
  { subst fs2. rewrite (proj1 (on_accounts_store _ _ _)).
    now rewrite (api_key_delete_run put _ decoded _ id Hput Hi G1). }
  assert (C1 : getCommand commandId fs1 = Some command) by now rewrite E1.
  assert (C2 : getCommand commandId fs2 = Some command) by now rewrite E2.
  unfold process_text_handler, account_of. cbn [fst].
  rewrite Hreq, Ht, Hi, C1, C2, Hc, Ha, Hpub. cbn [negb orb].
  refine (conj _ (conj _ _)).
  - rewrite G1. unfold user_key.
    rewrite (lookup_union_Some_l _ _ _ _ (lookup_singleton_eq _ _)).
    rewrite blob_truthy. cbn [negb].
    rewrite (decrypt_encrypt_bytes contract) by exact Hiv.
    now rewrite (utf8_decode_encode C contract) by exact Hw.
  - rewrite E2. cbn [accounts with_accounts]. unfold getUser. cbn [users].
    rewrite Map_get_set_eq. now rewrite lookup_insert_eq.
  - intros Hk. rewrite Hg. now rewrite Hk.
Qed.

End key_use.

(** ** Statistics and start-up *)

Lemma filter_length_le {A} (p : A -> bool) (l : list A) :
  (length (List.filter p l) <= length l)%nat.
Proof.
  induction l as [|a l IH]; cbn [List.filter length]; [lia|].
  destruct (p a); cbn [length]; lia.
Qed.

Lemma filter_disjoint_length {A} (p q : A -> bool) (l : list A) :
  (forall a, p a = true -> q a = false) ->
  (length (List.filter p l) + length (List.filter q l) <= length l)%nat.
Proof.
  intros Hd. induction l as [|a l IH]; cbn [List.filter length]; [lia|].
  destruct (p a) eqn:Ep.
  - rewrite (Hd a Ep). cbn [length]. lia.
  - pose proof (filter_length_le q l). destruct (q a); cbn [length]; lia.
Qed.

Lemma filter_and_length {A} (p q : A -> bool) (l : list A) :
  (length (List.filter (fun a => p a && q a) l) <= length (List.filter q l))%nat.
Proof.
  induction l as [|a l IH]; cbn [List.filter length]; [lia|].
  destruct (p a), (q a); cbn [andb length]; lia.
Qed.

Lemma foldl_sum_shift (f : Session -> Z) (l : list Session) (z : Z) :
  foldl (fun total s => (total + f s)%Z) z l
  = (z + foldl (fun total s => (total + f s)%Z) 0%Z l)%Z.
Proof.
  revert z. induction l as [|a l IH]; intros z; cbn [foldl]; [lia|].
  rewrite (IH (z + f a)%Z), (IH (0 + f a)%Z). lia.
Qed.

Lemma foldl_sum_nonneg (f : Session -> Z) (l : list Session) :
  Forall (fun s => (0 <= f s)%Z) l ->
  (0 <= foldl (fun total s => (total + f s)%Z) 0%Z l)%Z.
Proof.
  induction 1 as [|a l Ha _ IH]; cbn [foldl]; [lia|].
  rewrite foldl_sum_shift. lia.
Qed.

Lemma filter_none {A} (p : A -> bool) (l : list A) :
  Forall (fun a => p a = false) l -> List.filter p l = [].
Proof.
  induction 1 as [|a l Ha _ IH]; [reflexivity|]. cbn [List.filter]. now rewrite Ha.
Qed.

Lemma filter_Forall {A} (P : A -> Prop) (p : A -> bool) (l : list A) :
  Forall P l -> Forall P (List.filter p l).
Proof.
  induction 1 as [|a l Ha _ IH]; [constructor|]. cbn [List.filter].
  destruct (p a); [now constructor|assumption].
Qed.

(** The six numbers of the statistics. *)
Lemma getAdminStatistics_lookup (today tomorrow : Z) (fs : Store) :
  let stats := getAdminStatistics today tomorrow fs in
  stats !! "totalUsers"%string
  = Some (JNum (Z.of_nat (length (getAllUsers (accounts fs)))))
  /\ stats !! "totalCommands"%string = Some (JNum (Z.of_nat (length (getAllCommands fs))))
  /\ stats !! "activeUsers"%string
     = Some (JNum (Z.of_nat (length (List.filter
          (fun user : jsobj => is_str (user !! "status"%string) "approved")
          (getAllUsers (accounts fs))))))
  /\ stats !! "pendingUsers"%string
     = Some (JNum (Z.of_nat (length (List.filter
          (fun user : jsobj => is_str (user !! "status"%string) "pending")
          (getAllUsers (accounts fs))))))
  /\ stats !! "publishedCommands"%string
     = Some (JNum (Z.of_nat (length (List.filter is_published (getAllCommands fs)))))
  /\ stats !! "usageToday"%string
     = Some (JNum (foldl (fun total session => (total + commandsUsed session)%Z) 0%Z
                     (List.filter (fun session => (today <=? sessionStart session)%Z
                                                  && (sessionStart session <? tomorrow)%Z)
                        (sessions fs).*2))).
Proof. cbv zeta. unfold getAdminStatistics. cbv zeta. repeat split; now simplify_map_eq. Qed.

Section statistics.
Context {B : Bcrypt}.

(** X16. The statistics: the approved and the pending accounts together
    are at most all accounts, the commands that are listed to users are at
    most the published ones, which are at most all commands; the usage of
    today is zero when no session started between the two midnights, in
    particular when there is no session, and it is not negative when no
    session counts a negative number of commands. An accepted registration
    under a fresh id raises the total and the pending count by one and
    leaves the count of active accounts. *)
Theorem statistics_counts (today tomorrow : Z) (fs : Store) :
  let stats := getAdminStatistics today tomorrow fs in
  exists total commands active pending published usage : Z,
    stats !! "totalUsers"%string = Some (JNum total)
    /\ stats !! "totalCommands"%string = Some (JNum commands)
    /\ stats !! "activeUsers"%string = Some (JNum active)
    /\ stats !! "pendingUsers"%string = Some (JNum pending)
    /\ stats !! "publishedCommands"%string = Some (JNum published)
    /\ stats !! "usageToday"%string = Some (JNum usage)
    /\ (0 <= active /\ 0 <= pending /\ active + pending <= total)%Z
    /\ (Z.of_nat (length (getPublishedCommands fs)) <= published <= commands)%Z
    /\ (Forall (fun s => (sessionStart s < today \/ tomorrow <= sessionStart s)%Z)
          (sessions fs).*2 -> usage = 0%Z)
    /\ (Forall (fun s => (0 <= commandsUsed s)%Z) (sessions fs).*2 -> (0 <= usage)%Z)
    /\ (forall salt id now req username password,
          publicRegistrationSchema (req_body req) = Ok (username, password) ->
          getUserByUsername username (accounts fs) = None ->
          getUser id (accounts fs) = None ->
          let stats' :=
            getAdminStatistics today tomorrow
              (on_accounts (register salt id now) req fs).2 in
          stats' !! "totalUsers"%string = Some (JNum (total + 1))
          /\ stats' !! "pendingUsers"%string = Some (JNum (pending + 1))
          /\ stats' !! "activeUsers"%string = Some (JNum active)).
Proof.
  intros stats. subst stats.
  destruct (getAdminStatistics_lookup today tomorrow fs) as (H1 & H2 & H3 & H4 & H5 & H6).
  cbv zeta in *.
  eexists _, _, _, _, _, _.
  refine (conj H1 (conj H2 (conj H3 (conj H4 (conj H5 (conj H6 (conj _ (conj _
           (conj _ (conj _ _)))))))))).
  - pose proof (filter_disjoint_length
      (fun user : jsobj => is_str (user !! "status"%string) "approved")
      (fun user : jsobj => is_str (user !! "status"%string) "pending")
      (getAllUsers (accounts fs))) as Hd.
    assert (Hdis : forall a : jsobj, is_str (a !! "status"%string) "approved" = true ->
                                     is_str (a !! "status"%string) "pending" = false).
    { intros a. unfold is_str. rewrite bool_decide_eq_true. intros ->.
      now apply bool_decide_eq_false. }
    specialize (Hd Hdis). lia.
  - unfold getPublishedCommands.
    pose proof (filter_and_length is_active is_published (getAllCommands fs)).
    pose proof (filter_length_le is_published (getAllCommands fs)). lia.
  - intros Hout. rewrite filter_none; [reflexivity|].
    eapply Forall_impl; [exact Hout|]. intros s Hs. cbv beta in Hs.
    apply andb_false_iff. rewrite Z.leb_gt, Z.ltb_ge. lia.
  - intros Hpos. now apply foldl_sum_nonneg, filter_Forall.
  - intros salt id now req username password Hp Hf Hfresh. cbv zeta.
    rewrite (proj1 (on_accounts_store _ _ _)).
    destruct (register_then_login_pending_aux salt id now req (accounts fs)
                username password Hp Hf) as (user & Hst & _ & _ & Hs & _).
    destruct (getAdminStatistics_lookup today tomorrow
                (with_accounts fs (register salt id now req (accounts fs)).2))
      as (G1 & _ & G3 & G4 & _).
    cbv zeta in G1, G3, G4. rewrite G1, G3, G4. cbn [accounts with_accounts].
    rewrite Hst. unfold getAllUsers, Map_values. cbn [users].
    unfold getUser in Hfresh. rewrite (Map_set_fresh _ _ _ Hfresh), fmap_app.
    cbn [fmap list_fmap snd]. rewrite !List.filter_app, !length_app. cbn [List.filter].
    unfold is_str. rewrite Hs.
    rewrite (bool_decide_eq_false_2 (Some (JStr (js "pending")) = Some (JStr (js "approved"))))
      by discriminate.
    rewrite (bool_decide_eq_true_2 (Some (JStr (js "pending")) = Some (JStr (js "pending"))))
      by reflexivity.
    cbn [length]. refine (conj _ (conj _ _)); do 2 f_equal; lia.
Qed.

End statistics.

Lemma Map_set_Forall (P : jsobj -> Prop) (k : jsstring) (v : jsobj) (m : users_map) :
  P v -> Forall P m.*2 -> Forall P (Map_set k v m).*2.
Proof.
  intros Hv. induction m as [|[k0 v0] m IH]; cbn [Map_set fmap list_fmap snd].
  - intros _. now constructor.
  - intros [H0 Hm]%Forall_cons. case_bool_decide; cbn [fmap list_fmap snd].
    + now constructor.
    + constructor; [exact H0|now apply IH].
Qed.

Lemma command_literal_unpublished (id : jsstring)
  (name prompt temperature outputType : option jsval) (isActive : jsval)
  (created updated : Z) :
  is_published (command_literal id name prompt temperature outputType isActive
                  (JBool false) created updated) = false.
Proof.
  unfold is_published, command_literal.
  rewrite lookup_insert_ne by discriminate. rewrite !prop_lookup_ne by discriminate.
  now simplify_map_eq.
Qed.

Lemma addDefaultCommands_from_unpublished (i : nat) (draws : nat -> jsstring * Z * Z)
  (defaults : list (string * string * string * string)) (m : users_map) :
  Forall (fun c => is_published c = false) m.*2 ->
  Forall (fun c => is_published c = false) (addDefaultCommands_from i draws defaults m).*2.
Proof.
  revert i m. induction defaults as [|[[[name prompt] temperature] outputType] rest IH];
    intros i m Hm; cbn [addDefaultCommands_from]; [exact Hm|].
  destruct (draws i) as [[id created] updated]. apply IH.
  apply Map_set_Forall; [apply command_literal_unpublished|exact Hm].
Qed.

Section startup.
Context {B : Bcrypt} {J : Jws}.
Variable cfg : config.

(** X29. Start-up. [initialize] on a store that was not initialised and
    holds no account named ['admin'] stores an approved administrator of
    that name whose password is the constant ['admin123']: a login with
    these two strings is answered 200 with a token. It adds the default
    commands unpublished, so that a store whose commands were all
    unpublished still lists none to users. It sets the flag, after which
    [initialize] does nothing, whatever it draws. *)
Theorem initialize_default_admin (Hb : BcryptContract B) (adminId : jsstring)
  (salt : buffer) (now : Z) (draws : nat -> jsstring * Z * Z) (fs : Store) :
  initialized fs = false ->
  getUserByUsername (js "admin") (accounts fs) = None ->
  let fs' := initialize adminId salt now draws fs in
  initialized fs' = true
  /\ (forall adminId' salt' now' draws', initialize adminId' salt' now' draws' fs' = fs')
  /\ (exists admin,
        getUserByUsername (js "admin") (accounts fs') = Some admin
        /\ getUser adminId (accounts fs') = Some admin
        /\ admin !! "role"%string = Some (JStr (js "admin"))
        /\ admin !! "status"%string = Some (JStr (js "approved"))
        /\ admin !! "password"%string = Some (JStr (bcrypt_hash (js "admin123") 12 salt))
        /\ forall now' iat req span,
             req_body req !! "username"%string = Some (JStr (js "admin")) ->
             req_body req !! "password"%string = Some (JStr (js "admin123")) ->
             timespan (jwt_expires_in cfg) = Some span ->
             (on_accounts (login cfg now' iat) req fs').1
             = reply 200
                 (<["user"%string := Object (sanitizeUser admin)]>
                    (<["token"%string :=
                         Val (JStr (jws_sign (jwt_secret cfg) (claims_of admin iat span)))]>
                       {[ "expiresIn"%string := Val (JStr (js "24h")) ]})))
  /\ (Forall (fun c => is_published c = false) (getAllCommands fs) ->
      getPublishedCommands fs' = []
      /\ forall clock req r fs'', commands_route cfg clock req fs' = (r, fs'') ->
           status r = 200%Z -> r = reply 200 {[ "commands"%string := Array [] ]})
  /\ userCommandPreferences fs' = userCommandPreferences fs
  /\ sessions fs' = sessions fs.
Proof.
  intros Hi Hn fs'. subst fs'. unfold initialize. rewrite Hi.
  cbn [initialized accounts commands addDefaultCommands with_commands with_accounts
       userCommandPreferences sessions].
  set (admin := <["id"%string := JStr adminId]> _).
  assert (Hname : has_username (js "admin") admin) by (subst admin; now simplify_map_eq).
  assert (Hfound : getUserByUsername (js "admin")
                     {| users := Map_set adminId admin (users (accounts fs)) |} = Some admin)
    by now apply getUserByUsername_set.
  assert (Hpw : admin !! "password"%string
                = Some (JStr (bcrypt_hash (js "admin123") 12 salt)))
    by (subst admin; now simplify_map_eq).
  assert (Hst : admin !! "status"%string = Some (JStr (js "approved")))
    by (subst admin; now simplify_map_eq).
  refine (conj eq_refl (conj (fun _ _ _ _ => eq_refl) (conj _ (conj _ (conj eq_refl eq_refl))))).
  - exists admin. refine (conj Hfound (conj _ (conj _ (conj Hst (conj Hpw _))))).
    + apply Map_get_set_eq.
    + subst admin. now simplify_map_eq.
    + intros now' iat req span Hu Hp Ht.
      rewrite (proj2 (on_accounts_store _ _ _)). cbn [accounts].
      assert (Hl : loginSchema (req_body req) = Ok (js "admin", js "admin123")).
      { unfold loginSchema. now rewrite Hu, Hp. }
      rewrite (login_found cfg now' iat req _ _ _ _ _ Hl Hfound Hpw).
      rewrite (compare_hash B Hb). cbn [negb]. unfold is_str.
      rewrite (bool_decide_eq_true_2 _ Hst). cbn [negb]. cbv zeta.
      now rewrite (generateToken_claims cfg admin iat span Ht).
  - intros Hall.
    assert (Hnone : getPublishedCommands
              {| accounts := {| users := Map_set adminId admin (users (accounts fs)) |};
                 commands := addDefaultCommands_from 0 draws defaultCommands (commands fs);
                 sessions := sessions fs;
                 userCommandPreferences := userCommandPreferences fs;
                 initialized := true |} = []).
    { unfold getPublishedCommands, getAllCommands, Map_values. cbn [commands].
      apply filter_none.
      eapply Forall_impl; [apply addDefaultCommands_from_unpublished, Hall|].
      intros c Hc. cbv beta in Hc. apply andb_false_iff. now right. }
    split; [exact Hnone|].
    intros clock req r fs''. unfold commands_route. cbn [behind].
    destruct (authenticateToken cfg clock req) as [r'|req'] eqn:Ea.
    + intros [= <- _]. revert Ea. unfold authenticateToken.
      destruct (extractTokenFromHeader _); [|intros [= <-]; discriminate].
      destruct (verifyToken _ _ _); [|intros [= <-]; discriminate].
      destruct (negb _); [intros [= <-]; discriminate|discriminate].
    + unfold commands_handler. rewrite Hnone. now intros [= <- _].
Qed.

End startup.

(** ** Command preferences *)

Section preference_properties.
Variable number_string : Z -> jsstring.
Variable date_string : Z -> jsstring.

Lemma setUserCommandPreference_lookup (preference : jsobj) (id : jsstring)
  (created updated : Z) (fs : Store) (k : string) :
  k ∉ ["updatedAt"; "createdAt"; "hasSeenNewBadge"; "isVisible"]%string ->
  (setUserCommandPreference number_string date_string preference id created updated fs).1 !! k
  = (preference ∪ {[ "id"%string := JStr id ]}) !! k.
Proof.
  intros Hk. rewrite !not_elem_of_cons in Hk. destruct Hk as (? & ? & ? & ? & _).
  unfold setUserCommandPreference. cbn [fst]. now rewrite !lookup_insert_ne by congruence.
Qed.

(** X30. The key of a preference is [userId], a hyphen, [commandId].
    For two user ids of the same length - such as two UUIDs - equal keys
    mean equal user and equal command. In general they do not: the pair of
    user [u] and command [x-c] has the key of user [u-x] and command [c].
    [setUserCommandPreference] stores the preference under the key of its
    own two ids, visible and with the badge unseen unless it says
    otherwise, and with the drawn [id] unless it brings one; a later read
    for any pair with the same key returns it, and a read for a pair with
    another key is as before. *)
Theorem preference_key_shared (preference : jsobj) (id : jsstring)
  (created updated : Z) (fs : Store) :
  (forall u1 c1 u2 c2 : jsstring,
     length u1 = length u2 ->
     preference_key number_string date_string (Some (JStr u1)) (Some (JStr c1))
     = preference_key number_string date_string (Some (JStr u2)) (Some (JStr c2)) ->
     u1 = u2 /\ c1 = c2)
  /\ (forall u x c : jsstring,
        preference_key number_string date_string
          (Some (JStr u)) (Some (JStr (x ++ js "-" ++ c)))
        = preference_key number_string date_string
            (Some (JStr (u ++ js "-" ++ x))) (Some (JStr c)))
  /\ (let full :=
        (setUserCommandPreference number_string date_string preference id created updated fs).1 in
      let fs' :=
        (setUserCommandPreference number_string date_string preference id created updated fs).2 in
      (forall userId commandId,
         preference_key number_string date_string userId commandId
         = preference_key number_string date_string
             (preference !! "userId"%string) (preference !! "commandId"%string) ->
         getUserCommandPreference number_string date_string userId commandId fs' = Some full)
      /\ (forall userId commandId,
            preference_key number_string date_string userId commandId
            <> preference_key number_string date_string
                 (preference !! "userId"%string) (preference !! "commandId"%string) ->
            getUserCommandPreference number_string date_string userId commandId fs'
            = getUserCommandPreference number_string date_string userId commandId fs)
      /\ full !! "userId"%string = preference !! "userId"%string
      /\ full !! "commandId"%string = preference !! "commandId"%string
      /\ (preference !! "isVisible"%string = None ->
          full !! "isVisible"%string = Some (JBool true))
      /\ (preference !! "hasSeenNewBadge"%string = None ->
          full !! "hasSeenNewBadge"%string = Some (JBool false))
      /\ (preference !! "id"%string = None -> full !! "id"%string = Some (JStr id))
      /\ (forall v, preference !! "id"%string = Some v -> full !! "id"%string = Some v)
      /\ commands fs' = commands fs /\ accounts fs' = accounts fs).
Proof.
  refine (conj _ (conj _ _)).
  - intros u1 c1 u2 c2 Hlen. unfold preference_key. cbn [ToString].
    intros H. apply app_inj_1 in H as [-> H]; [|exact Hlen].
    split; [reflexivity|]. now injection H.
  - intros u x c. unfold preference_key. cbn [ToString]. now rewrite <- !app_assoc.
  - cbv zeta.
    pose proof (setUserCommandPreference_lookup preference id created updated fs) as Hl.
    refine (conj _ (conj _ (conj _ (conj _ (conj _ (conj _ (conj _ (conj _
             (conj eq_refl eq_refl))))))))).
    + intros userId commandId Hk. unfold getUserCommandPreference, setUserCommandPreference.
      cbn [fst snd userCommandPreferences with_preferences]. rewrite Hk.
      apply Map_get_set_eq.
    + intros userId commandId Hk. unfold getUserCommandPreference, setUserCommandPreference.
      cbn [fst snd userCommandPreferences with_preferences].
      apply Map_get_set_ne. congruence.
    + rewrite Hl by member. destruct (preference !! "userId"%string) eqn:E.
      * now apply lookup_union_Some_l.
      * rewrite lookup_union_r by exact E. now apply lookup_singleton_ne.
    + rewrite Hl by member. destruct (preference !! "commandId"%string) eqn:E.
      * now apply lookup_union_Some_l.
      * rewrite lookup_union_r by exact E. now apply lookup_singleton_ne.
    + intros E. unfold setUserCommandPreference. cbn [fst]. rewrite E.
      now simplify_map_eq.
    + intros E. unfold setUserCommandPreference. cbn [fst]. rewrite E.
      now simplify_map_eq.
    + intros E. rewrite Hl by member. rewrite lookup_union_r by exact E.
      apply lookup_singleton_eq.
    + intros v E. rewrite Hl by member. now apply lookup_union_Some_l.
Qed.

(** X20. [PUT /api/user/command-preferences] with a body that the
    schema accepts: an id that is no stored command is answered 404, a
    command that is unpublished or inactive 403, and neither changes the
    store. For an active published command the answer carries the
    preference that is then stored for the caller and the command, with
    the [isVisible] of the body. A first preference gets the caller's id,
    the command id and [hasSeenNewBadge] false unless the body says true;
    a later one keeps the stored [hasSeenNewBadge] when the body has none.
    Commands and accounts are not touched. *)
Theorem preference_put_gates (id : jsstring) (created updated now : Z)
  (req : request) (fs : Store) (decoded : jsobj) (commandId : jsstring)
  (isVisible : bool) (hasSeenNewBadge : option bool) :
  req_user req = Some decoded ->
  commandPreferenceSchema (req_body req) = Ok (commandId, isVisible, hasSeenNewBadge) ->
  let answer :=
    preference_put_handler number_string date_string id created updated now req fs in
  let stored (s : Store) :=
    getUserCommandPreference number_string date_string
      (decoded !! "id"%string) (Some (JStr commandId)) s in
  (getCommand commandId fs = None ->
   answer = (reply 404 (error_body "Command not found"), fs))
  /\ (forall command, getCommand commandId fs = Some command ->
        is_published command && is_active command = false ->
        answer = (reply 403 (error_body "Command is not available to users"), fs))
  /\ (forall command, getCommand commandId fs = Some command ->
        is_published command && is_active command = true ->
        exists pref,
          answer.1 = reply 200 {[ "preference"%string := Object pref ]}
          /\ stored answer.2 = Some pref
          /\ pref !! "isVisible"%string = Some (JBool isVisible)
          /\ (stored fs = None ->
              pref !! "userId"%string = decoded !! "id"%string
              /\ pref !! "commandId"%string = Some (JStr commandId)
              /\ pref !! "hasSeenNewBadge"%string
                 = Some (JBool (default false hasSeenNewBadge))
              /\ pref !! "createdAt"%string = Some (JDate created))
          /\ (forall existing, stored fs = Some existing ->
                pref !! "updatedAt"%string = Some (JDate now)
                /\ pref !! "hasSeenNewBadge"%string
                   = match hasSeenNewBadge with
                     | Some b => Some (JBool b)
                     | None => existing !! "hasSeenNewBadge"%string
                     end
                /\ forall k, k ∉ ["isVisible"; "hasSeenNewBadge"; "updatedAt"]%string ->
                     pref !! k = existing !! k)
          /\ commands answer.2 = commands fs
          /\ accounts answer.2 = accounts fs).
Proof.
  intros Hu Hp answer stored. subst answer stored. unfold preference_put_handler.
  rewrite Hu, Hp. refine (conj _ (conj _ _)).
  - now intros ->.
  - intros command -> Hc. apply andb_false_iff in Hc as [-> | ->]; cbn [negb orb];
      [reflexivity|]. now rewrite orb_true_r.
  - intros command -> Hc. apply andb_true_iff in Hc as [-> ->]. cbn [negb orb]. cbv zeta.
    destruct (getUserCommandPreference number_string date_string (decoded !! "id"%string)
                (Some (JStr commandId)) fs) as [existing|] eqn:Ee.
    + unfold updateUserCommandPreference. cbv zeta.
      unfold getUserCommandPreference in Ee. rewrite Ee. cbn [fst snd].
      eexists. refine (conj eq_refl (conj _ (conj _ (conj _ (conj _ (conj eq_refl eq_refl)))))).
      * unfold getUserCommandPreference. cbn [userCommandPreferences with_preferences].
        apply Map_get_set_eq.
      * rewrite lookup_insert_ne by discriminate. apply lookup_union_Some_l.
        destruct hasSeenNewBadge; cbn [fmap option_fmap option_map prop];
          now simplify_map_eq.
      * discriminate.
      * intros ? [= <-]. refine (conj _ (conj _ _)).
        -- apply lookup_insert_eq.
        -- rewrite lookup_insert_ne by discriminate.
           destruct hasSeenNewBadge as [b|]; cbn [fmap option_fmap option_map prop].
           ++ apply lookup_union_Some_l. now simplify_map_eq.
           ++ rewrite lookup_union_r; [reflexivity|]. now simplify_map_eq.
        -- intros k Hk. rewrite !not_elem_of_cons in Hk. destruct Hk as (? & ? & ? & _).
           rewrite lookup_insert_ne by congruence. rewrite lookup_union_r; [reflexivity|].
           destruct hasSeenNewBadge; cbn [fmap option_fmap option_map prop];
             now simplify_map_eq.
    + set (preference := prop "userId" (decoded !! "id"%string) _).
      assert (Hpu : preference !! "userId"%string = decoded !! "id"%string).
      { subst preference. apply prop_lookup_eq. now simplify_map_eq. }
      assert (Hpc : preference !! "commandId"%string = Some (JStr commandId)).
      { subst preference. rewrite prop_lookup_ne by discriminate. now simplify_map_eq. }
      assert (Hpv : preference !! "isVisible"%string = Some (JBool isVisible)).
      { subst preference. rewrite prop_lookup_ne by discriminate. now simplify_map_eq. }
      assert (Hpb : preference !! "hasSeenNewBadge"%string
                    = Some (JBool (default false hasSeenNewBadge))).
      { subst preference. rewrite prop_lookup_ne by discriminate. now simplify_map_eq. }
      pose proof (setUserCommandPreference_lookup preference id created updated fs) as Hl.
      unfold setUserCommandPreference in *. cbn [fst snd] in *.
      eexists. refine (conj eq_refl (conj _ (conj _ (conj _ (conj _ (conj eq_refl eq_refl)))))).
      * unfold getUserCommandPreference. cbn [userCommandPreferences with_preferences].
        rewrite Hpu, Hpc. apply Map_get_set_eq.
      * rewrite Hpv. now simplify_map_eq.
      * intros _. refine (conj _ (conj _ (conj _ _))).
        -- rewrite Hl by member. rewrite <- Hpu.
           destruct (preference !! "userId"%string) eqn:E;
             [now apply lookup_union_Some_l|].
           rewrite lookup_union_r by exact E. now apply lookup_singleton_ne.
        -- rewrite Hl by member. now apply lookup_union_Some_l.
        -- rewrite Hpb. now simplify_map_eq.
        -- now simplify_map_eq.
      * discriminate.
Qed.

End preference_properties.

(** ** Listings *)

Lemma filter_sublist {A} (p : A -> bool) (l : list A) : sublist (List.filter p l) l.
Proof.
  induction l as [|a l IH]; cbn [List.filter]; [constructor|].
  destruct (p a); [now apply sublist_skip|now apply sublist_cons].
Qed.

Lemma filter_filter_and {A} (p q : A -> bool) (l : list A) :
  List.filter (fun a => p a && q a) l = List.filter q (List.filter p l).
Proof.
  induction l as [|a l IH]; cbn [List.filter]; [reflexivity|].
  destruct (p a) eqn:Ep; cbn [andb List.filter]; [|exact IH].
  destruct (q a); now rewrite IH.
Qed.

(** The published commands are picked, in the order of insertion, from the
    active ones, and these from all commands; what users are listed is
    what is both active and published. *)
Lemma getPublishedCommands_active (fs : Store) :
  sublist (getPublishedCommands fs) (getActiveCommands fs)
  /\ sublist (getActiveCommands fs) (getAllCommands fs)
  /\ forall command,
       command ∈ getPublishedCommands fs
       <-> command ∈ getAllCommands fs
           /\ is_active command = true /\ is_published command = true.
Proof.
  unfold getPublishedCommands, getActiveCommands. refine (conj _ (conj _ _)).
  - rewrite filter_filter_and. apply filter_sublist.
  - apply filter_sublist.
  - intros command. rewrite !list_elem_of_In, filter_In, andb_true_iff. tauto.
Qed.

(** [createSession] stores the session under the drawn id, started at the
    time of the call and with zero for every count that is not given. *)
Lemma createSession_stored (insertSession : InsertSession) (id : jsstring) (now : Z)
  (fs : Store) :
  let session := (createSession insertSession id now fs).1 in
  let fs' := (createSession insertSession id now fs).2 in
  (id, session) ∈ sessions fs'
  /\ session ∈ getUserSessions (insert_userId insertSession) fs'
  /\ sessionStart session = now
  /\ (insert_commandsUsed insertSession = None -> commandsUsed session = 0%Z)
  /\ accounts fs' = accounts fs /\ commands fs' = commands fs.
Proof.
  cbv zeta. unfold createSession. cbn [fst snd sessions accounts commands].
  set (session := Build_Session _ _ _ _ _ _ _).
  assert (Hin : (id, session) ∈ Sessions_set id session (sessions fs)).
  { induction (sessions fs) as [|[k v] m IH]; cbn [Sessions_set].
    - apply list_elem_of_here.
    - case_bool_decide; [apply list_elem_of_here|now apply list_elem_of_further]. }
  refine (conj Hin (conj _ (conj eq_refl (conj _ (conj eq_refl eq_refl))))).
  - unfold getUserSessions. cbn [sessions]. apply list_elem_of_In, filter_In. split.
    + apply list_elem_of_In, list_elem_of_fmap. now exists (id, session).
    + now apply bool_decide_eq_true.
  - intros E. subst session. cbn [commandsUsed]. now rewrite E.
Qed.

(** A published command for which the user has no preference is listed as
    visible and new, with no preference id, and otherwise as it is
    stored. *)
Lemma with_preference_default (userPreferences : list jsobj) (command : jsobj) :
  preference_for userPreferences command = None ->
  with_preference userPreferences command !! "isVisible"%string = Some (JBool true)
  /\ with_preference userPreferences command !! "isNew"%string = Some (JBool true)
  /\ with_preference userPreferences command !! "userPreferenceId"%string = None
  /\ forall k, k ∉ ["isVisible"; "isNew"; "userPreferenceId"]%string ->
       with_preference userPreferences command !! k = command !! k.
Proof.
  intros Hn. unfold with_preference. rewrite Hn. cbn [mbind option_bind assign truthy negb nullish_or].
  refine (conj _ (conj _ (conj _ _))).
  - rewrite lookup_delete_ne by discriminate. rewrite lookup_insert_ne by discriminate.
    apply lookup_insert_eq.
  - rewrite lookup_delete_ne by discriminate. apply lookup_insert_eq.
  - apply lookup_delete_eq.
  - intros k Hk. rewrite !not_elem_of_cons in Hk. destruct Hk as (? & ? & ? & _).
    rewrite lookup_delete_ne by congruence. now rewrite !lookup_insert_ne by congruence.
Qed.

Section listing_properties.
Variable number_string : Z -> jsstring.
Variable date_string : Z -> jsstring.

(** A user without preferences is listed every published command, each
    visible and new. *)
Lemma commands_with_preferences_fresh (req : request) (fs : Store) (decoded : jsobj) :
  req_user req = Some decoded ->
  getUserCommandPreferences (decoded !! "id"%string) fs = [] ->
  commands_with_preferences_handler req fs
  = (reply 200 {[ "commands"%string :=
                    Array (map (with_preference []) (getPublishedCommands fs)) ]}, fs)
  /\ Forall (fun listed : jsobj =>
               listed !! "isVisible"%string = Some (JBool true)
               /\ listed !! "isNew"%string = Some (JBool true))
       (map (with_preference []) (getPublishedCommands fs)).
Proof.
  intros Hu Hn. unfold commands_with_preferences_handler. rewrite Hu, Hn. cbv zeta.
  split; [reflexivity|]. apply Forall_forall. intros listed Hl.
  apply list_elem_of_In, in_map_iff in Hl as (command & <- & _).
  destruct (with_preference_default [] command eq_refl) as (H1 & H2 & _). now split.
Qed.

(** The preference that was stored for a user id that is a string is
    listed for that user. *)
Lemma preference_listed (preference : jsobj) (id userId : jsstring) (created updated : Z)
  (fs : Store) (req : request) (decoded : jsobj) :
  preference !! "userId"%string = Some (JStr userId) ->
  req_user req = Some decoded ->
  decoded !! "id"%string = Some (JStr userId) ->
  let full :=
    (setUserCommandPreference number_string date_string preference id created updated fs).1 in
  let fs' :=
    (setUserCommandPreference number_string date_string preference id created updated fs).2 in
  exists listed,
    preferences_handler req fs' = (reply 200 {[ "preferences"%string := Array listed ]}, fs')
    /\ full ∈ listed.
Proof.
  intros Hp Hu Hd. cbv zeta. unfold preferences_handler. rewrite Hu, Hd.
  eexists. split; [reflexivity|].
  unfold getUserCommandPreferences. apply list_elem_of_In, filter_In. split.
  - apply list_elem_of_In. unfold setUserCommandPreference, Map_values.
    cbn [fst snd userCommandPreferences with_preferences].
    apply list_elem_of_fmap. eexists (_, _). split; [reflexivity|].
    apply Map_get_elem_of, Map_get_set_eq.
  - rewrite (setUserCommandPreference_lookup number_string date_string) by member.
    rewrite (lookup_union_Some_l _ _ _ _ Hp). cbn [strict_equal].
    now apply bool_decide_eq_true.
Qed.

End listing_properties.

Section creation_route.
Context {S : CommandSchema}.

(** [POST /api/admin/commands] stores what [createCommand] makes of the
    parsed body and answers 201 with it; a body that the schema rejects is
    answered 400 and nothing is stored. *)
Lemma admin_command_create_run (id : jsstring) (created updated : Z) (req : request)
  (fs : Store) :
  admin_command_create_handler id created updated req fs
  = match insertCommandSchema (req_body req) with
    | Ok commandData =>
        (reply 201 {[ "command"%string :=
                        Object (createCommand commandData id created updated fs).1 ]},
         (createCommand commandData id created updated fs).2)
    | Throw _ => (reply 400 (error_body "Invalid request"), fs)
    end.
Proof.
  unfold admin_command_create_handler.
  destruct (insertCommandSchema (req_body req)); reflexivity.
Qed.

End creation_route.

Section user_gate.
Context {C : Crypto} {O : OpenAI} {J : Jws}.
Variable cfg : config.

(** What the gate of the user routes lets through: a handler behind
    [authenticateToken] runs on the request with the verified payload of an
    approved account as [req.user], or the gate answers 401 or 403 and the
    store stays as it is. *)
Lemma user_gate (clock : Z) (req : request) :
  (exists token decoded,
     extractTokenFromHeader (authorization req) = Some token
     /\ verifyToken cfg token clock = Some decoded
     /\ decoded !! "status"%string = Some (JStr (js "approved"))
     /\ (forall h st, route [authenticateToken cfg clock] h req st
                      = h (set_user req decoded) st)
     /\ (forall (h : request -> Store -> response * Store) fs,
           behind [authenticateToken cfg clock] h req fs = h (set_user req decoded) fs))
  \/ (exists r,
        (status r = 401%Z \/ status r = 403%Z)
        /\ (forall h st, route [authenticateToken cfg clock] h req st = (r, st))
        /\ (forall (h : request -> Store -> response * Store) fs,
              behind [authenticateToken cfg clock] h req fs = (r, fs))).
Proof.
  cbn [route behind]. destruct (authenticateToken cfg clock req) as [r|req1] eqn:Ea.
  - right. exists r. split; [|now split]. revert Ea. unfold authenticateToken.
    destruct (extractTokenFromHeader _); [|intros [= <-]; now left].
    destruct (verifyToken _ _ _); [|intros [= <-]; now left].
    destruct (negb _); [intros [= <-]; now right|discriminate].
  - left. apply authenticateToken_next in Ea as (token & decoded & Et & Ev & Hs & ->).
    exists token, decoded. auto.
Qed.

(** The settings, credential and processing routes behind their gate. *)
Lemma user_routes_gate (clock : Z) (salt iv : buffer) (req : request) (fs : Store) :
  (exists decoded,
     decoded !! "status"%string = Some (JStr (js "approved"))
     /\ settings cfg clock req (accounts fs)
        = settings_handler (set_user req decoded) (accounts fs)
     /\ api_key_put cfg clock salt iv req (accounts fs)
        = api_key_put_handler cfg salt iv (set_user req decoded) (accounts fs)
     /\ api_key_delete cfg clock req (accounts fs)
        = api_key_delete_handler (set_user req decoded) (accounts fs)
     /\ process_text cfg clock req fs = process_text_handler cfg (set_user req decoded) fs
     /\ speech_to_text cfg clock req fs
        = speech_to_text_handler cfg (set_user req decoded) fs)
  \/ (exists r,
        (status r = 401%Z \/ status r = 403%Z)
        /\ settings cfg clock req (accounts fs) = (r, accounts fs)
        /\ api_key_put cfg clock salt iv req (accounts fs) = (r, accounts fs)
        /\ api_key_delete cfg clock req (accounts fs) = (r, accounts fs)
        /\ process_text cfg clock req fs = (r, fs)
        /\ speech_to_text cfg clock req fs = (r, fs)).
Proof.
  unfold settings, api_key_put, api_key_delete, process_text, speech_to_text.
  destruct (user_gate clock req) as [(token & decoded & _ & _ & Hs & Hr & Hb)|(r & Hc & Hr & Hb)].
  - left. exists decoded. rewrite !Hr, !Hb. auto 10.
  - right. exists r. rewrite !Hr, !Hb. auto 10.
Qed.

End user_gate.

(** ** The further properties on the sample data *)

Lemma reference_command_schema_contract : CommandSchemaContract Scenario.command_schema.
Proof.
  constructor. intros b parsed k [= <-] Hk.
  apply map_lookup_filter_None. right. intros x _. exact Hk.
Qed.

Lemma admin_json_subject : json_subject Sample.admin.
Proof.
  intros k v Hk Hv.
  repeat (apply elem_of_cons in Hk as [->|Hk]);
    [| | | | now apply elem_of_nil in Hk];
    vm_compute in Hv; injection Hv as <-; reflexivity.
Qed.

(** X1 on a sample token. *)
Lemma stored_token_reaches_server_witness :
  extractTokenFromHeader
    (Client.getAuthHeaders (Client.setStoredToken (js "abc.def") ∅) !! "Authorization"%string)
  = Some (js "abc.def").
Proof.
  destruct (stored_token_reaches_server (J := Reference.jws) Sample.cfg ∅
              (js "abc.def") 97 (js "bc.def")) as (_ & H & _).
  - reflexivity.
  - reflexivity.
  - reflexivity.
  - exact H.
Defined.

(** X2 on a header with two spaces. *)
Lemma extractTokenFromHeader_shape_witness :
  exists ws, js "Bearer  abc" = js "Bearer" ++ ws ++ js "abc" /\ ws <> [].
Proof.
  destruct (extractTokenFromHeader_shape (js "Bearer  abc") (js "abc"))
    as ((_ & _ & ws & Hh & Hw & _) & _).
  - reflexivity.
  - exists ws. now split.
Defined.

(** X9 on the registration of ['alice'] in the empty store. *)
Lemma routes_keep_keyed_witness :
  keyed (register (B := Reference.bcrypt) Sample.salt (js "u-9") 0
           Sample.register_alice Sample.empty_store).2.
Proof.
  apply (routes_keep_keyed (B := Reference.bcrypt) (J := Reference.jws) Sample.cfg
           Sample.register_alice Sample.empty_store).
  split; [constructor|]. intros id user H. discriminate H.
Defined.


(** X11: approving an account in the empty store. *)
Lemma unknown_id_not_found_witness :
  admin_status_handler
    (Sample.request_with {[ "status"%string := JStr (js "approved") ]}) Sample.empty_store
  = (reply 404 (error_body "User not found"), Sample.empty_store).
Proof.
  destruct (unknown_id_not_found (B := Reference.bcrypt) Sample.salt
              (Sample.request_with {[ "status"%string := JStr (js "approved") ]})
              Sample.empty_store eq_refl) as (_ & H & _).
  rewrite H. reflexivity.
Defined.

(** X12: the administrator sets the password of ['alice'] to one letter. *)
Lemma admin_update_password_witness :
  exists user',
    getUser (js "u-2")
      (admin_update_handler (B := Reference.bcrypt) Sample.salt
         (Sample.request_with {[ "password"%string := JStr (js "x") ]}) Sample.store).2
    = Some user'
    /\ user' !! "password"%string
       = Some (JStr (bcrypt_hash (Bcrypt := Reference.bcrypt) (js "x") 12 Sample.salt))
    /\ user' !! "status"%string = Some (JStr (js "pending")).
Proof.
  destruct (admin_update_password (B := Reference.bcrypt) Sample.salt
              (Sample.request_with {[ "password"%string := JStr (js "x") ]}) Sample.store
              Sample.alice {[ "password"%string := JStr (js "x") ]})
    as (user' & _ & Hg & Hp & _ & _ & Hk).
  - reflexivity.
  - reflexivity.
  - exists user'. refine (conj Hg (conj (Hp 120 [] eq_refl) _)).
    rewrite Hk by member. reflexivity.
Defined.

(** X14 on the sample store: the administrator logs in. *)
Lemma login_approved_witness :
  status (login (B := Reference.bcrypt) (J := Reference.jws) Sample.cfg 5000 1000
            (Sample.request_with (Sample.credentials "admin" "Admin#2024")) Sample.store).1
  = 200%Z
  /\ getUser (js "u-1")
       (login (B := Reference.bcrypt) (J := Reference.jws) Sample.cfg 5000 1000
          (Sample.request_with (Sample.credentials "admin" "Admin#2024")) Sample.store).2
     = Some (<["lastLoginAt"%string := JDate 5000]> Sample.admin).
Proof.
  assert (H : _) by
    (refine (login_approved (B := Reference.bcrypt) (J := Reference.jws) Sample.cfg
               reference_bcrypt_contract 5000 1000
               (Sample.request_with (Sample.credentials "admin" "Admin#2024")) Sample.store
               (js "admin") (js "Admin#2024") Sample.admin (js "u-1") 0 [x00]
               _ _ _ _ _ _); reflexivity).
  cbv zeta in H. destruct H as (Hg & _ & Hs & _).
  destruct (Hs 86400%Z eq_refl) as (H200 & _). now split.
Defined.

(** X15 on the sample store: ['alice'] is pending. *)
Lemma login_not_approved_witness :
  login (B := Reference.bcrypt) (J := Reference.jws) Sample.cfg 5000 1000
    (Sample.request_with (Sample.credentials "alice" "Str0ng!pass")) Sample.store
  = (reply 403 (<["status"%string := Val (JStr (js "pending"))]>
                  (error_body "Account pending approval")), Sample.store).
Proof.
  refine (proj1 (login_not_approved (B := Reference.bcrypt) (J := Reference.jws) Sample.cfg
                   reference_bcrypt_contract 5000 1000
                   (Sample.request_with (Sample.credentials "alice" "Str0ng!pass"))
                   Sample.store (js "alice") (js "Str0ng!pass") Sample.alice 0 [x00]
                   _ _ _ _));
    [reflexivity..|vm_compute; discriminate].
Defined.

(** X17: ['alice'] registers in the empty store and tries to log in. *)
Lemma register_then_login_pending_witness :
  status (login (B := Reference.bcrypt) (J := Reference.jws) Sample.cfg 5000 1000
            Sample.register_alice
            (register (B := Reference.bcrypt) Sample.salt (js "u-9") 0
               Sample.register_alice Sample.empty_store).2).1 = 403%Z
  /\ status (register (B := Reference.bcrypt) Sample.salt (js "u-10") 1
               Sample.register_alice
               (register (B := Reference.bcrypt) Sample.salt (js "u-9") 0
                  Sample.register_alice Sample.empty_store).2).1 = 409%Z.
Proof.
  assert (H : _) by
    (refine (register_then_login_pending (B := Reference.bcrypt) (J := Reference.jws)
               Sample.cfg reference_bcrypt_contract Sample.salt (js "u-9") 0
               Sample.register_alice Sample.empty_store (js "alice") (js "Str0ng!pass")
               _ _); reflexivity).
  cbv zeta in H. destruct H as (_ & _ & Hl & Hr & _).
  rewrite (Hl 5000%Z 1000%Z), (Hr Sample.salt (js "u-10") 1%Z). now split.
Defined.

(** X18: the administrator approves ['alice'], who then logs in. *)
Lemma approve_then_login_witness :
  exists user,
    getUser (js "u-2")
      (admin_status_handler
         (Sample.request_with {[ "status"%string := JStr (js "approved") ]})
         (register (B := Reference.bcrypt) Sample.salt (js "u-2") 0
            Sample.register_alice Sample.empty_store).2).2 = Some user
    /\ user !! "status"%string = Some (JStr (js "approved"))
    /\ status (login (B := Reference.bcrypt) (J := Reference.jws) Sample.cfg 5000 1000
                 Sample.register_alice
                 (admin_status_handler
                    (Sample.request_with {[ "status"%string := JStr (js "approved") ]})
                    (register (B := Reference.bcrypt) Sample.salt (js "u-2") 0
                       Sample.register_alice Sample.empty_store).2).2).1 = 200%Z.
Proof.
  assert (H : _) by
    (refine (approve_then_login (B := Reference.bcrypt) (J := Reference.jws)
               Sample.cfg reference_bcrypt_contract Sample.salt (js "u-2") 0 5000 1000
               Sample.register_alice
               (Sample.request_with {[ "status"%string := JStr (js "approved") ]})
               Sample.empty_store (js "alice") (js "Str0ng!pass") 86400
               _ _ _ _ _); reflexivity).
  cbv zeta in H. destruct H as (_ & _ & user & Hg & Hs & _ & _ & H200 & _).
  exists user. auto.
Defined.

(** X19 on the sample store: the administrator's token of second 1000 at
    second 2000. *)
Lemma token_outlives_store_witness :
  me (J := Reference.jws) Sample.cfg 2000 (Sample.bearer Sample.admin ∅) Sample.store
  = (reply 200 {[ "user"%string := Object (sanitizeUser Sample.admin) ]}, Sample.store).
Proof.
  assert (H : _) by
    (refine (token_outlives_store (J := Reference.jws) Sample.cfg reference_jws_contract
               1000 2000 86400 Sample.admin (js "u-1") (Sample.bearer Sample.admin ∅)
               Sample.store _ admin_json_subject _ _ _); reflexivity).
  destruct H as (H & _). destruct H as (H & _); [lia|]. exact H.
Defined.

(** X20: ['alice'] hides the published command, and may not touch the
    unpublished one. *)
Lemma preference_put_gates_witness :
  (exists pref,
     (preference_put_handler Scenario.number_string Scenario.date_string (js "p-1") 7 7 8
        (Scenario.as_user Sample.alice (Scenario.preference_request "c-1" false))
        Scenario.catalogue).1
     = reply 200 {[ "preference"%string := Object pref ]}
     /\ pref !! "isVisible"%string = Some (JBool false)
     /\ pref !! "userId"%string = Some (JStr (js "u-2")))
  /\ status (preference_put_handler Scenario.number_string Scenario.date_string
               (js "p-1") 7 7 8
               (Scenario.as_user Sample.alice (Scenario.preference_request "c-2" false))
               Scenario.catalogue).1 = 403%Z.
Proof.
  split.
  - assert (H : _) by
      (refine (preference_put_gates Scenario.number_string Scenario.date_string
                 (js "p-1") 7 7 8
                 (Scenario.as_user Sample.alice (Scenario.preference_request "c-1" false))
                 Scenario.catalogue (JWTPayload Sample.alice) (js "c-1") false None _ _);
       reflexivity).
    cbv zeta in H. destruct H as (_ & _ & H).
    destruct (H Scenario.summarize) as (pref & Ha & _ & Hv & Hfirst & _);
      [reflexivity..|].
    destruct Hfirst as (Hu & _); [reflexivity|].
    exists pref. refine (conj Ha (conj Hv _)). rewrite Hu. reflexivity.
  - assert (H : _) by
      (refine (preference_put_gates Scenario.number_string Scenario.date_string
                 (js "p-1") 7 7 8
                 (Scenario.as_user Sample.alice (Scenario.preference_request "c-2" false))
                 Scenario.catalogue (JWTPayload Sample.alice) (js "c-2") false None _ _);
       reflexivity).
    cbv zeta in H. destruct H as (_ & H & _).
    rewrite (H Scenario.draft); [reflexivity|reflexivity..].
Defined.

(** X21 on the sample store: ['alice'] stores the key [sk-test]. *)
Lemma api_key_put_stored_witness :
  exists blob user',
    getUser (js "u-2")
      (api_key_put_handler (C := Reference.crypto) (O := Scenario.openai) Sample.cfg
         Sample.salt Sample.iv (Scenario.as_user Sample.alice (Scenario.api_key "sk-test"))
         Sample.store).2 = Some user'
    /\ user' !! "openaiApiKey"%string = Some (JStr blob)
    /\ decryptApiKey (C := Reference.crypto) Sample.secret blob = Ok (js "sk-test").
Proof.
  assert (H : _) by
    (refine (api_key_put_stored (C := Reference.crypto) (O := Scenario.openai) Sample.cfg
               reference_crypto_contract Sample.salt Sample.iv
               (Scenario.as_user Sample.alice (Scenario.api_key "sk-test")) Sample.store
               (JWTPayload Sample.alice) Sample.alice (js "u-2") (js "sk-test")
               _ _ _ _ _ _ _); reflexivity).
  cbv zeta in H. destruct H as (_ & (blob & user' & Hg & Hb & Hd & _) & _).
  exists blob, user'. auto.
Defined.

(** X23: the same request after the store has been emptied. *)
Lemma api_key_without_account_witness :
  api_key_put_handler (C := Reference.crypto) (O := Scenario.openai) Sample.cfg
    Sample.salt Sample.iv (Scenario.as_user Sample.alice (Scenario.api_key "sk-test"))
    Sample.empty_store
  = (reply 200 (<["success"%string := Val (JBool true)]>
                  {[ "hasApiKey"%string := Val (JBool true) ]}), Sample.empty_store).
Proof.
  refine (proj1 (api_key_without_account (C := Reference.crypto) (O := Scenario.openai)
                   Sample.cfg Sample.salt Sample.iv
                   (Scenario.as_user Sample.alice (Scenario.api_key "sk-test"))
                   Sample.empty_store (JWTPayload Sample.alice) (js "sk-test") _ _ _ _));
    [reflexivity|intros id _; reflexivity|reflexivity..].
Defined.

(** X24 on the sample store: ['alice'] removes her key. *)
Lemma api_key_delete_clears_witness :
  getUser (js "u-2")
    (api_key_delete_handler (Scenario.as_user Sample.alice ∅) Sample.store).2
  = Some (<["openaiApiKey"%string := JNull]> Sample.alice).
Proof.
  assert (H : _) by
    (refine (api_key_delete_clears (Scenario.as_user Sample.alice ∅) Sample.store
               (JWTPayload Sample.alice) Sample.alice (js "u-2") _ _ _);
     reflexivity).
  cbv zeta in H. destruct H as (_ & H & _). exact H.
Defined.

(** X26 on the sample catalogue: the draft is published, and an unknown
    command is not found. *)
Lemma command_routes_by_id_witness :
  (exists command',
     getCommand (js "c-2")
       (admin_command_publish_handler 9
          {| authorization := None; params_id := js "c-2"; req_body := ∅;
             req_user := None |} Scenario.catalogue).2 = Some command'
     /\ command' !! "publishedToUsers"%string = Some (JBool true)
     /\ command' !! "name"%string = Some (JStr (js "Draft")))
  /\ admin_command_delete_handler
       {| authorization := None; params_id := js "c-9"; req_body := ∅; req_user := None |}
       Scenario.catalogue
     = (reply 404 (error_body "Command not found"), Scenario.catalogue).
Proof.
  assert (Hnd : NoDup (commands Scenario.catalogue).*1).
  { change (NoDup [js "c-1"; js "c-2"]). apply NoDup_cons. split; [|apply NoDup_singleton].
    rewrite list_elem_of_singleton. discriminate. }
  split.
  - destruct (command_routes_by_id (S := Scenario.command_schema)
                reference_command_schema_contract 9
                {| authorization := None; params_id := js "c-2"; req_body := ∅;
                   req_user := None |} Scenario.catalogue Hnd) as (_ & H).
    destruct (H Scenario.draft eq_refl) as (Hp & _).
    destruct (Hp true _ (or_introl (conj eq_refl eq_refl)))
      as (command' & _ & Hg & Hf & _ & Hk & _).
    exists command'. refine (conj Hg (conj Hf _)).
    rewrite Hk by discriminate. reflexivity.
  - destruct (command_routes_by_id (S := Scenario.command_schema)
                reference_command_schema_contract 9
                {| authorization := None; params_id := js "c-9"; req_body := ∅;
                   req_user := None |} Scenario.catalogue Hnd) as (H & _).
    destruct (H eq_refl) as (_ & _ & Hd & _). exact Hd.
Defined.

(** X28 on the sample catalogue: ['alice'] stores [sk-test] and has a text
    summarised; the stand-in client answers with the text. *)
Lemma stored_key_is_used_witness :
  (process_text_handler (C := Reference.crypto) (O := Scenario.openai) Sample.cfg
     (Scenario.as_user Sample.alice (Scenario.text_request "hello" "c-1"))
     (on_accounts
        (api_key_put_handler (C := Reference.crypto) (O := Scenario.openai) Sample.cfg
           Sample.salt Sample.iv)
        (Scenario.as_user Sample.alice (Scenario.api_key "sk-test")) Scenario.catalogue).2).1
  = reply 200 (<["outputType"%string := Val (JStr (js "replace"))]>
                 {[ "processedText"%string := Val (JStr (js "hello")) ]}).
Proof.
  assert (H : _) by
    (refine (stored_key_is_used (C := Reference.crypto) (O := Scenario.openai) Sample.cfg
               reference_crypto_contract Sample.salt Sample.iv
               (Scenario.as_user Sample.alice (Scenario.api_key "sk-test"))
               (Scenario.as_user Sample.alice (Scenario.text_request "hello" "c-1"))
               Scenario.catalogue (JWTPayload Sample.alice) Sample.alice Scenario.summarize
               (js "u-2") (js "sk-test") (js "hello") (js "c-1")
               _ _ _ _ _ _ _ _ _ _ _ _); reflexivity).
  cbv zeta in H. destruct H as (H & _). rewrite H. reflexivity.
Defined.

(** X29 on the new store: the default administrator logs in with
    ['admin123'], and no command is listed to users. *)
Lemma initialize_default_admin_witness :
  status (on_accounts (login (B := Reference.bcrypt) (J := Reference.jws) Sample.cfg 5000 1000)
            (Sample.request_with (Sample.credentials "admin" "admin123"))
            (initialize (B := Reference.bcrypt) (js "u-0") Sample.salt 0 Scenario.draws
               new_store)).1 = 200%Z
  /\ getPublishedCommands
       (initialize (B := Reference.bcrypt) (js "u-0") Sample.salt 0 Scenario.draws new_store)
     = [].
Proof.
  assert (H : _) by
    (refine (initialize_default_admin (B := Reference.bcrypt) (J := Reference.jws)
               Sample.cfg reference_bcrypt_contract (js "u-0") Sample.salt 0 Scenario.draws
               new_store _ _); reflexivity).
  cbv zeta in H. destruct H as (_ & _ & (admin & _ & _ & _ & _ & _ & Hl) & Hc & _).
  split.
  - rewrite (Hl 5000%Z 1000%Z _ 86400%Z); [reflexivity|reflexivity..].
  - apply Hc. constructor.
Defined.
